(** * Pulse Play: the per-page video speed controller

    A shallow embedding of [VideoSpeedController] from
    [content/content-script.js]: video detection and active-video
    selection, speed boost and restore, the hotkey state and its forced
    reset on blur / tab-hidden, hotkey matching, hotkey validation and the
    pruning of detached videos; further the key handlers, the speed
    indicator, the lifecycle handlers of a video and the handling of DOM
    mutations.

    Conventions of the embedding.
    - A DOM element is an identity ([VideoId]) plus its observable
      properties, kept in the page ([element]); the controller's [Map]s
      keyed by elements are finite maps keyed by identities.
    - A JavaScript number is [JS.Number]: NaN, the two infinities, or a
      finite value, taken as a rational. Comparisons follow IEEE 754 (every
      comparison with NaN is false). The product [width * height] is the
      exact one.
    - [Date.now()] is a natural number of milliseconds; one reading is
      passed to each top-level operation.
    - [try { ... } catch] blocks appear where the modelled body can throw:
      the assignment to [playbackRate] (the tests of the repository
      install setters that throw) and methods called on a value that
      lacks them ([toLowerCase] on a non-string, [toFixed] on a
      non-number). *)

From stdpp Require Import gmap strings list fin_maps.
From Stdlib Require Import QArith Lqa Ascii.

Open Scope string_scope.
Open Scope list_scope.

(** ** JavaScript values *)

Module JS.

Inductive Number :=
| NaN
| PosInfinity
| NegInfinity
| Finite (q : Q).

Definition Qltb (a b : Q) : bool := negb (Qle_bool b a).

(** [a <= b] on numbers. *)
Definition leb (a b : Number) : bool :=
  match a, b with
  | NaN, _ | _, NaN => false
  | NegInfinity, _ => true
  | _, PosInfinity => true
  | PosInfinity, _ => false
  | _, NegInfinity => false
  | Finite p, Finite q => Qle_bool p q
  end.

(** [a < b] on numbers. *)
Definition ltb (a b : Number) : bool :=
  match a, b with
  | NaN, _ | _, NaN => false
  | PosInfinity, _ => false
  | _, NegInfinity => false
  | NegInfinity, _ => true
  | _, PosInfinity => true
  | Finite p, Finite q => Qltb p q
  end.

Definition ofZ (z : Z) : Number := Finite (inject_Z z).

Inductive Value :=
| Undefined
| Null
| Bool (b : bool)
| Num (n : Number)
| Str (s : string)
| Object.

(** [typeof v === "number"] *)
Definition isNumber (v : Value) : bool :=
  match v with Num _ => true | _ => false end.

(** Truthiness of a string: the empty string is falsy. *)
Definition nonEmpty (s : string) : bool :=
  match s with EmptyString => false | _ => true end.

Definition lowerAscii (c : ascii) : ascii :=
  let n := nat_of_ascii c in
  if (65 <=? n)%nat && (n <=? 90)%nat then ascii_of_nat (n + 32) else c.

(** [s.toLowerCase()], on the ASCII letters. *)
Fixpoint toLowerCase (s : string) : string :=
  match s with
  | EmptyString => EmptyString
  | String c s' => String (lowerAscii c) (toLowerCase s')
  end.

(** [s.includes(sub)] *)
Fixpoint includes (s sub : string) : bool :=
  String.prefix sub s ||
  match s with
  | EmptyString => false
  | String _ s' => includes s' sub
  end.

Definition isDigit (c : ascii) : bool :=
  let n := nat_of_ascii c in (48 <=? n)%nat && (n <=? 57)%nat.

Definition isLetter (c : ascii) : bool :=
  let n := nat_of_ascii c in
  ((65 <=? n)%nat && (n <=? 90)%nat) || ((97 <=? n)%nat && (n <=? 122)%nat).

Fixpoint allDigits (s : string) : bool :=
  match s with
  | EmptyString => true
  | String c s' => isDigit c && allDigits s'
  end.

(** [[...new Set(l)]]: duplicates dropped, first occurrences kept in order. *)
Fixpoint uniqueFrom {A} `{EqDecision A} (seen l : list A) : list A :=
  match l with
  | [] => []
  | x :: l' =>
      if decide (x ∈ seen) then uniqueFrom seen l'
      else x :: uniqueFrom (x :: seen) l'
  end.

Definition unique {A} `{EqDecision A} (l : list A) : list A := uniqueFrom [] l.

(** [l.join(sep)] *)
Fixpoint join (sep : string) (l : list string) : string :=
  match l with
  | [] => EmptyString
  | [x] => x
  | x :: l' => x +:+ sep +:+ join sep l'
  end.

End JS.

(** ** The document *)

(** Identity of a DOM element object. *)
Abbreviation VideoId := nat.

(** The properties of an element that the controller reads or writes.
    [acceptsRate r] tells whether the assignment [el.playbackRate = r]
    goes through; otherwise the setter throws. *)
Record VideoElement := mkVideoElement {
  tagName : string;
  rectWidth : Q;
  rectHeight : Q;
  src : string;
  hasSourceChild : bool;
  currentSrc : string;
  hasOffsetParent : bool;
  display : string;
  visibility : string;
  opacity : string;
  playbackRate : JS.Value;
  acceptsRate : JS.Value → bool;
  paused : bool;
  ended : bool;
  inDocument : bool
}.

Definition withPlaybackRate (r : JS.Value) (el : VideoElement) : VideoElement :=
  {| tagName := tagName el; rectWidth := rectWidth el;
     rectHeight := rectHeight el; src := src el;
     hasSourceChild := hasSourceChild el; currentSrc := currentSrc el;
     hasOffsetParent := hasOffsetParent el; display := display el;
     visibility := visibility el; opacity := opacity el;
     playbackRate := r; acceptsRate := acceptsRate el;
     paused := paused el; ended := ended el; inDocument := inDocument el |}.

(** Class state of a node carrying the indicator id. *)
Inductive IndicatorPhase := IndicatorVisible | IndicatorHiding.

(** The document as the controller sees it. [element] gives the element
    object behind an identity; [querySelectorAll] answers a selector with
    the matching elements in document order; [indicatorNodes] are the nodes
    that carry the indicator id, in document order ([getElementById] finds
    the first); [styleNodes] counts the nodes that carry the id of the
    style element. *)
Record Page := mkPage {
  hostname : string;
  element : VideoId → VideoElement;
  querySelectorAll : string → list VideoId;
  documentHidden : bool;
  indicatorNodes : list IndicatorPhase;
  styleNodes : nat
}.

Definition withElement (v : VideoId) (el : VideoElement) (p : Page) : Page :=
  {| hostname := hostname p;
     element := λ u, if decide (u = v) then el else element p u;
     querySelectorAll := querySelectorAll p;
     documentHidden := documentHidden p;
     indicatorNodes := indicatorNodes p;
     styleNodes := styleNodes p |}.

Definition withIndicatorNodes (ns : list IndicatorPhase) (p : Page) : Page :=
  {| hostname := hostname p; element := element p;
     querySelectorAll := querySelectorAll p;
     documentHidden := documentHidden p;
     indicatorNodes := ns; styleNodes := styleNodes p |}.

Definition withStyleNodes (n : nat) (p : Page) : Page :=
  {| hostname := hostname p; element := element p;
     querySelectorAll := querySelectorAll p;
     documentHidden := documentHidden p;
     indicatorNodes := indicatorNodes p; styleNodes := n |}.

(** [video.playbackRate = r]: [None] when the setter throws. *)
Definition setPlaybackRate (v : VideoId) (r : JS.Value) (p : Page) : option Page :=
  if acceptsRate (element p v) r
  then Some (withElement v (withPlaybackRate r (element p v)) p)
  else None.

(** ** The controller *)

Inductive Platform := Youtube | Vimeo | Netflix | Generic.

Record VideoState := mkVideoState {
  originalRate : JS.Value;
  isSpeedBoosted : bool;
  platform : Platform;
  lastInteraction : N
}.

Record Modifiers := mkModifiers {
  ctrl : bool;
  alt : bool;
  shift : bool;
  meta : bool
}.

(** What [normalizeKey] returns: a string, or the value of a property the
    alias table inherits from [Object.prototype], named by the property. *)
Inductive NormKey :=
| KeyName (s : string)
| Inherited (property : string).

Global Instance NormKey_eq_dec : EqDecision NormKey.
Proof. solve_decision. Defined.

Record HotkeyState := mkHotkeyState {
  isPressed : bool;
  currentKey : option NormKey;
  modifiers : Modifiers;
  preventMultipleActivations : bool
}.

Record HotkeySettings := mkHotkeySettings {
  hkKey : string;
  hkModifiers : option (list string);
  hkEnabled : bool
}.

Record Settings := mkSettings {
  hotkey : option HotkeySettings;
  speedMultiplier : JS.Value
}.

(** The fields of the controller object. [trackedVideos] is the [Map] from
    elements to their state; its loops treat each entry on its own, so
    that the order of insertion is not kept. [videoEventListeners] holds
    the elements that carry the lifecycle listeners. *)
Record Controller := mkController {
  settings : option Settings;
  trackedVideos : gmap VideoId VideoState;
  lastActiveVideo : option VideoId;
  hotkeyState : HotkeyState;
  autoHideTimer : bool;
  autoHideStartTime : option N;
  videoEventListeners : gset VideoId;
  errorLog : list string
}.

Definition withTracked (t : gmap VideoId VideoState) (c : Controller) : Controller :=
  {| settings := settings c; trackedVideos := t;
     lastActiveVideo := lastActiveVideo c; hotkeyState := hotkeyState c;
     autoHideTimer := autoHideTimer c;
     autoHideStartTime := autoHideStartTime c;
     videoEventListeners := videoEventListeners c; errorLog := errorLog c |}.

Definition withLastActive (a : option VideoId) (c : Controller) : Controller :=
  {| settings := settings c; trackedVideos := trackedVideos c;
     lastActiveVideo := a; hotkeyState := hotkeyState c;
     autoHideTimer := autoHideTimer c;
     autoHideStartTime := autoHideStartTime c;
     videoEventListeners := videoEventListeners c; errorLog := errorLog c |}.

Definition withHotkeyState (h : HotkeyState) (c : Controller) : Controller :=
  {| settings := settings c; trackedVideos := trackedVideos c;
     lastActiveVideo := lastActiveVideo c; hotkeyState := h;
     autoHideTimer := autoHideTimer c;
     autoHideStartTime := autoHideStartTime c;
     videoEventListeners := videoEventListeners c; errorLog := errorLog c |}.

Definition withListeners (l : gset VideoId) (c : Controller) : Controller :=
  {| settings := settings c; trackedVideos := trackedVideos c;
     lastActiveVideo := lastActiveVideo c; hotkeyState := hotkeyState c;
     autoHideTimer := autoHideTimer c;
     autoHideStartTime := autoHideStartTime c;
     videoEventListeners := l; errorLog := errorLog c |}.

Definition withErrorLog (l : list string) (c : Controller) : Controller :=
  {| settings := settings c; trackedVideos := trackedVideos c;
     lastActiveVideo := lastActiveVideo c; hotkeyState := hotkeyState c;
     autoHideTimer := autoHideTimer c;
     autoHideStartTime := autoHideStartTime c;
     videoEventListeners := videoEventListeners c; errorLog := l |}.

Definition withTimer (t : bool) (s : option N) (c : Controller) : Controller :=
  {| settings := settings c; trackedVideos := trackedVideos c;
     lastActiveVideo := lastActiveVideo c; hotkeyState := hotkeyState c;
     autoHideTimer := t; autoHideStartTime := s;
     videoEventListeners := videoEventListeners c; errorLog := errorLog c |}.

(** The controller together with the document it runs in. *)
Record World := mkWorld {
  ctl : Controller;
  doc : Page
}.

Definition withCtl (c : Controller) (w : World) : World :=
  {| ctl := c; doc := doc w |}.

Definition withDoc (p : Page) (w : World) : World :=
  {| ctl := ctl w; doc := p |}.

(** ** Video detection *)

Definition dq : string := String (ascii_of_nat 34) EmptyString.

Definition youtubeSelectors : list string :=
  [ "video.html5-main-video";
    "video.video-stream";
    "#movie_player video";
    ".html5-video-player video";
    "video[src*=" +:+ dq +:+ "googlevideo.com" +:+ dq +:+ "]" ].

Definition vimeoSelectors : list string :=
  [ ".vp-video video";
    ".player video";
    "video[src*=" +:+ dq +:+ "vimeocdn.com" +:+ dq +:+ "]";
    ".vp-video-wrapper video";
    "iframe[src*=" +:+ dq +:+ "vimeo.com" +:+ dq +:+ "] video";
    ".js-player video" ].

Definition netflixSelectors : list string :=
  [ ".VideoContainer video";
    ".NFPlayer video";
    "video.nf-video-player";
    ".watch-video video";
    "video[src*=" +:+ dq +:+ "nflxvideo.net" +:+ dq +:+ "]";
    ".PlayerContainer video" ].

Definition isVideoTag (el : VideoElement) : bool :=
  String.eqb (JS.toLowerCase (tagName el)) "video".

Definition queryMultipleSelectors (selectors : list string) (p : Page) : list VideoId :=
  foldl (λ videos selector,
           videos ++ List.filter (λ v, isVideoTag (element p v))
                                 (querySelectorAll p selector))
        [] selectors.

Definition detectYouTubeVideos := queryMultipleSelectors youtubeSelectors.
Definition detectVimeoVideos := queryMultipleSelectors vimeoSelectors.
Definition detectNetflixVideos := queryMultipleSelectors netflixSelectors.

Definition detectPlatformSpecificVideos (p : Page) : list VideoId :=
  let hostname := JS.toLowerCase (hostname p) in
  if JS.includes hostname "youtube.com" || JS.includes hostname "youtu.be"
  then detectYouTubeVideos p
  else if JS.includes hostname "vimeo.com" then detectVimeoVideos p
  else if JS.includes hostname "netflix.com" then detectNetflixVideos p
  else [].

Definition detectGenericVideos (p : Page) : list VideoId :=
  querySelectorAll p "video".

Definition isValidVideo (el : VideoElement) : bool :=
  if negb (isVideoTag el) then false
  else
    let hasSize := JS.Qltb 0 (rectWidth el) && JS.Qltb 0 (rectHeight el) in
    let hasSrc :=
      JS.nonEmpty (src el) || hasSourceChild el || JS.nonEmpty (currentSrc el) in
    let isVisible :=
      hasOffsetParent el
      && negb (String.eqb (display el) "none")
      && negb (String.eqb (visibility el) "hidden")
      && negb (String.eqb (opacity el) "0") in
    let supportsPlaybackRate := JS.isNumber (playbackRate el) in
    hasSize && hasSrc && isVisible && supportsPlaybackRate.

Definition detectPlatform (p : Page) : Platform :=
  let url := JS.toLowerCase (hostname p) in
  if JS.includes url "youtube.com" || JS.includes url "youtu.be" then Youtube
  else if JS.includes url "vimeo.com" then Vimeo
  else if JS.includes url "netflix.com" then Netflix
  else Generic.

Definition addVideoEventListeners (v : VideoId) (c : Controller) : Controller :=
  if bool_decide (v ∈ videoEventListeners c) then c
  else withListeners ({[v]} ∪ videoEventListeners c) c.

Definition removeVideoEventListeners (v : VideoId) (c : Controller) : Controller :=
  if bool_decide (v ∈ videoEventListeners c)
  then withListeners (videoEventListeners c ∖ {[v]}) c
  else c.

(** The body of the first loop of [updateTrackedVideos]: a tracked video
    that is not among the detected ones is dropped. *)
Definition dropStep (videos : list VideoId) (c : Controller)
    (entry : VideoId * VideoState) : Controller :=
  let '(video, _) := entry in
  if bool_decide (video ∈ videos) then c
  else
    let c := removeVideoEventListeners video c in
    withTracked (delete video (trackedVideos c)) c.

Definition dropUndetected (videos : list VideoId) (c : Controller) : Controller :=
  foldl (dropStep videos) c (map_to_list (trackedVideos c)).

Definition freshState (now : N) (p : Page) (v : VideoId) : VideoState :=
  {| originalRate := playbackRate (element p v);
     isSpeedBoosted := false;
     platform := detectPlatform p;
     lastInteraction := now |}.

(** The body of the second loop: a detected video that is not tracked yet
    gets a fresh state. *)
Definition trackStep (now : N) (p : Page) (c : Controller) (video : VideoId)
  : Controller :=
  match trackedVideos c !! video with
  | Some _ => c
  | None =>
      let c := withTracked (<[video := freshState now p video]>
                              (trackedVideos c)) c in
      addVideoEventListeners video c
  end.

Definition trackNew (now : N) (p : Page) (videos : list VideoId) (c : Controller)
  : Controller :=
  foldl (trackStep now p) c videos.

Definition updateTrackedVideos (now : N) (p : Page) (videos : list VideoId)
    (c : Controller) : Controller :=
  trackNew now p videos (dropUndetected videos c).

(** The candidates, in discovery order. *)
Definition validVideos (p : Page) : list VideoId :=
  let videos := [] ++ detectPlatformSpecificVideos p in
  let videos := videos ++ detectGenericVideos p in
  let uniqueVideos := JS.unique videos in
  List.filter (λ v, isValidVideo (element p v)) uniqueVideos.

Definition detectVideos (now : N) (w : World) : list VideoId * World :=
  let valid := validVideos (doc w) in
  (valid, withCtl (updateTrackedVideos now (doc w) valid (ctl w)) w).

(** ** Active video selection *)

Definition isPlaying (p : Page) (v : VideoId) : bool :=
  negb (paused (element p v)) && negb (ended (element p v)).

Definition recentStep (tracked : gmap VideoId VideoState)
    (acc : option VideoId * N) (video : VideoId) : option VideoId * N :=
  let '(mostRecent, latestTime) := acc in
  match tracked !! video with
  | Some state =>
      if (latestTime <? lastInteraction state)%N
      then (Some video, lastInteraction state)
      else (mostRecent, latestTime)
  | None => (mostRecent, latestTime)
  end.

Definition getMostRecentlyInteracted (tracked : gmap VideoId VideoState)
    (videos : list VideoId) : option VideoId :=
  let '(mostRecent, _) := foldl (recentStep tracked) (None, 0%N) videos in
  match mostRecent with
  | Some v => Some v
  | None => head videos
  end.

Definition area (p : Page) (v : VideoId) : Q :=
  rectWidth (element p v) * rectHeight (element p v).

Definition largestStep (p : Page) (acc : option VideoId * Q) (video : VideoId)
  : option VideoId * Q :=
  let '(largest, maxArea) := acc in
  if JS.Qltb maxArea (area p video)
  then (Some video, area p video)
  else (largest, maxArea).

Definition getLargestVideo (p : Page) (videos : list VideoId) : option VideoId :=
  fst (foldl (largestStep p) (None, 0%Q) videos).

(** The guard of the selection-stability step:
    [this.lastActiveVideo && videos.includes(this.lastActiveVideo)]. *)
Definition stillCandidate (c : Controller) (videos : list VideoId) : option VideoId :=
  match lastActiveVideo c with
  | Some a => if bool_decide (a ∈ videos) then Some a else None
  | None => None
  end.

Definition orElse {A} (a : option A) (b : option A) : option A :=
  match a with Some _ => a | None => b end.

Definition touch (now : N) (st : VideoState) : VideoState :=
  {| originalRate := originalRate st; isSpeedBoosted := isSpeedBoosted st;
     platform := platform st; lastInteraction := now |}.

(** The selection among two or more candidates, before its side effects. *)
Definition chooseActive (c : Controller) (p : Page) (videos : list VideoId)
  : option VideoId :=
  let playingVideos := List.filter (isPlaying p) videos in
  let activeVideo :=
    match playingVideos with
    | [] => None
    | [v] => Some v
    | _ => getMostRecentlyInteracted (trackedVideos c) playingVideos
    end in
  let activeVideo := orElse activeVideo (stillCandidate c videos) in
  let activeVideo := orElse activeVideo (getLargestVideo p videos) in
  orElse activeVideo (head videos).

(** The side effects of a selection among two or more candidates: the
    choice is remembered and its tracked timestamp is renewed. *)
Definition recordSelection (now : N) (a : option VideoId) (c : Controller)
  : Controller :=
  let c := withLastActive a c in
  match a with
  | Some v =>
      match trackedVideos c !! v with
      | Some st => withTracked (<[v := touch now st]> (trackedVideos c)) c
      | None => c
      end
  | None => c
  end.

Definition getActiveVideo (now : N) (w : World) : option VideoId * World :=
  let '(videos, w) := detectVideos now w in
  match videos with
  | [] => (None, withCtl (withLastActive None (ctl w)) w)
  | [v] => (Some v, withCtl (withLastActive (Some v) (ctl w)) w)
  | _ =>
      let activeVideo := chooseActive (ctl w) (doc w) videos in
      (activeVideo, withCtl (recordSelection now activeVideo (ctl w)) w)
  end.

(** ** Speed boost and restore *)

Definition markBoosted (b : bool) (st : VideoState) : VideoState :=
  {| originalRate := originalRate st; isSpeedBoosted := b;
     platform := platform st; lastInteraction := lastInteraction st |}.

Definition withOriginalRate (r : JS.Value) (st : VideoState) : VideoState :=
  {| originalRate := r; isSpeedBoosted := isSpeedBoosted st;
     platform := platform st; lastInteraction := lastInteraction st |}.

Definition setTracked (v : VideoId) (st : VideoState) (w : World) : World :=
  withCtl (withTracked (<[v := st]> (trackedVideos (ctl w))) (ctl w)) w.

(** The multiplier test of [applySpeedBoost]:
    [typeof multiplier !== "number" || multiplier <= 0 || multiplier > 16]. *)
Definition rejectedMultiplier (multiplier : JS.Value) : bool :=
  match multiplier with
  | JS.Num n => JS.leb n (JS.ofZ 0) || JS.ltb (JS.ofZ 16) n
  | _ => true
  end.

(** The default value of the parameter replaces an [undefined] argument. *)
Definition defaultMultiplier (multiplier : JS.Value) : JS.Value :=
  match multiplier with
  | JS.Undefined => JS.Num (JS.ofZ 2)
  | _ => multiplier
  end.

(** [None] from [setPlaybackRate] is the setter throwing: the [catch]
    returns false, after [originalRate] has been written. *)
Definition applySpeedBoost (multiplier : JS.Value) (now : N) (w : World)
  : bool * World :=
  let multiplier := defaultMultiplier multiplier in
  let '(activeVideo, w) := getActiveVideo now w in
  match activeVideo with
  | None => (false, w)
  | Some v =>
      let '(videoState, w) :=
        match trackedVideos (ctl w) !! v with
        | Some st => (st, w)
        | None =>
            let st := freshState now (doc w) v in (st, setTracked v st w)
        end in
      if isSpeedBoosted videoState then (true, w)
      else if rejectedMultiplier multiplier then (false, w)
      else
        let videoState :=
          withOriginalRate (playbackRate (element (doc w) v)) videoState in
        let w := setTracked v videoState w in
        match setPlaybackRate v multiplier (doc w) with
        | None => (false, w)
        | Some p =>
            (true, setTracked v (markBoosted true videoState) (withDoc p w))
        end
  end.

Definition untrackedRestoreState (now : N) (p : Page) : VideoState :=
  {| originalRate := JS.Num (JS.ofZ 1);
     isSpeedBoosted := false;
     platform := detectPlatform p;
     lastInteraction := now |}.

Definition restoreOriginalSpeed (now : N) (w : World) : bool * World :=
  let '(activeVideo, w) := getActiveVideo now w in
  match activeVideo with
  | None => (false, w)
  | Some v =>
      let '(videoState, w) :=
        match trackedVideos (ctl w) !! v with
        | Some st => (st, w)
        | None =>
            let st := untrackedRestoreState now (doc w) in
            (st, setTracked v st w)
        end in
      if negb (isSpeedBoosted videoState) then (true, w)
      else
        match setPlaybackRate v (originalRate videoState) (doc w) with
        | None => (false, w)
        | Some p =>
            (true, setTracked v (markBoosted false videoState) (withDoc p w))
        end
  end.

(** ** Indicator, timers, error log *)

Definition clearAutoHideTimer (w : World) : World :=
  withCtl (withTimer false None (ctl w)) w.

(** The node found by id is marked as hiding; its removal from the
    document is left to a timer and is not part of this step. *)
Definition hideSpeedIndicator (w : World) : bool * World :=
  match indicatorNodes (doc w) with
  | [] => (true, w)
  | _ :: rest =>
      let w := clearAutoHideTimer w in
      (true, withDoc (withIndicatorNodes (IndicatorHiding :: rest) (doc w)) w)
  end.

(** [isSpeedIndicatorVisible]: the node found by id exists and is not
    marked as hiding. *)
Definition isSpeedIndicatorVisible (w : World) : bool :=
  match indicatorNodes (doc w) with
  | IndicatorVisible :: _ => true
  | _ => false
  end.

Definition maxErrorLogSize : nat := 50.

(** The log keeps the messages; beyond [maxErrorLogSize] entries the
    oldest are dropped ([slice(-maxErrorLogSize)]). *)
Definition logError (message : string) (w : World) : World :=
  let log := errorLog (ctl w) ++ [message] in
  let log :=
    if (maxErrorLogSize <? length log)%nat
    then drop (length log - maxErrorLogSize) log
    else log in
  withCtl (withErrorLog log (ctl w)) w.

(** The body of the loop of [resetAllSpeeds]; the [catch] of a throwing
    setter logs the error and leaves the entry as it was. *)
Definition resetStep (acc : World * nat) (entry : VideoId * VideoState)
  : World * nat :=
  let '(w, resetCount) := acc in
  let '(video, state) := entry in
  if isSpeedBoosted state then
    match setPlaybackRate video (originalRate state) (doc w) with
    | Some p =>
        (setTracked video (markBoosted false state) (withDoc p w),
         S resetCount)
    | None => (logError "Error resetting individual video speed" w, resetCount)
    end
  else (w, resetCount).

Definition resetAllSpeeds (w : World) : nat * World :=
  let '(w, resetCount) :=
    foldl resetStep (w, 0%nat) (map_to_list (trackedVideos (ctl w))) in
  let '(_, w) := hideSpeedIndicator w in
  (resetCount, w).

(** ** Hotkey state *)

Definition noModifiers : Modifiers :=
  {| ctrl := false; alt := false; shift := false; meta := false |}.

Definition idleHotkeyState : HotkeyState :=
  {| isPressed := false; currentKey := None; modifiers := noModifiers;
     preventMultipleActivations := false |}.

Definition resetHotkeyState (w : World) : World :=
  withCtl (withHotkeyState idleHotkeyState (ctl w)) w.

Definition deactivateSpeedBoost (now : N) (w : World) : World :=
  if negb (isPressed (hotkeyState (ctl w))) then w
  else
    let '(success, w) := restoreOriginalSpeed now w in
    let w := if success then snd (hideSpeedIndicator w) else w in
    resetHotkeyState w.

Definition handleWindowBlur (now : N) (w : World) : World :=
  let w :=
    if isPressed (hotkeyState (ctl w)) then deactivateSpeedBoost now w
    else snd (hideSpeedIndicator w) in
  let '(_, w) := resetAllSpeeds w in
  clearAutoHideTimer w.

(** [cleanupStaleElements], the loop over the tracked videos. *)
Definition pruneStep (p : Page) (acc : Controller * nat)
    (entry : VideoId * VideoState) : Controller * nat :=
  let '(c, cleanedCount) := acc in
  let '(video, _) := entry in
  if negb (inDocument (element p video)) then
    let c := withTracked (delete video (trackedVideos c)) c in
    let c :=
      if bool_decide (lastActiveVideo c = Some video)
      then withLastActive None c else c in
    (c, S cleanedCount)
  else (c, cleanedCount).

Definition cleanupStaleElements (w : World) : nat * World :=
  let '(c, cleanedCount) :=
    foldl (pruneStep (doc w)) (ctl w, 0%nat)
          (map_to_list (trackedVideos (ctl w))) in
  let indicators := indicatorNodes (doc w) in
  let '(p, cleanedCount) :=
    if (1 <? length indicators)%nat
    then (withIndicatorNodes (drop (length indicators - 1) indicators) (doc w),
          (cleanedCount + (length indicators - 1))%nat)
    else (doc w, cleanedCount) in
  let '(p, cleanedCount) :=
    if (1 <? styleNodes p)%nat
    then (withStyleNodes 1 p, (cleanedCount + (styleNodes p - 1))%nat)
    else (p, cleanedCount) in
  (cleanedCount, {| ctl := c; doc := p |}).

Definition handleVisibilityChange (now : N) (w : World) : World :=
  if documentHidden (doc w) then
    let w :=
      if isPressed (hotkeyState (ctl w)) then deactivateSpeedBoost now w
      else w in
    let '(_, w) := resetAllSpeeds w in
    let '(_, w) := hideSpeedIndicator w in
    clearAutoHideTimer w
  else
    let w := resetHotkeyState w in
    let '(_, w) := detectVideos now w in
    let '(_, w) := cleanupStaleElements w in
    w.

(** ** Hotkey matching *)

Record KeyboardEvent := mkKeyboardEvent {
  key : string;
  ctrlKey : bool;
  altKey : bool;
  shiftKey : bool;
  metaKey : bool
}.

Definition updateModifierState (event : KeyboardEvent) (w : World) : World :=
  let h := hotkeyState (ctl w) in
  let h :=
    {| isPressed := isPressed h; currentKey := currentKey h;
       modifiers := {| ctrl := ctrlKey event; alt := altKey event;
                       shift := shiftKey event; meta := metaKey event |};
       preventMultipleActivations := preventMultipleActivations h |} in
  withCtl (withHotkeyState h (ctl w)) w.

(** The own properties of the alias table of [normalizeKey]. *)
Definition keyMap : list (string * string) :=
  [ (" ", "Space"); ("Spacebar", "Space"); ("Esc", "Escape");
    ("Del", "Delete"); ("Ins", "Insert"); ("PgUp", "PageUp");
    ("PgDn", "PageDown"); ("Left", "ArrowLeft"); ("Right", "ArrowRight");
    ("Up", "ArrowUp"); ("Down", "ArrowDown") ].

(** The properties an object literal inherits from [Object.prototype]; the
    value of each is a function or an object, none of them a string and no
    two of them the same value. *)
Definition objectPrototypeProperties : list string :=
  [ "constructor"; "__defineGetter__"; "__defineSetter__"; "hasOwnProperty";
    "__lookupGetter__"; "__lookupSetter__"; "isPrototypeOf";
    "propertyIsEnumerable"; "toString"; "valueOf"; "__proto__";
    "toLocaleString" ].

Fixpoint ownProperty (table : list (string * string)) (name : string)
  : option string :=
  match table with
  | [] => None
  | (k, v) :: table' =>
      if String.eqb k name then Some v else ownProperty table' name
  end.

(** [keyMap[key] || key], after the guard on a falsy key. *)
Definition normalizeKey (key : string) : NormKey :=
  if negb (JS.nonEmpty key) then KeyName EmptyString
  else
    match ownProperty keyMap key with
    | Some alias => KeyName alias
    | None =>
        if bool_decide (key ∈ objectPrototypeProperties) then Inherited key
        else KeyName key
    end.

Definition modifierNames : list string := [ "ctrl"; "alt"; "shift"; "meta" ].

(** [this.hotkeyState.modifiers[modifier]] for the four modifier names. *)
Definition modifierPressed (m : Modifiers) (modifier : string) : bool :=
  if String.eqb modifier "ctrl" then ctrl m
  else if String.eqb modifier "alt" then alt m
  else if String.eqb modifier "shift" then shift m
  else if String.eqb modifier "meta" then meta m
  else false.

Definition isConfiguredHotkey (event : KeyboardEvent) (w : World) : bool :=
  match settings (ctl w) with
  | None => false
  | Some s =>
      match hotkey s with
      | None => false
      | Some config =>
          let eventKey := normalizeKey (key event) in
          let configKey := normalizeKey (hkKey config) in
          if negb (bool_decide (eventKey = configKey)) then false
          else
            let requiredModifiers := default [] (hkModifiers config) in
            forallb
              (λ modifier,
                 let isRequired := bool_decide (modifier ∈ requiredModifiers) in
                 let isPressed :=
                   modifierPressed (modifiers (hotkeyState (ctl w))) modifier in
                 Bool.eqb isRequired isPressed)
              modifierNames
      end
  end.

(** ** Hotkey validation *)

Inductive ModifiersArg :=
| ModifiersUndefined
| ModifiersNotArray
| ModifiersArray (l : list string).

Record HotkeyConfig := mkHotkeyConfig {
  cfgKey : JS.Value;
  cfgModifiers : ModifiersArg
}.

Record ValidationResult := mkValidationResult {
  success : bool;
  warnings : list string;
  errors : list string;
  conflicts : list string
}.

Definition browserShortcuts : list (string * string) :=
  [ ("ctrl+r", "Refresh page");
    ("ctrl+shift+r", "Hard refresh");
    ("ctrl+l", "Focus address bar");
    ("ctrl+t", "New tab");
    ("ctrl+w", "Close tab");
    ("ctrl+shift+t", "Reopen closed tab");
    ("ctrl+n", "New window");
    ("ctrl+shift+n", "New incognito window");
    ("ctrl+f", "Find in page");
    ("ctrl+g", "Find next");
    ("ctrl+shift+g", "Find previous");
    ("ctrl+h", "History");
    ("ctrl+j", "Downloads");
    ("ctrl+shift+delete", "Clear browsing data");
    ("f12", "Developer tools");
    ("ctrl+shift+i", "Developer tools");
    ("ctrl+shift+j", "Console");
    ("ctrl+u", "View source");
    ("ctrl+plus", "Zoom in");
    ("ctrl+minus", "Zoom out");
    ("ctrl+0", "Reset zoom");
    ("ctrl+tab", "Next tab");
    ("ctrl+shift+tab", "Previous tab");
    ("ctrl+pageup", "Previous tab");
    ("ctrl+pagedown", "Next tab");
    ("ctrl+d", "Bookmark page");
    ("ctrl+shift+d", "Bookmark all tabs");
    ("ctrl+b", "Show bookmarks bar");
    ("alt+f4", "Close window");
    ("alt+tab", "Switch applications");
    ("ctrl+alt+delete", "System menu");
    ("meta+q", "Quit application");
    ("meta+w", "Close tab");
    ("meta+t", "New tab");
    ("meta+r", "Refresh");
    ("meta+l", "Focus address bar") ].

Definition functionKeyConflicts : list (string * string) :=
  [ ("F1", "Help"); ("F3", "Find next"); ("F5", "Refresh");
    ("F6", "Focus address bar"); ("F11", "Fullscreen");
    ("F12", "Developer tools") ].

Fixpoint insertSorted (x : string) (l : list string) : list string :=
  match l with
  | [] => [x]
  | y :: l' => if String.leb x y then x :: l else y :: insertSorted x l'
  end.

(** [l.sort()] on strings. *)
Definition sortStrings (l : list string) : list string :=
  foldr insertSorted [] l.

(** [/^F\d+$/.test(key)] *)
Definition isFunctionKeyName (key : string) : bool :=
  match key with
  | String c rest =>
      Ascii.eqb c (ascii_of_nat 70) && JS.nonEmpty rest && JS.allDigits rest
  | EmptyString => false
  end.

(** [/^[a-zA-Z]$/.test(key)] *)
Definition isSingleLetter (key : string) : bool :=
  match key with
  | String c EmptyString => JS.isLetter c
  | _ => false
  end.

(** [/^[0-9]$/.test(key)] *)
Definition isSingleDigit (key : string) : bool :=
  match key with
  | String c EmptyString => JS.isDigit c
  | _ => false
  end.

Definition isEmptyList {A} (l : list A) : bool :=
  match l with [] => true | _ => false end.

(** Returns [None] where the source throws: [key.toLowerCase] is not a
    function when [key] is not a string. *)
Definition checkBrowserShortcutConflicts (key : NormKey)
    (modifiers : list string) : option (list string) :=
  let modifierStr := JS.join "+" (sortStrings modifiers) in
  match key with
  | Inherited _ => None
  | KeyName key =>
      let shortcutStr :=
        if JS.nonEmpty modifierStr
        then modifierStr +:+ "+" +:+ JS.toLowerCase key
        else JS.toLowerCase key in
      let conflicts :=
        map snd (List.filter (λ '(shortcut, _), String.eqb shortcut shortcutStr)
                             browserShortcuts) in
      let conflicts :=
        if isFunctionKeyName key then
          match ownProperty functionKeyConflicts key with
          | Some description =>
              if isEmptyList modifiers then conflicts ++ [description]
              else conflicts
          | None => conflicts
          end
        else conflicts in
      Some conflicts
  end.

Definition includesString (l : list string) (s : string) : bool :=
  existsb (String.eqb s) l.

Definition checkProblematicKeyCombinations (key : string)
    (modifiers : list string) : list string :=
  let problems := [] in
  let typingKeys := ["Space"; "Enter"; "Tab"; "Backspace"; "Delete"] in
  let problems :=
    if includesString typingKeys key && isEmptyList modifiers
    then problems ++ [key +:+ " without modifiers may interfere with typing"]
    else problems in
  let arrowKeys := ["ArrowUp"; "ArrowDown"; "ArrowLeft"; "ArrowRight"] in
  let problems :=
    if includesString arrowKeys key && isEmptyList modifiers
    then problems
           ++ [key +:+ " without modifiers may interfere with navigation"]
    else problems in
  let problems :=
    if isSingleLetter key && isEmptyList modifiers
    then problems
           ++ ["Single letter '" +:+ key
               +:+ "' without modifiers may interfere with typing"]
    else problems in
  let problems :=
    if isSingleDigit key && isEmptyList modifiers
    then problems
           ++ ["Number '" +:+ key
               +:+ "' without modifiers may interfere with typing"]
    else problems in
  let problems :=
    if String.eqb key "Escape"
    then problems ++ ["Escape key may conflict with cancel/close actions"]
    else problems in
  let problems :=
    if (2 <? length modifiers)%nat
    then problems
           ++ ["Too many modifiers may be difficult to press simultaneously"]
    else problems in
  problems.

Definition checkKeySuitability (key : string) (modifiers : list string)
  : bool * string :=
  let goodHoldKeys :=
    ["Space"; "Shift"; "Ctrl"; "Alt"; "Meta"; "CapsLock"; "Tab"] in
  let badHoldKeys :=
    ["Enter"; "Escape"; "Backspace"; "Delete"; "Home"; "End"; "PageUp";
     "PageDown"] in
  let isFunctionKey := isFunctionKeyName key in
  if includesString badHoldKeys key
  then (false, key +:+ " is not suitable for hold-to-activate functionality")
  else if includesString goodHoldKeys key || isFunctionKey
  then (true, key +:+ " is suitable for hold-to-activate")
  else if (isSingleLetter key || isSingleDigit key)
          && negb (isEmptyList modifiers)
  then (true, key +:+ " with modifiers is acceptable for hold-to-activate")
  else
    let arrowKeys := ["ArrowUp"; "ArrowDown"; "ArrowLeft"; "ArrowRight"] in
    if includesString arrowKeys key && negb (isEmptyList modifiers)
    then (true, key +:+ " with modifiers is acceptable for hold-to-activate")
    else (false,
          key +:+ " may not be ideal for hold-to-activate functionality").

Definition failWith (result : ValidationResult) (message : string)
  : ValidationResult :=
  {| success := success result; warnings := warnings result;
     errors := errors result ++ [message]; conflicts := conflicts result |}.

Definition warn (result : ValidationResult) (message : string)
  : ValidationResult :=
  {| success := success result; warnings := warnings result ++ [message];
     errors := errors result; conflicts := conflicts result |}.

Definition validateHotkey (hotkeyConfig : option HotkeyConfig)
  : ValidationResult :=
  let result :=
    {| success := false; warnings := []; errors := []; conflicts := [] |} in
  match hotkeyConfig with
  | None => failWith result "Invalid hotkey configuration object"
  | Some config =>
      match cfgKey config with
      | JS.Str (String c rest as key) =>
          match
            match cfgModifiers config with
            | ModifiersUndefined => Some []
            | ModifiersArray l => Some l
            | ModifiersNotArray => None
            end
          with
          | None => failWith result "Modifiers must be an array"
          | Some modifiers =>
              let validModifiers := modifierNames in
              let invalidModifiers :=
                List.filter (λ m, negb (includesString validModifiers m))
                            modifiers in
              if negb (isEmptyList invalidModifiers)
              then failWith result
                     ("Invalid modifiers: " +:+ JS.join ", " invalidModifiers)
              else
                let uniqueModifiers := JS.unique modifiers in
                let result :=
                  if negb (length uniqueModifiers =? length modifiers)%nat
                  then warn result "Duplicate modifiers detected and removed"
                  else result in
                let normalizedKey := normalizeKey key in
                match checkBrowserShortcutConflicts normalizedKey
                        uniqueModifiers, normalizedKey with
                | Some found, KeyName normalized =>
                    let uniqueModifiers := sortStrings uniqueModifiers in
                    let result :=
                      if negb (isEmptyList found)
                      then
                        warn {| success := success result;
                                warnings := warnings result;
                                errors := errors result;
                                conflicts := found |}
                             ("Potential conflicts with browser shortcuts: "
                              +:+ JS.join ", " found)
                      else result in
                    let problematicCombos :=
                      checkProblematicKeyCombinations normalized
                                                      uniqueModifiers in
                    let result :=
                      if negb (isEmptyList problematicCombos)
                      then warn result
                             ("Potentially problematic combinations: "
                              +:+ JS.join ", " problematicCombos)
                      else result in
                    let suitabilityCheck :=
                      checkKeySuitability normalized uniqueModifiers in
                    let result :=
                      if negb (fst suitabilityCheck)
                      then warn result (snd suitabilityCheck)
                      else result in
                    if isEmptyList (errors result)
                    then {| success := true; warnings := warnings result;
                            errors := errors result;
                            conflicts := conflicts result |}
                    else result
                | _, _ =>
                    failWith result "Validation failed due to internal error"
                end
          end
      | _ => failWith result "Hotkey must specify a valid key"
      end
  end.

(** ** Notions used to state the properties *)

(** The fields of the controller that video tracking leaves alone. *)
Definition sameCore (c c' : Controller) : Prop :=
  settings c' = settings c ∧ lastActiveVideo c' = lastActiveVideo c ∧
  hotkeyState c' = hotkeyState c ∧ autoHideTimer c' = autoHideTimer c ∧
  autoHideStartTime c' = autoHideStartTime c ∧ errorLog c' = errorLog c.

(** [v] is the element of [l] with the greatest score, the first one in
    the order of [l] among those that reach it. *)
Definition FirstMax {S : Type} (le lt : S → S → Prop) (score : VideoId → S)
    (l : list VideoId) (v : VideoId) : Prop :=
  ∃ i, l !! i = Some v
       ∧ (∀ u, u ∈ l → le (score u) (score v))
       ∧ (∀ j u, (j < i)%nat → l !! j = Some u → lt (score u) (score v)).

(** The scan shared by [getMostRecentlyInteracted] and [getLargestVideo]:
    keep the running best, replace it on a strictly greater score. *)
Definition bestStep {S : Type} (ltb : S → S → bool) (score : VideoId → S)
    (acc : option VideoId * S) (video : VideoId) : option VideoId * S :=
  let '(best, top) := acc in
  if ltb top (score video) then (Some video, score video) else (best, top).

(** The timestamp the controller holds for a video. *)
Definition interactionTime (tracked : gmap VideoId VideoState) (v : VideoId)
  : N :=
  match tracked !! v with
  | Some st => lastInteraction st
  | None => 0%N
  end.

(** The controller as it is once detection has refreshed the tracking
    map, which is the state the selection reads. *)
Definition afterDetection (now : N) (w : World) : Controller :=
  ctl (snd (detectVideos now w)).

(** A multiplier the specification calls invalid: not a number, not
    finite, or outside the interval (0, 16]. *)
Definition invalidMultiplier (m : JS.Value) : Prop :=
  match m with
  | JS.Num (JS.Finite q) => ¬ (0 < q ∧ q <= 16)%Q
  | _ => True
  end.

(** A valid multiplier: a finite number in (0, 16]. *)
Definition validMultiplier (m : JS.Value) : Prop :=
  match m with
  | JS.Num (JS.Finite q) => (0 < q ∧ q <= 16)%Q
  | _ => False
  end.

(** The active video of a call is already boosted when the call starts. *)
Definition activeAlreadyBoosted (now : N) (w : World) : Prop :=
  ∃ v st, fst (getActiveVideo now w) = Some v
          ∧ trackedVideos (ctl w) !! v = Some st
          ∧ isSpeedBoosted st = true.

(** The modifier keys held in a keyboard event, by name. *)
Definition eventModifier (event : KeyboardEvent) (modifier : string) : bool :=
  if String.eqb modifier "ctrl" then ctrlKey event
  else if String.eqb modifier "alt" then altKey event
  else if String.eqb modifier "shift" then shiftKey event
  else if String.eqb modifier "meta" then metaKey event
  else false.

(** The timestamp the selection reads for a candidate: the stored one, or
    the present reading for a video that this very call starts to track. *)
Definition selectionTime (now : N) (w : World) (v : VideoId) : N :=
  match trackedVideos (ctl w) !! v with
  | Some st => lastInteraction st
  | None => now
  end.

(** The three outcomes of [applySpeedBoost] on a selected video. *)
Definition boostOutcome (multiplier : JS.Value) (v : VideoId)
    (st : VideoState) (w1 : World) : bool * World :=
  if isSpeedBoosted st then (true, w1)
  else if rejectedMultiplier (defaultMultiplier multiplier) then (false, w1)
  else
    let st1 := withOriginalRate (playbackRate (element (doc w1) v)) st in
    match setPlaybackRate v (defaultMultiplier multiplier) (doc w1) with
    | None => (false, setTracked v st1 w1)
    | Some p =>
        (true, setTracked v (markBoosted true st1)
                          (withDoc p (setTracked v st1 w1)))
    end.

(** The outcomes of [restoreOriginalSpeed] on a selected video. *)
Definition restoreOutcome (v : VideoId) (st : VideoState) (w1 : World)
  : bool * World :=
  if negb (isSpeedBoosted st) then (true, w1)
  else
    match setPlaybackRate v (originalRate st) (doc w1) with
    | None => (false, w1)
    | Some p => (true, setTracked v (markBoosted false st) (withDoc p w1))
    end.

(** What a forced deactivation leaves behind, from [w] to [w']: the hotkey
    state is idle; the indicator is not visible; a video that is still
    marked boosted is one whose setter refuses its original rate; a video
    that was marked boosted and no longer is plays at its original
    rate. The last two speak of the videos tracked in [w']. *)
Definition forcedResetDone (w w' : World) : Prop :=
  hotkeyState (ctl w') = idleHotkeyState
  ∧ isSpeedIndicatorVisible w' = false
  ∧ (∀ v st', trackedVideos (ctl w') !! v = Some st' →
              isSpeedBoosted st' = true →
              acceptsRate (element (doc w) v) (originalRate st') = false)
  ∧ (∀ v st st', trackedVideos (ctl w') !! v = Some st' →
                 isSpeedBoosted st' = false →
                 trackedVideos (ctl w) !! v = Some st →
                 isSpeedBoosted st = true →
                 playbackRate (element (doc w') v) = originalRate st).

(** How the tracking of [w'] relates to that of [w] while boosts are being
    undone: the original rate of a video is kept, and its mark is kept or,
    if dropped, the video plays at its original rate. *)
Definition undoing (w w' : World) : Prop :=
  (∀ u, acceptsRate (element (doc w') u) = acceptsRate (element (doc w) u))
  ∧ (∀ u st st', trackedVideos (ctl w') !! u = Some st' →
                 trackedVideos (ctl w) !! u = Some st →
                 originalRate st' = originalRate st
                 ∧ (isSpeedBoosted st' = isSpeedBoosted st
                    ∨ (isSpeedBoosted st' = false
                       ∧ playbackRate (element (doc w') u)
                         = originalRate st))).

(** ** Sample pages *)

(** A visible video element with a source, as the mock of the test suite. *)
Definition sampleVideo (width height : Z) (isPaused : bool) (rate : Z)
  : VideoElement :=
  {| tagName := "VIDEO";
     rectWidth := inject_Z width; rectHeight := inject_Z height;
     src := "test-video.mp4"; hasSourceChild := false;
     currentSrc := "test-video.mp4"; hasOffsetParent := true;
     display := "block"; visibility := "visible"; opacity := "1";
     playbackRate := JS.Num (JS.ofZ rate); acceptsRate := λ _, true;
     paused := isPaused; ended := false; inDocument := true |}.

Fixpoint elementOf (elements : list (VideoId * VideoElement)) (v : VideoId)
  : VideoElement :=
  match elements with
  | [] => sampleVideo 0 0 true 1
  | (u, el) :: rest => if decide (v = u) then el else elementOf rest v
  end.

(** A page on a generic host whose [video] elements are the given ones. *)
Definition samplePage (elements : list (VideoId * VideoElement)) : Page :=
  {| hostname := "example.com";
     element := elementOf elements;
     querySelectorAll :=
       λ selector, if String.eqb selector "video" then elements.*1 else [];
     documentHidden := false;
     indicatorNodes := [];
     styleNodes := 0 |}.

(** The controller as its constructor leaves it. *)
Definition newController : Controller :=
  {| settings := None; trackedVideos := ∅; lastActiveVideo := None;
     hotkeyState := idleHotkeyState; autoHideTimer := false;
     autoHideStartTime := None; videoEventListeners := ∅; errorLog := [] |}.


(** The binding [{key: "Space", modifiers: []}], enabled, on a page
    without videos, and a press of the space bar with ctrl held. *)
Definition spaceBinding : World :=
  {| ctl :=
       {| settings :=
            Some {| hotkey := Some {| hkKey := "Space"; hkModifiers := Some [];
                                      hkEnabled := true |};
                    speedMultiplier := JS.Num (JS.ofZ 2) |};
          trackedVideos := ∅; lastActiveVideo := None;
          hotkeyState := idleHotkeyState; autoHideTimer := false;
          autoHideStartTime := None; videoEventListeners := ∅;
          errorLog := [] |};
     doc := samplePage [] |}.

Definition ctrlSpacePress : KeyboardEvent :=
  {| key := " "; ctrlKey := true; altKey := false; shiftKey := false;
     metaKey := false |}.




(** A controller that tracks video 1 (last touched at 1000 ms) and
    remembers it as last active. *)
Definition trackingVideo1 (boosted : bool) (original : Z) : Controller :=
  {| settings := None;
     trackedVideos :=
       {[ 1%nat := {| originalRate := JS.Num (JS.ofZ original);
                      isSpeedBoosted := boosted; platform := Generic;
                      lastInteraction := 1000 |} ]};
     lastActiveVideo := Some 1%nat;
     hotkeyState := idleHotkeyState; autoHideTimer := false;
     autoHideStartTime := None; videoEventListeners := {[ 1%nat ]};
     errorLog := [] |}.

(** The remembered video has left a page that shows no video any more. *)
Definition rememberedButGone : World :=
  {| ctl := trackingVideo1 false 1; doc := samplePage [] |}.

(** A page whose only video is the tracked video 1, at rate 1. *)
Definition singleTrackedVideo : World :=
  {| ctl := trackingVideo1 false 1;
     doc := samplePage [ (1%nat, sampleVideo 640 480 true 1) ] |}.

(** Video 1 is tracked as boosted from rate 1 and plays at rate 2. *)
Definition boostedVideo1 : World :=
  {| ctl := trackingVideo1 true 1;
     doc := samplePage [ (1%nat, sampleVideo 640 480 true 2) ] |}.

(** The hotkey is held; video 1 is tracked as boosted from rate 1 and
    plays at rate 2, and its setter throws on every assignment. *)
Definition heldHotkey : HotkeyState :=
  {| isPressed := true; currentKey := Some (KeyName "Space");
     modifiers := noModifiers; preventMultipleActivations := true |}.

Definition stuckVideo : VideoElement :=
  {| tagName := "VIDEO";
     rectWidth := inject_Z 640; rectHeight := inject_Z 480;
     src := "test-video.mp4"; hasSourceChild := false;
     currentSrc := "test-video.mp4"; hasOffsetParent := true;
     display := "block"; visibility := "visible"; opacity := "1";
     playbackRate := JS.Num (JS.ofZ 2); acceptsRate := λ _, false;
     paused := false; ended := false; inDocument := true |}.

Definition heldOnStuckVideo : World :=
  {| ctl := withHotkeyState heldHotkey (trackingVideo1 true 1);
     doc := samplePage [ (1%nat, stuckVideo) ] |}.

(** The same with a video whose setter works. *)
Definition heldOnBoostedVideo : World :=
  {| ctl := withHotkeyState heldHotkey (trackingVideo1 true 1);
     doc := samplePage [ (1%nat, sampleVideo 640 480 false 2) ] |}.

(** The same again, but the page has hidden the boosted video
    ([display: none]) by the time the window loses focus. *)
Definition hiddenBoostedVideo : VideoElement :=
  {| tagName := "VIDEO";
     rectWidth := inject_Z 640; rectHeight := inject_Z 480;
     src := "test-video.mp4"; hasSourceChild := false;
     currentSrc := "test-video.mp4"; hasOffsetParent := true;
     display := "none"; visibility := "visible"; opacity := "1";
     playbackRate := JS.Num (JS.ofZ 2); acceptsRate := λ _, true;
     paused := false; ended := false; inDocument := true |}.

Definition heldOnHiddenVideo : World :=
  {| ctl := withHotkeyState heldHotkey (trackingVideo1 true 1);
     doc := samplePage [ (1%nat, hiddenBoostedVideo) ] |}.

(** ** Queries on the boost *)

(** [isSpeedBoostActive]: some tracked video is marked as boosted. *)
Definition isSpeedBoostActive (w : World) : bool :=
  existsb (λ '(_, state), isSpeedBoosted state)
          (map_to_list (trackedVideos (ctl w))).

Definition getCurrentSpeed (now : N) (w : World) : option JS.Value * World :=
  let '(activeVideo, w) := getActiveVideo now w in
  (match activeVideo with
   | Some v => Some (playbackRate (element (doc w) v))
   | None => None
   end, w).

(** ** Showing the indicator *)

(** Truthiness of a value, as [||] and [?:] test it. *)
Definition truthy (v : JS.Value) : bool :=
  match v with
  | JS.Undefined | JS.Null => false
  | JS.Bool b => b
  | JS.Num JS.NaN => false
  | JS.Num (JS.Finite q) => negb (Qeq_bool q 0)
  | JS.Num _ => true
  | JS.Str s => JS.nonEmpty s
  | JS.Object => true
  end.

(** The [ui] section of the settings object, as far as the controller
    reads it: [showIndicator], and [indicatorTimeout] when it is given. *)
Record UiSettings := mkUiSettings {
  showIndicator : bool;
  indicatorTimeout : option JS.Number
}.

(** [this.settings?.ui]. The section is handed to the operations that read
    it; it counts only when the settings object is there. *)
Definition uiSection (ui : option UiSettings) (w : World) : option UiSettings :=
  match settings (ctl w) with
  | Some _ => ui
  | None => None
  end.

Definition setupAutoHideTimer (ui : option UiSettings) (now : N) (w : World)
  : World :=
  let w := clearAutoHideTimer w in
  let timeout :=
    match uiSection ui w with
    | Some u => default (JS.ofZ 2000) (indicatorTimeout u)
    | None => JS.ofZ 2000
    end in
  if JS.leb timeout (JS.ofZ 0) then w
  else withCtl (withTimer true (Some now) (ctl w)) w.

(** [speed ? `${speed.toFixed(1)}x` : "2.0x"] throws when [speed] is
    truthy and has no [toFixed], which is so for every value that is not a
    number ([JS.Object] being a plain object). *)
Definition speedTextThrows (speed : JS.Value) : bool :=
  truthy speed && negb (JS.isNumber speed).

(** [getOrCreateStyleSheet], called through [applyIndicatorStyles]: the
    style element is created when no node carries its id. *)
Definition ensureIndicatorCSS (w : World) : World :=
  if (styleNodes (doc w) =? 0)%nat
  then withDoc (withStyleNodes 1 (doc w)) w
  else w.

(** The node found by id is removed and a new node is appended to the
    body. The [catch] returns false with the old node gone and the timer
    cleared. *)
Definition showSpeedIndicator (ui : option UiSettings) (speed : JS.Value)
    (now : N) (w : World) : bool * World :=
  match uiSection ui w with
  | None => (false, w)
  | Some u =>
      if negb (showIndicator u) then (false, w)
      else
        let w := withDoc (withIndicatorNodes (tail (indicatorNodes (doc w)))
                                             (doc w)) w in
        let w := clearAutoHideTimer w in
        if speedTextThrows speed then (false, w)
        else
          let w := ensureIndicatorCSS w in
          let w :=
            withDoc (withIndicatorNodes
                       (indicatorNodes (doc w) ++ [IndicatorVisible])
                       (doc w)) w in
          let w := setupAutoHideTimer ui now w in
          (true, w)
  end.

Definition updateSpeedIndicator (ui : option UiSettings) (speed : JS.Value)
    (now : N) (w : World) : bool * World :=
  match indicatorNodes (doc w) with
  | [] => showSpeedIndicator ui speed now w
  | _ :: _ =>
      if speedTextThrows speed then (false, w)
      else (true, setupAutoHideTimer ui now w)
  end.

(** ** Key handling *)

(** The target of a keyboard event: its tag name ([None] for a target
    without one, such as the document), its [contentEditable] property and
    that of each ancestor element, the nearest first. *)
Record EventTarget := mkEventTarget {
  targetTagName : option string;
  targetContentEditable : string;
  ancestorsContentEditable : list string
}.

(** [None] where the source throws ([tagName.toLowerCase] on a target
    without a tag name). *)
Definition isTypingInInputField (target : option EventTarget) : option bool :=
  match target with
  | None => Some false
  | Some t =>
      match targetTagName t with
      | None => None
      | Some tag =>
          let tagName := JS.toLowerCase tag in
          let inputTypes := ["input"; "textarea"; "select"] in
          if includesString inputTypes tagName then Some true
          else if String.eqb (targetContentEditable t) "true" then Some true
          else Some (existsb (λ editable, String.eqb editable "true")
                             (ancestorsContentEditable t))
      end
  end.

Definition isConfiguredHotkeyRelease (event : KeyboardEvent) (w : World)
  : bool :=
  if negb (isPressed (hotkeyState (ctl w))) then false
  else
    let eventKey := normalizeKey (key event) in
    bool_decide (Some eventKey = currentKey (hotkeyState (ctl w))).

(** [this.settings.speedMultiplier || 2.0] *)
Definition configuredMultiplier (s : Settings) : JS.Value :=
  if truthy (speedMultiplier s) then speedMultiplier s
  else JS.Num (JS.ofZ 2).

(** Without a settings object the read of [speedMultiplier] throws, and
    the [catch] resets the hotkey state. *)
Definition activateSpeedBoost (ui : option UiSettings) (event : KeyboardEvent)
    (now : N) (w : World) : World :=
  let h := hotkeyState (ctl w) in
  let h :=
    {| isPressed := true; currentKey := Some (normalizeKey (key event));
       modifiers := modifiers h; preventMultipleActivations := true |} in
  let w := withCtl (withHotkeyState h (ctl w)) w in
  match settings (ctl w) with
  | None => resetHotkeyState w
  | Some s =>
      let multiplier := configuredMultiplier s in
      let '(success, w) := applySpeedBoost multiplier now w in
      if success then snd (showSpeedIndicator ui multiplier now w)
      else resetHotkeyState w
  end.

(** The handlers return whether [event.preventDefault()] was called,
    together with the new state. *)
Definition handleKeyDown (ui : option UiSettings) (event : KeyboardEvent)
    (target : option EventTarget) (now : N) (w : World) : bool * World :=
  match settings (ctl w) with
  | None => (false, w)
  | Some s =>
      match hotkey s with
      | None => (false, w)
      | Some config =>
          if negb (hkEnabled config) then (false, w)
          else
            match isTypingInInputField target with
            | None => (false, w)
            | Some true => (false, w)
            | Some false =>
                let w := updateModifierState event w in
                if isConfiguredHotkey event w then
                  if preventMultipleActivations (hotkeyState (ctl w))
                  then (false, w)
                  else if negb (isPressed (hotkeyState (ctl w)))
                  then (true, activateSpeedBoost ui event now w)
                  else (true, w)
                else (false, w)
            end
      end
  end.

Definition handleKeyUp (event : KeyboardEvent) (now : N) (w : World)
  : bool * World :=
  match settings (ctl w) with
  | None => (false, w)
  | Some s =>
      match hotkey s with
      | None => (false, w)
      | Some _ =>
          let w := updateModifierState event w in
          if isConfiguredHotkeyRelease event w
          then (true, deactivateSpeedBoost now w)
          else (false, w)
      end
  end.

Definition handleWindowFocus (now : N) (w : World) : World :=
  let w := resetHotkeyState w in
  let '(_, w) := detectVideos now w in
  snd (hideSpeedIndicator w).

(** [isTestHotkey]: the matcher of the hotkey test, which reads the
    modifier flags of the event itself. *)
Definition isTestHotkey (event : KeyboardEvent) (config : HotkeySettings)
  : bool :=
  let eventKey := normalizeKey (key event) in
  let configKey := normalizeKey (hkKey config) in
  if negb (bool_decide (eventKey = configKey)) then false
  else
    let requiredModifiers := default [] (hkModifiers config) in
    forallb
      (λ modifier,
         let isRequired := bool_decide (modifier ∈ requiredModifiers) in
         let isPressed := eventModifier event modifier in
         Bool.eqb isRequired isPressed)
      modifierNames.

(** ** Lifecycle events of a video *)

(** [a === b]. Two object values are taken to be distinct objects; where
    the comparison is used, taking them to be one object leaves the same
    state. *)
Definition strictEquals (a b : JS.Value) : bool :=
  match a, b with
  | JS.Undefined, JS.Undefined => true
  | JS.Null, JS.Null => true
  | JS.Bool x, JS.Bool y => Bool.eqb x y
  | JS.Num JS.PosInfinity, JS.Num JS.PosInfinity => true
  | JS.Num JS.NegInfinity, JS.Num JS.NegInfinity => true
  | JS.Num (JS.Finite p), JS.Num (JS.Finite q) => Qeq_bool p q
  | JS.Str x, JS.Str y => String.eqb x y
  | _, _ => false
  end.

(** [None] from [setPlaybackRate] is the setter throwing, which takes the
    handler to its [catch]. *)
Definition handleVideoEnded (video : VideoId) (now : N) (w : World) : World :=
  let reset :=
    match trackedVideos (ctl w) !! video with
    | Some videoState =>
        if isSpeedBoosted videoState then
          match setPlaybackRate video (originalRate videoState) (doc w) with
          | None => None
          | Some p =>
              let w :=
                setTracked video (markBoosted false videoState) (withDoc p w) in
              if bool_decide (lastActiveVideo (ctl w) = Some video)
              then Some (snd (hideSpeedIndicator w))
              else Some w
          end
        else Some w
    | None => Some w
    end in
  match reset with
  | None => logError "Error handling video ended event" w
  | Some w =>
      if isPressed (hotkeyState (ctl w))
         && bool_decide (lastActiveVideo (ctl w) = Some video)
      then deactivateSpeedBoost now w
      else w
  end.

Definition handleVideoPaused (video : VideoId) (w : World) : World :=
  if bool_decide (lastActiveVideo (ctl w) = Some video)
     && isPressed (hotkeyState (ctl w))
  then snd (hideSpeedIndicator w)
  else w.

(** [videoState.lastInteraction = Date.now()] on the tracked state. *)
Definition touchTracked (video : VideoId) (now : N) (w : World) : World :=
  match trackedVideos (ctl w) !! video with
  | Some videoState => setTracked video (touch now videoState) w
  | None => w
  end.

Definition handleVideoPlay (ui : option UiSettings) (video : VideoId) (now : N)
    (w : World) : World :=
  let w := touchTracked video now w in
  if isPressed (hotkeyState (ctl w)) then
    let '(activeVideo, w) := getActiveVideo now w in
    if bool_decide (activeVideo = Some video) then
      let currentSpeed := playbackRate (element (doc w) video) in
      snd (showSpeedIndicator ui currentSpeed now w)
    else w
  else w.

(** The setter throwing is caught by the inner [try], which logs it. The
    handler is taken to be called with its event object, as the listener
    is. *)
Definition handleVideoError (video : VideoId) (now : N) (w : World) : World :=
  let w := logError "Video error occurred" w in
  let w :=
    match trackedVideos (ctl w) !! video with
    | Some videoState =>
        if isSpeedBoosted videoState then
          match setPlaybackRate video (originalRate videoState) (doc w) with
          | Some p =>
              setTracked video (markBoosted false videoState) (withDoc p w)
          | None => logError "Error resetting speed after video error" w
          end
        else w
    | None => w
    end in
  if bool_decide (lastActiveVideo (ctl w) = Some video)
     && isPressed (hotkeyState (ctl w))
  then deactivateSpeedBoost now w
  else w.

Definition handleVideoLoadStart (video : VideoId) (w : World) : World :=
  match trackedVideos (ctl w) !! video with
  | Some videoState =>
      if isSpeedBoosted videoState
      then setTracked video
             (withOriginalRate (JS.Num (JS.ofZ 1))
                               (markBoosted false videoState)) w
      else w
  | None => w
  end.

(** [video.playbackRate || 1.0] *)
Definition rateOrDefault (p : Page) (video : VideoId) : JS.Value :=
  if truthy (playbackRate (element p video))
  then playbackRate (element p video)
  else JS.Num (JS.ofZ 1).

Definition loadedState (now : N) (p : Page) (video : VideoId) : VideoState :=
  {| originalRate := rateOrDefault p video;
     isSpeedBoosted := false;
     platform := detectPlatform p;
     lastInteraction := now |}.

Definition handleVideoLoadedData (video : VideoId) (now : N) (w : World)
  : World :=
  match trackedVideos (ctl w) !! video with
  | None => setTracked video (loadedState now (doc w) video) w
  | Some videoState =>
      setTracked video
        (touch now (withOriginalRate (rateOrDefault (doc w) video) videoState))
        w
  end.

Definition handleVideoCanPlay (video : VideoId) (now : N) (w : World) : World :=
  match trackedVideos (ctl w) !! video with
  | None => setTracked video (loadedState now (doc w) video) w
  | Some _ => w
  end.

Definition handleVideoRateChange (video : VideoId) (w : World) : World :=
  match trackedVideos (ctl w) !! video with
  | Some videoState =>
      if negb (isSpeedBoosted videoState)
         && negb (strictEquals (playbackRate (element (doc w) video))
                               (originalRate videoState))
      then setTracked video
             (withOriginalRate (playbackRate (element (doc w) video))
                               videoState) w
      else w
  | None => w
  end.

Definition handleVideoSeeking (video : VideoId) (now : N) (w : World) : World :=
  touchTracked video now w.

Definition handleVideoSeeked (video : VideoId) (now : N) (w : World) : World :=
  touchTracked video now w.

(** ** Removal of videos from the document *)

(** A node of a mutation record: whether it is an element node, its tag
    name, the video it is when it is one of the identified elements, and
    which of those elements [node.contains] holds for. *)
Record DomNode := mkDomNode {
  nodeIsElement : bool;
  nodeTagName : string;
  nodeSelf : option VideoId;
  nodeContains : VideoId → bool
}.

Definition nodeContainsTrackedVideos (node : DomNode) (w : World) : bool :=
  if negb (nodeIsElement node) then false
  else if JS.nonEmpty (nodeTagName node)
          && String.eqb (JS.toLowerCase (nodeTagName node)) "video"
          && match nodeSelf node with
             | Some v => bool_decide (is_Some (trackedVideos (ctl w) !! v))
             | None => false
             end
  then true
  else existsb (nodeContains node) (map_to_list (trackedVideos (ctl w))).*1.

(** The body of the second loop of [cleanupRemovedVideos]. *)
Definition forgetVideo (c : Controller) (video : VideoId) : Controller :=
  let c := removeVideoEventListeners video c in
  let c := withTracked (delete video (trackedVideos c)) c in
  if bool_decide (lastActiveVideo c = Some video)
  then withLastActive None c else c.

Definition cleanupRemovedVideos (removedNode : DomNode) (w : World) : World :=
  let videosToRemove :=
    List.filter
      (λ video, bool_decide (nodeSelf removedNode = Some video)
                || nodeContains removedNode video)
      (map_to_list (trackedVideos (ctl w))).*1 in
  withCtl (foldl forgetVideo (ctl w) videosToRemove) w.

Record MutationRecord := mkMutationRecord {
  mutationType : string;
  removedNodes : list DomNode
}.

(** The loops over the mutations and their removed nodes. The added nodes
    set a flag that is only logged. *)
Definition removedNodeStep (acc : World * bool) (removedNode : DomNode)
  : World * bool :=
  let '(w, videosRemoved) := acc in
  if nodeContainsTrackedVideos removedNode w
  then (cleanupRemovedVideos removedNode w, true)
  else (w, videosRemoved).

Definition mutationStep (acc : World * bool) (mutation : MutationRecord)
  : World * bool :=
  if String.eqb (mutationType mutation) "childList"
  then foldl removedNodeStep acc (removedNodes mutation)
  else acc.

Definition handleDOMMutations (mutations : list MutationRecord) (now : N)
    (w : World) : World :=
  let '(w, videosRemoved) := foldl mutationStep (w, false) mutations in
  if videosRemoved then
    let '(_, w) := cleanupStaleElements w in
    if isPressed (hotkeyState (ctl w))
       && match lastActiveVideo (ctl w) with
          | None => true
          | Some a => negb (inDocument (element (doc w) a))
          end
    then deactivateSpeedBoost now w
    else w
  else w.

(** [ContentScriptManager.handleNavigation], the part that runs at once. *)
Definition handleNavigation (w : World) : World :=
  let '(_, w) := resetAllSpeeds w in
  snd (hideSpeedIndicator w).

(** ** Further notions used to state the properties *)

(** The lifecycle listeners sit on exactly the tracked videos. *)
Definition listenersFollowTracking (c : Controller) : Prop :=
  videoEventListeners c = dom (trackedVideos c).

(** A tracked entry whose boost [resetAllSpeeds] undoes: it is marked as
    boosted and the setter of its element takes its original rate. *)
Definition resettable (w : World) (entry : VideoId * VideoState) : bool :=
  isSpeedBoosted entry.2
  && acceptsRate (element (doc w) entry.1) (originalRate entry.2).

(** The part of the state that detection, selection, boost and restore
    read: the tracking map, the last active video and the elements of the
    page. *)
Definition sameVideos (w w' : World) : Prop :=
  trackedVideos (ctl w') = trackedVideos (ctl w)
  ∧ lastActiveVideo (ctl w') = lastActiveVideo (ctl w)
  ∧ element (doc w') = element (doc w)
  ∧ querySelectorAll (doc w') = querySelectorAll (doc w)
  ∧ hostname (doc w') = hostname (doc w).

(** The target of the event is a place where text is typed: an input,
    textarea or select element, or an element that is editable itself or
    through an ancestor. *)
Definition editableTarget (t : EventTarget) : Prop :=
  (∃ tag, targetTagName t = Some tag
          ∧ JS.toLowerCase tag ∈ ["input"; "textarea"; "select"])
  ∨ targetContentEditable t = "true"
  ∨ "true" ∈ ancestorsContentEditable t.

(** The state of the hotkey while it is held through [event]. *)
Definition heldThrough (event : KeyboardEvent) : HotkeyState :=
  {| isPressed := true; currentKey := Some (normalizeKey (key event));
     modifiers := {| ctrl := ctrlKey event; alt := altKey event;
                     shift := shiftKey event; meta := metaKey event |};
     preventMultipleActivations := true |}.

(** The state in which [activateSpeedBoost] calls [applySpeedBoost]. *)
Definition held (event : KeyboardEvent) (w : World) : World :=
  withCtl (withHotkeyState (heldThrough event) (ctl w)) w.

(** The conditions under which [handleKeyDown] takes [event] for a fresh
    press of the hotkey: the hotkey is configured and enabled, the target
    is no place where text is typed, the event matches the binding, and
    the hotkey is not held already. *)
Definition freshPress (event : KeyboardEvent) (target : option EventTarget)
    (w : World) (s : Settings) : Prop :=
  settings (ctl w) = Some s
  ∧ (∃ config, hotkey s = Some config ∧ hkEnabled config = true)
  ∧ isTypingInInputField target = Some false
  ∧ isConfiguredHotkey event (updateModifierState event w) = true
  ∧ isPressed (hotkeyState (ctl w)) = false
  ∧ preventMultipleActivations (hotkeyState (ctl w)) = false.

(** [applySpeedBoost] has nothing to boost or is refused: there is no
    active video, or the active video is not boosted and the multiplier
    fails the test or the setter of the element throws on it. *)
Definition boostRefused (m : JS.Value) (now : N) (w : World) : Prop :=
  match fst (getActiveVideo now w) with
  | None => True
  | Some v =>
      (∀ st, trackedVideos (ctl w) !! v = Some st → isSpeedBoosted st = false)
      ∧ (rejectedMultiplier (defaultMultiplier m) = true
         ∨ acceptsRate (element (doc w) v) (defaultMultiplier m) = false)
  end.

(** The state after [handleVideoEnded] has given a boosted video its rate
    back. *)
Definition rateGivenBack (video : VideoId) (st : VideoState) (w : World)
  : World :=
  setTracked video (markBoosted false st)
    (withDoc (withElement video
                (withPlaybackRate (originalRate st) (element (doc w) video))
                (doc w)) w).

(** The candidates that are playing. *)
Definition playingVideos (p : Page) : list VideoId :=
  List.filter (isPlaying p) (validVideos p).

(** The test of the first loop of [cleanupRemovedVideos]: the removed node
    is the video or contains it. *)
Definition insideNode (node : DomNode) (video : VideoId) : bool :=
  bool_decide (nodeSelf node = Some video) || nodeContains node video.

(** The removed node is an element node and contains the video [v]. *)
Definition takesAway (v : VideoId) (node : DomNode) : Prop :=
  nodeIsElement node = true ∧ nodeContains node v = true.

(** While [handleDOMMutations] goes through the mutations: a removal has
    been seen and no video is remembered as last active. *)
Definition removalSeen (acc : World * bool) : Prop :=
  acc.2 = true ∧ lastActiveVideo (ctl acc.1) = None.

(** The hotkey state is still that of [w]; the video [v] is still tracked
    and last active, or its removal has been seen. *)
Definition removalPending (w : World) (v : VideoId) (acc : World * bool)
  : Prop :=
  hotkeyState (ctl acc.1) = hotkeyState (ctl w)
  ∧ ((lastActiveVideo (ctl acc.1) = Some v
      ∧ is_Some (trackedVideos (ctl acc.1) !! v))
     ∨ removalSeen acc).

(** ** Further sample pages *)

Definition withSettings (s : option Settings) (c : Controller) : Controller :=
  {| settings := s; trackedVideos := trackedVideos c;
     lastActiveVideo := lastActiveVideo c; hotkeyState := hotkeyState c;
     autoHideTimer := autoHideTimer c;
     autoHideStartTime := autoHideStartTime c;
     videoEventListeners := videoEventListeners c; errorLog := errorLog c |}.

(** The binding [{key: "Space", modifiers: []}], enabled, with the
    multiplier 2. *)
Definition spaceSettings : Settings :=
  {| hotkey := Some {| hkKey := "Space"; hkModifiers := Some [];
                       hkEnabled := true |};
     speedMultiplier := JS.Num (JS.ofZ 2) |}.

(** The space bar is bound; video 1 plays at rate 1 and is tracked. *)
Definition spaceBoundOnVideo : World :=
  {| ctl := withSettings (Some spaceSettings) (trackingVideo1 false 1);
     doc := samplePage [ (1%nat, sampleVideo 640 480 false 1) ] |}.

(** The same while the space bar is held and video 1 is boosted to 2. *)
Definition spaceHeldOnVideo : World :=
  {| ctl := withSettings (Some spaceSettings)
              (withHotkeyState heldHotkey (trackingVideo1 true 1));
     doc := samplePage [ (1%nat, sampleVideo 640 480 false 2) ] |}.

Definition spacePress : KeyboardEvent :=
  {| key := " "; ctrlKey := false; altKey := false; shiftKey := false;
     metaKey := false |}.

(** The release of the space bar, with shift held by then. *)
Definition shiftSpaceRelease : KeyboardEvent :=
  {| key := " "; ctrlKey := false; altKey := false; shiftKey := true;
     metaKey := false |}.

(** The body of the page, and a text input inside it. *)
Definition pageBody : EventTarget :=
  {| targetTagName := Some "BODY"; targetContentEditable := "inherit";
     ancestorsContentEditable := ["inherit"] |}.

Definition searchBox : EventTarget :=
  {| targetTagName := Some "INPUT"; targetContentEditable := "inherit";
     ancestorsContentEditable := ["inherit"; "inherit"] |}.

Definition indicatorOn : UiSettings :=
  {| showIndicator := true; indicatorTimeout := None |}.

(** Videos 1 and 2 both play; video 1 was last touched at 1000 ms, video 2
    at 1500 ms. *)
Definition twoPlaying : World :=
  {| ctl :=
       {| settings := None;
          trackedVideos :=
            {[ 1%nat := {| originalRate := JS.Num (JS.ofZ 1);
                           isSpeedBoosted := false; platform := Generic;
                           lastInteraction := 1000 |};
               2%nat := {| originalRate := JS.Num (JS.ofZ 1);
                           isSpeedBoosted := false; platform := Generic;
                           lastInteraction := 1500 |} ]};
          lastActiveVideo := Some 2%nat;
          hotkeyState := idleHotkeyState; autoHideTimer := false;
          autoHideStartTime := None;
          videoEventListeners := {[ 1%nat; 2%nat ]};
          errorLog := [] |};
     doc := samplePage [ (1%nat, sampleVideo 640 480 false 1);
                         (2%nat, sampleVideo 320 240 false 1) ] |}.

(** The player that holds video 1 is taken out of the page. *)
Definition playerNode : DomNode :=
  {| nodeIsElement := true; nodeTagName := "DIV"; nodeSelf := None;
     nodeContains := λ v, bool_decide (v = 1%nat) |}.

Definition playerRemoved : MutationRecord :=
  {| mutationType := "childList"; removedNodes := [playerNode] |}.

(** * Properties *)

(** ** Tracking *)

Lemma sameCore_refl c : sameCore c c.
Proof. by repeat split. Qed.

Lemma sameCore_trans c1 c2 c3 :
  sameCore c1 c2 → sameCore c2 c3 → sameCore c1 c3.
Proof.
  unfold sameCore. intros (?&?&?&?&?&?) (?&?&?&?&?&?).
  repeat split; congruence.
Qed.

Lemma removeVideoEventListeners_tracked u c :
  trackedVideos (removeVideoEventListeners u c) = trackedVideos c.
Proof. unfold removeVideoEventListeners. by case_bool_decide. Qed.

Lemma removeVideoEventListeners_core u c :
  sameCore c (removeVideoEventListeners u c).
Proof. unfold removeVideoEventListeners. case_bool_decide; by repeat split. Qed.

Lemma addVideoEventListeners_tracked u c :
  trackedVideos (addVideoEventListeners u c) = trackedVideos c.
Proof. unfold addVideoEventListeners. by case_bool_decide. Qed.

Lemma addVideoEventListeners_core u c :
  sameCore c (addVideoEventListeners u c).
Proof. unfold addVideoEventListeners. case_bool_decide; by repeat split. Qed.

Lemma dropLoop_spec (videos : list VideoId) (l : list (VideoId * VideoState)) :
  ∀ c,
    sameCore c (foldl (dropStep videos) c l) ∧
    (∀ v, v ∈ l.*1 → v ∉ videos →
          trackedVideos (foldl (dropStep videos) c l) !! v = None) ∧
    (∀ v, v ∉ l.*1 ∨ v ∈ videos →
          trackedVideos (foldl (dropStep videos) c l) !! v
          = trackedVideos c !! v).
Proof.
  induction l as [|[u st] l IH]; intros c.
  - split; [apply sameCore_refl|]. split; [|done].
    intros v Hv. by apply elem_of_nil in Hv.
  - cbn [foldl].
    destruct (IH (dropStep videos c (u, st))) as (Hc & Hdrop & Hkeep).
    assert (Hstep : ∀ v, u ≠ v ∨ u ∈ videos →
              trackedVideos (dropStep videos c (u, st)) !! v
              = trackedVideos c !! v).
    { intros v Hv. unfold dropStep. case_bool_decide; [done|].
      cbn. rewrite removeVideoEventListeners_tracked.
      apply lookup_delete_ne. by destruct Hv. }
    split; [|split].
    + eapply sameCore_trans; [|exact Hc]. unfold dropStep.
      case_bool_decide; [apply sameCore_refl|].
      eapply sameCore_trans; [apply removeVideoEventListeners_core|].
      by repeat split.
    + intros v Hv Hnot. rewrite fmap_cons in Hv. cbn in Hv.
      destruct (decide (v ∈ l.*1)) as [Hin|Hout]; [by apply Hdrop|].
      apply elem_of_cons in Hv as [->|]; [|done].
      rewrite Hkeep by (by left). unfold dropStep.
      rewrite bool_decide_eq_false_2 by done. cbn.
      rewrite removeVideoEventListeners_tracked. apply lookup_delete_eq.
    + intros v Hv. rewrite fmap_cons in Hv. cbn in Hv.
      rewrite Hkeep; [apply Hstep|].
      * destruct Hv as [Hv|Hv].
        -- left. intros ->. apply Hv. apply list_elem_of_here.
        -- destruct (decide (u ∈ videos)); [by right|left; by intros ->].
      * destruct Hv as [Hv|Hv]; [left|by right].
        intros Hin. apply Hv. by apply list_elem_of_further.
Qed.

Lemma dropUndetected_lookup (videos : list VideoId) c v :
  trackedVideos (dropUndetected videos c) !! v
  = if bool_decide (v ∈ videos) then trackedVideos c !! v else None.
Proof.
  unfold dropUndetected.
  destruct (dropLoop_spec videos (map_to_list (trackedVideos c)) c)
    as (_ & Hdrop & Hkeep).
  case_bool_decide as Hv; [apply Hkeep; by right|].
  destruct (trackedVideos c !! v) as [st|] eqn:Hst.
  - apply Hdrop; [|done]. apply list_elem_of_fmap. exists (v, st).
    split; [done|]. by apply elem_of_map_to_list.
  - rewrite Hkeep; [done|]. left. intros Hin.
    apply list_elem_of_fmap in Hin as ([u st] & -> & Hin).
    apply elem_of_map_to_list in Hin. cbn in Hst. congruence.
Qed.

Lemma dropUndetected_core (videos : list VideoId) c :
  sameCore c (dropUndetected videos c).
Proof. apply dropLoop_spec. Qed.

Lemma trackLoop_spec now p (videos : list VideoId) :
  ∀ c,
    sameCore c (foldl (trackStep now p) c videos) ∧
    ∀ v, trackedVideos (foldl (trackStep now p) c videos) !! v
         = match trackedVideos c !! v with
           | Some st => Some st
           | None => if bool_decide (v ∈ videos)
                     then Some (freshState now p v) else None
           end.
Proof.
  induction videos as [|u videos IH]; intros c.
  - split; [apply sameCore_refl|]. intros v. cbn.
    by destruct (trackedVideos c !! v).
  - cbn [foldl]. destruct (IH (trackStep now p c u)) as [Hc Ht]. split.
    + eapply sameCore_trans; [|exact Hc]. unfold trackStep.
      destruct (trackedVideos c !! u); [apply sameCore_refl|].
      eapply sameCore_trans; [|apply addVideoEventListeners_core].
      by repeat split.
    + intros v. rewrite Ht. clear IH Hc Ht. unfold trackStep.
      destruct (trackedVideos c !! u) as [stu|] eqn:Hu.
      * destruct (trackedVideos c !! v) as [stv|] eqn:Hv; [done|].
        destruct (decide (v = u)) as [->|Hne]; [congruence|].
        case_bool_decide as H1; case_bool_decide as H2; try done.
        -- exfalso. apply H2. by apply list_elem_of_further.
        -- apply elem_of_cons in H2 as [?|?]; done.
      * rewrite addVideoEventListeners_tracked. cbn.
        destruct (decide (v = u)) as [->|Hne].
        -- rewrite lookup_insert_eq, Hu.
           rewrite bool_decide_eq_true_2; [done|apply list_elem_of_here].
        -- rewrite lookup_insert_ne by done.
           destruct (trackedVideos c !! v) as [stv|]; [done|].
           case_bool_decide as H1; case_bool_decide as H2; try done.
           ++ exfalso. apply H2. by apply list_elem_of_further.
           ++ apply elem_of_cons in H2 as [?|?]; done.
Qed.

Lemma updateTrackedVideos_lookup now p (videos : list VideoId) c v :
  trackedVideos (updateTrackedVideos now p videos c) !! v
  = if bool_decide (v ∈ videos)
    then Some (default (freshState now p v) (trackedVideos c !! v))
    else None.
Proof.
  unfold updateTrackedVideos, trackNew.
  destruct (trackLoop_spec now p videos (dropUndetected videos c)) as [_ Ht].
  rewrite Ht, dropUndetected_lookup.
  case_bool_decide; [|done]. by destruct (trackedVideos c !! v).
Qed.

Lemma updateTrackedVideos_core now p (videos : list VideoId) c :
  sameCore c (updateTrackedVideos now p videos c).
Proof.
  unfold updateTrackedVideos, trackNew.
  eapply sameCore_trans; [apply dropUndetected_core|apply trackLoop_spec].
Qed.

(** ** The scan for the first greatest score *)

Section BestScan.

Context {S : Type} (ltb : S → S → bool) (le lt : S → S → Prop).
Hypothesis ltb_lt : ∀ a b, ltb a b = true ↔ lt a b.
Hypothesis not_lt_le : ∀ a b, ¬ lt b a → le a b.
Hypothesis le_lt_absurd : ∀ a b, le a b → lt b a → False.
Hypothesis le_lt_trans : ∀ a b c, le a b → lt b c → lt a c.
Hypothesis lt_le_trans : ∀ a b c, lt a b → le b c → lt a c.
Hypothesis le_trans : ∀ a b c, le a b → le b c → le a c.
Hypothesis lt_le_incl : ∀ a b, lt a b → le a b.
Hypothesis le_refl : ∀ a, le a a.

Variable score : VideoId → S.

Lemma bestScan_inv (l : list VideoId) (t0 : S) :
  match foldl (bestStep ltb score) (None, t0) l with
  | (None, t) => t = t0 ∧ ∀ u, u ∈ l → le (score u) t0
  | (Some v, t) =>
      t = score v ∧ lt t0 (score v) ∧ FirstMax le lt score l v
  end.
Proof.
  induction l as [|x l IH] using rev_ind.
  - cbn. split; [done|]. intros u Hu. by apply elem_of_nil in Hu.
  - rewrite foldl_app. cbn [foldl].
    destruct (foldl (bestStep ltb score) (None, t0) l) as [[v|] t];
      unfold bestStep.
    + destruct IH as (-> & Hlt & i & Hi & Hmax & Hfirst).
      destruct (ltb (score v) (score x)) eqn:Hx.
      * apply ltb_lt in Hx. split; [done|]. split; [by eauto|].
        exists (length l). split; [by rewrite list_lookup_middle|]. split.
        -- intros u Hu. apply elem_of_app in Hu as [Hu|Hu].
           ++ apply lt_le_incl. eapply le_lt_trans; [by apply Hmax|done].
           ++ apply list_elem_of_singleton in Hu as ->. apply le_refl.
        -- intros j u Hj Hu. rewrite lookup_app_l in Hu by done.
           eapply le_lt_trans; [|exact Hx]. apply Hmax.
           by eapply list_elem_of_lookup_2.
      * split; [done|]. split; [done|]. exists i.
        split; [by apply lookup_app_l_Some|]. split.
        -- intros u Hu. apply elem_of_app in Hu as [Hu|Hu]; [by apply Hmax|].
           apply list_elem_of_singleton in Hu as ->. apply not_lt_le.
           intros Hlt'. apply ltb_lt in Hlt'. congruence.
        -- intros j u Hj Hu. apply (Hfirst j u Hj).
           rewrite lookup_app_l in Hu; [done|].
           apply lookup_lt_Some in Hi. lia.
    + destruct IH as (-> & Hall).
      destruct (ltb t0 (score x)) eqn:Hx.
      * apply ltb_lt in Hx. split; [done|]. split; [done|].
        exists (length l). split; [by rewrite list_lookup_middle|]. split.
        -- intros u Hu. apply elem_of_app in Hu as [Hu|Hu].
           ++ apply lt_le_incl. eapply le_lt_trans; [by apply Hall|done].
           ++ apply list_elem_of_singleton in Hu as ->. apply le_refl.
        -- intros j u Hj Hu. rewrite lookup_app_l in Hu by done.
           eapply le_lt_trans; [|exact Hx]. apply Hall.
           by eapply list_elem_of_lookup_2.
      * split; [done|]. intros u Hu.
        apply elem_of_app in Hu as [Hu|Hu]; [by apply Hall|].
        apply list_elem_of_singleton in Hu as ->. apply not_lt_le.
        intros Hlt'. apply ltb_lt in Hlt'. congruence.
Qed.

Lemma FirstMax_elem_of l v : FirstMax le lt score l v → v ∈ l.
Proof. intros (i & Hi & _). by eapply list_elem_of_lookup_2. Qed.

Lemma FirstMax_unique l v v' :
  FirstMax le lt score l v → FirstMax le lt score l v' → v = v'.
Proof.
  intros (i & Hi & Hmax & Hfirst) (i' & Hi' & Hmax' & Hfirst').
  destruct (lt_eq_lt_dec i i') as [[Hlt| ->]|Hlt].
  - exfalso. eapply le_lt_absurd; [|exact (Hfirst' i v Hlt Hi)].
    apply Hmax. by eapply list_elem_of_lookup_2.
  - congruence.
  - exfalso. eapply le_lt_absurd; [|exact (Hfirst i' v' Hlt Hi')].
    apply Hmax'. by eapply list_elem_of_lookup_2.
Qed.

Lemma FirstMax_head x l :
  (∀ u, u ∈ x :: l → le (score u) (score x)) →
  FirstMax le lt score (x :: l) x.
Proof.
  intros Hall. exists 0%nat. split; [done|]. split; [done|]. intros; lia.
Qed.

Lemma FirstMax_raise (score' : VideoId → S) l v :
  (∀ u, u ≠ v → score' u = score u) →
  le (score v) (score' v) →
  FirstMax le lt score l v → FirstMax le lt score' l v.
Proof.
  intros Hsame Hup (i & Hi & Hmax & Hfirst).
  exists i. split; [done|]. split.
  - intros u Hu. destruct (decide (u = v)) as [->|Hne]; [apply le_refl|].
    rewrite (Hsame u Hne). apply (le_trans _ (score v)); [|done].
    by apply Hmax.
  - intros j u Hj Hu. destruct (decide (u = v)) as [->|Hne].
    + exfalso. eapply le_lt_absurd; [apply le_refl|exact (Hfirst j v Hj Hu)].
    + rewrite (Hsame u Hne). eapply lt_le_trans; [|exact Hup].
      exact (Hfirst j u Hj Hu).
Qed.

End BestScan.

(** ** The two scans of the selection *)

Lemma Qltb_lt (a b : Q) : JS.Qltb a b = true ↔ (a < b)%Q.
Proof.
  unfold JS.Qltb. rewrite negb_true_iff. split.
  - intros H. apply Qnot_le_lt. intros Hle.
    apply Qle_bool_iff in Hle. congruence.
  - intros H. destruct (Qle_bool b a) eqn:Hle; [|done].
    apply Qle_bool_iff in Hle. exfalso. by eapply Qlt_not_le.
Qed.

Lemma recentScan_bestScan tracked (l : list VideoId) :
  (∀ v, v ∈ l → is_Some (tracked !! v)) →
  ∀ acc, foldl (recentStep tracked) acc l
         = foldl (bestStep N.ltb (interactionTime tracked)) acc l.
Proof.
  induction l as [|x l IH]; intros Hall acc; [done|].
  cbn [foldl]. rewrite IH.
  - f_equal. destruct acc as [best top]. unfold recentStep, bestStep.
    unfold interactionTime.
    destruct (Hall x (list_elem_of_here _ _)) as [st ->]. done.
  - intros v Hv. apply Hall. by apply list_elem_of_further.
Qed.

Lemma getMostRecentlyInteracted_spec tracked (l : list VideoId) :
  l ≠ [] →
  (∀ v, v ∈ l → is_Some (tracked !! v)) →
  ∃ v, getMostRecentlyInteracted tracked l = Some v
       ∧ FirstMax N.le N.lt (interactionTime tracked) l v.
Proof.
  intros Hne Hall. unfold getMostRecentlyInteracted.
  rewrite recentScan_bestScan by done.
  pose proof (bestScan_inv N.ltb N.le N.lt N.ltb_lt
                ltac:(intros; lia) ltac:(intros; lia) ltac:(intros; lia)
                ltac:(intros; lia)
                (interactionTime tracked) l 0%N) as Hinv.
  destruct (foldl (bestStep N.ltb (interactionTime tracked)) (None, 0%N) l)
    as [[v|] t].
  - exists v. by destruct Hinv as (_ & _ & ?).
  - destruct l as [|x l]; [done|]. exists x. split; [done|].
    apply FirstMax_head. intros u Hu. destruct Hinv as [_ Hinv].
    specialize (Hinv u Hu). lia.
Qed.

Lemma largestScan_bestScan p (l : list VideoId) acc :
  foldl (largestStep p) acc l = foldl (bestStep JS.Qltb (area p)) acc l.
Proof. done. Qed.

Lemma getLargestVideo_spec p (l : list VideoId) :
  match getLargestVideo p l with
  | Some v => FirstMax Qle Qlt (area p) l v ∧ (0 < area p v)%Q
  | None => ∀ u, u ∈ l → (area p u <= 0)%Q
  end.
Proof.
  unfold getLargestVideo. rewrite largestScan_bestScan.
  pose proof (bestScan_inv JS.Qltb Qle Qlt Qltb_lt
                ltac:(intros a b H; by apply Qnot_lt_le)
                ltac:(intros a b c H1 H2; eapply Qle_lt_trans; eauto)
                ltac:(intros a b H; by apply Qlt_le_weak)
                Qle_refl (area p) l 0%Q) as Hinv.
  destruct (foldl (bestStep JS.Qltb (area p)) (None, 0%Q) l) as [[v|] t]; cbn.
  - by destruct Hinv as (_ & ? & ?).
  - by destruct Hinv as [_ ?].
Qed.

(** ** Detection and selection *)

Lemma validVideos_valid p v :
  v ∈ validVideos p → isValidVideo (element p v) = true.
Proof.
  unfold validVideos. intros Hv. apply list_elem_of_In in Hv.
  by apply filter_In in Hv as [_ ?].
Qed.


Lemma afterDetection_tracked now w v :
  trackedVideos (afterDetection now w) !! v
  = if bool_decide (v ∈ validVideos (doc w))
    then Some (default (freshState now (doc w) v)
                       (trackedVideos (ctl w) !! v))
    else None.
Proof. apply updateTrackedVideos_lookup. Qed.

Lemma afterDetection_core now w : sameCore (ctl w) (afterDetection now w).
Proof. apply updateTrackedVideos_core. Qed.

Lemma afterDetection_all_tracked now w v :
  v ∈ validVideos (doc w) →
  is_Some (trackedVideos (afterDetection now w) !! v).
Proof.
  intros Hv. rewrite afterDetection_tracked.
  by rewrite bool_decide_eq_true_2.
Qed.

Lemma getActiveVideo_eq now w :
  getActiveVideo now w
  = let c1 := afterDetection now w in
    match validVideos (doc w) with
    | [] => (None, {| ctl := withLastActive None c1; doc := doc w |})
    | [v] => (Some v, {| ctl := withLastActive (Some v) c1; doc := doc w |})
    | videos =>
        let a := chooseActive c1 (doc w) videos in
        (a, {| ctl := recordSelection now a c1; doc := doc w |})
    end.
Proof.
  unfold getActiveVideo, afterDetection, detectVideos.
  cbn [fst snd ctl doc withCtl].
  destruct (validVideos (doc w)) as [|v [|v' vs]]; reflexivity.
Qed.

Lemma getActiveVideo_doc now w : doc (snd (getActiveVideo now w)) = doc w.
Proof.
  rewrite getActiveVideo_eq. cbv zeta.
  destruct (validVideos (doc w)) as [|v [|v' vs]]; reflexivity.
Qed.

Lemma recordSelection_lastActive now a c :
  lastActiveVideo (recordSelection now a c) = a.
Proof.
  unfold recordSelection. destruct a as [v|]; [|done]. cbn.
  by destruct (trackedVideos c !! v).
Qed.

Lemma recordSelection_fields now a c :
  settings (recordSelection now a c) = settings c
  ∧ hotkeyState (recordSelection now a c) = hotkeyState c
  ∧ autoHideTimer (recordSelection now a c) = autoHideTimer c
  ∧ autoHideStartTime (recordSelection now a c) = autoHideStartTime c
  ∧ errorLog (recordSelection now a c) = errorLog c.
Proof.
  unfold recordSelection. destruct a as [v|]; [|done]. cbn.
  by destruct (trackedVideos c !! v).
Qed.

Lemma recordSelection_tracked now a c u :
  trackedVideos (recordSelection now a c) !! u
  = if bool_decide (a = Some u)
    then touch now <$> trackedVideos c !! u
    else trackedVideos c !! u.
Proof.
  unfold recordSelection. destruct a as [v|]; cbn.
  - destruct (trackedVideos c !! v) as [st|] eqn:Hv; cbn.
    + case_bool_decide as H.
      * injection H as ->. by rewrite lookup_insert_eq, Hv.
      * rewrite lookup_insert_ne; [done|]. congruence.
    + case_bool_decide as H; [|done]. injection H as ->. by rewrite Hv.
  - by rewrite bool_decide_eq_false_2.
Qed.

(** The remembered last-active element always is the returned one. *)
Lemma getActiveVideo_lastActive now w :
  lastActiveVideo (ctl (snd (getActiveVideo now w)))
  = fst (getActiveVideo now w).
Proof.
  rewrite getActiveVideo_eq. cbv zeta.
  destruct (validVideos (doc w)) as [|v [|v' vs]]; try reflexivity.
  apply recordSelection_lastActive.
Qed.

Lemma getActiveVideo_fields now w :
  settings (ctl (snd (getActiveVideo now w))) = settings (ctl w)
  ∧ hotkeyState (ctl (snd (getActiveVideo now w))) = hotkeyState (ctl w)
  ∧ autoHideTimer (ctl (snd (getActiveVideo now w))) = autoHideTimer (ctl w)
  ∧ autoHideStartTime (ctl (snd (getActiveVideo now w)))
    = autoHideStartTime (ctl w)
  ∧ errorLog (ctl (snd (getActiveVideo now w))) = errorLog (ctl w).
Proof.
  destruct (afterDetection_core now w) as (H1 & _ & H3 & H4 & H5 & H6).
  rewrite getActiveVideo_eq. cbv zeta.
  destruct (validVideos (doc w)) as [|v [|v' vs]]; cbn [fst snd ctl]; try done.
  destruct (recordSelection_fields now
              (chooseActive (afterDetection now w) (doc w) (v :: v' :: vs))
              (afterDetection now w)) as (->& -> & -> & -> & ->).
  done.
Qed.

(** Tracking after a selection: the entries are those of detection, the
    selected one with a new timestamp when there were several candidates. *)
Lemma getActiveVideo_tracked now w u :
  trackedVideos (ctl (snd (getActiveVideo now w))) !! u
  = if bool_decide (fst (getActiveVideo now w) = Some u)
       && (2 <=? length (validVideos (doc w)))%nat
    then touch now <$> trackedVideos (afterDetection now w) !! u
    else trackedVideos (afterDetection now w) !! u.
Proof.
  rewrite getActiveVideo_eq. cbv zeta.
  destruct (validVideos (doc w)) as [|v [|v' vs]]; cbn [fst snd ctl length].
  - by rewrite bool_decide_eq_false_2.
  - by rewrite andb_false_r.
  - change (2 <=? S (S (length vs)))%nat with true.
    rewrite andb_true_r. apply recordSelection_tracked.
Qed.

Lemma stillCandidate_elem_of c (videos : list VideoId) a :
  stillCandidate c videos = Some a → lastActiveVideo c = Some a ∧ a ∈ videos.
Proof.
  unfold stillCandidate. destruct (lastActiveVideo c) as [b|]; [|done].
  case_bool_decide; [|done]. by intros [= ->].
Qed.

Lemma filter_isPlaying_elem_of p (videos : list VideoId) v :
  v ∈ List.filter (isPlaying p) videos → v ∈ videos.
Proof.
  intros Hv. apply list_elem_of_In in Hv. apply filter_In in Hv as [Hv _].
  by apply list_elem_of_In.
Qed.

(** The selection among the candidates, level by level. *)
Lemma chooseActive_spec c p (videos : list VideoId) :
  videos ≠ [] →
  (∀ v, v ∈ videos → is_Some (trackedVideos c !! v)) →
  ∃ v, chooseActive c p videos = Some v ∧ v ∈ videos
    ∧ (∀ u, List.filter (isPlaying p) videos = [u] → v = u)
    ∧ ((2 <= length (List.filter (isPlaying p) videos))%nat →
       FirstMax N.le N.lt (interactionTime (trackedVideos c))
                (List.filter (isPlaying p) videos) v)
    ∧ (List.filter (isPlaying p) videos = [] →
       ∀ a, lastActiveVideo c = Some a → a ∈ videos → v = a)
    ∧ (List.filter (isPlaying p) videos = [] →
       stillCandidate c videos = None →
       (∃ u, u ∈ videos ∧ (0 < area p u)%Q) →
       FirstMax Qle Qlt (area p) videos v)
    ∧ (List.filter (isPlaying p) videos = [] →
       stillCandidate c videos = None →
       (∀ u, u ∈ videos → (area p u <= 0)%Q) →
       head videos = Some v).
Proof.
  intros Hne Htracked. unfold chooseActive.
  destruct (List.filter (isPlaying p) videos) as [|u [|u' us]] eqn:Hplaying.
  - (* nobody plays *)
    cbn [orElse].
    destruct (stillCandidate c videos) as [a|] eqn:Hstill; cbn [orElse].
    + apply stillCandidate_elem_of in Hstill as [Hlast Hin].
      exists a. split; [done|]. split; [done|].
      split; [done|]. split; [cbn; lia|].
      split; [intros _ b Hb _; congruence|]. split; done.
    + pose proof (getLargestVideo_spec p videos) as Hlargest.
      destruct (getLargestVideo p videos) as [v|] eqn:Hl; cbn [orElse].
      * destruct Hlargest as [Hmax Hpos].
        exists v. split; [done|].
        split; [by eapply FirstMax_elem_of|]. split; [done|].
        split; [cbn; lia|]. split.
        { intros _ a Ha Hin. unfold stillCandidate in Hstill.
          rewrite Ha in Hstill. by rewrite bool_decide_eq_true_2 in Hstill. }
        split; [done|]. intros _ _ Hall. exfalso.
        apply (Qlt_not_le _ _ Hpos). apply Hall.
        by eapply FirstMax_elem_of.
      * destruct videos as [|x videos]; [done|]. exists x.
        split; [done|]. split; [apply list_elem_of_here|].
        split; [done|]. split; [cbn; lia|]. split.
        { intros _ a Ha Hin. unfold stillCandidate in Hstill.
          rewrite Ha in Hstill. by rewrite bool_decide_eq_true_2 in Hstill. }
        split; [|done]. intros _ _ (y & Hy & Hpos). exfalso.
        apply (Qlt_not_le _ _ Hpos). by apply Hlargest.
  - (* exactly one plays *)
    cbn [orElse]. exists u. split; [done|]. split.
    { apply (filter_isPlaying_elem_of p). rewrite Hplaying.
      apply list_elem_of_here. }
    split; [by intros ? [= ->]|]. split; [cbn; lia|]. repeat split; done.
  - (* several play *)
    destruct (getMostRecentlyInteracted_spec (trackedVideos c)
                (u :: u' :: us)) as (v & Hv & Hmax); [done| |].
    { intros x Hx. apply Htracked. apply (filter_isPlaying_elem_of p).
      by rewrite Hplaying. }
    rewrite Hv. cbn [orElse]. exists v. split; [done|]. split.
    { apply (filter_isPlaying_elem_of p). rewrite Hplaying.
      by eapply FirstMax_elem_of. }
    split; [done|]. split; [done|]. repeat split; done.
Qed.

Lemma FirstMax_ext {S : Type} (le lt : S → S → Prop)
    (score score' : VideoId → S) (l : list VideoId) v :
  (∀ u, u ∈ l → score u = score' u) →
  FirstMax le lt score l v → FirstMax le lt score' l v.
Proof.
  intros Hext (i & Hi & Hmax & Hfirst). exists i. split; [done|].
  assert (Hv : v ∈ l) by (by eapply list_elem_of_lookup_2).
  split.
  - intros u Hu. rewrite <- (Hext u Hu), <- (Hext v Hv). by apply Hmax.
  - intros j u Hj Hu.
    rewrite <- (Hext u (list_elem_of_lookup_2 _ _ _ Hu)), <- (Hext v Hv).
    exact (Hfirst j u Hj Hu).
Qed.

Lemma interactionTime_afterDetection now w v :
  v ∈ validVideos (doc w) →
  interactionTime (trackedVideos (afterDetection now w)) v
  = selectionTime now w v.
Proof.
  intros Hv. unfold interactionTime, selectionTime.
  rewrite afterDetection_tracked, bool_decide_eq_true_2 by done.
  by destruct (trackedVideos (ctl w) !! v).
Qed.

(** ** C1: the tie-break of the selection *)



(** ** C5: hotkey matching *)

Ltac in_list :=
  repeat first [apply list_elem_of_here | apply list_elem_of_further].

Lemma modifierPressed_updateModifierState event w m :
  modifierPressed (modifiers (hotkeyState (ctl (updateModifierState event w)))) m
  = eventModifier event m.
Proof. reflexivity. Qed.

Lemma eqb_bool_decide_iff (P : Prop) `{Decision P} (b : bool) :
  Bool.eqb (bool_decide P) b = true ↔ (P ↔ b = true).
Proof.
  rewrite Bool.eqb_true_iff.
  case_bool_decide as HP; destruct b; intuition congruence.
Qed.

Lemma isConfiguredHotkey_iff event w s config :
  settings (ctl w) = Some s →
  hotkey s = Some config →
  isConfiguredHotkey event (updateModifierState event w) = true
  ↔ normalizeKey (key event) = normalizeKey (hkKey config)
    ∧ ∀ m, m ∈ modifierNames →
           (m ∈ default [] (hkModifiers config)
            ↔ eventModifier event m = true).
Proof.
  intros Hs Hh. unfold isConfiguredHotkey.
  change (settings (ctl (updateModifierState event w))) with (settings (ctl w)).
  rewrite Hs, Hh.
  case_bool_decide as Hkey; cbn [negb].
  - rewrite forallb_forall. split.
    + intros Hall. split; [done|]. intros m Hm.
      apply list_elem_of_In in Hm. specialize (Hall m Hm). cbv zeta in Hall.
      rewrite modifierPressed_updateModifierState in Hall.
      by apply eqb_bool_decide_iff in Hall.
    + intros [_ Hall] m Hm. apply list_elem_of_In in Hm. cbv zeta.
      rewrite modifierPressed_updateModifierState.
      apply eqb_bool_decide_iff. by apply Hall.
  - split; [done|]. by intros [? _].
Qed.

(** C5. After the modifier state has been taken from the event, the
    event matches the configured binding exactly when the normalized keys
    are equal and each of ctrl, alt, shift and meta is configured iff it
    is held. So a binding without modifiers rejects a press with any of
    them held, and a binding that requires ctrl rejects a press without
    ctrl. *)
Theorem isConfiguredHotkey_exact_modifiers (event : KeyboardEvent) (w : World)
    (s : Settings) (config : HotkeySettings) :
  settings (ctl w) = Some s →
  hotkey s = Some config →
  (isConfiguredHotkey event (updateModifierState event w) = true
   ↔ normalizeKey (key event) = normalizeKey (hkKey config)
     ∧ ∀ m, m ∈ modifierNames →
            (m ∈ default [] (hkModifiers config)
             ↔ eventModifier event m = true))
  ∧ (default [] (hkModifiers config) = [] →
     ctrlKey event || altKey event || shiftKey event || metaKey event = true →
     isConfiguredHotkey event (updateModifierState event w) = false)
  ∧ ("ctrl" ∈ default [] (hkModifiers config) →
     ctrlKey event = false →
     isConfiguredHotkey event (updateModifierState event w) = false).
Proof.
  intros Hs Hh. pose proof (isConfiguredHotkey_iff event w s config Hs Hh) as Hiff.
  split; [exact Hiff|]. split.
  - intros Hnone Hheld. apply not_true_is_false. intros Hmatch.
    apply Hiff in Hmatch as [_ Hall]. rewrite Hnone in Hall.
    assert (Hno : ∀ m, m ∈ modifierNames → eventModifier event m = false).
    { intros m Hm. apply not_true_is_false. intros Hp.
      apply (Hall m Hm) in Hp. by apply elem_of_nil in Hp. }
    pose proof (Hno "ctrl" ltac:(in_list)) as H1.
    pose proof (Hno "alt" ltac:(in_list)) as H2.
    pose proof (Hno "shift" ltac:(in_list)) as H3.
    pose proof (Hno "meta" ltac:(in_list)) as H4.
    cbn in H1, H2, H3, H4. rewrite H1, H2, H3, H4 in Hheld. done.
  - intros Hreq Hctrl. apply not_true_is_false. intros Hmatch.
    apply Hiff in Hmatch as [_ Hall].
    apply (Hall "ctrl" ltac:(in_list)) in Hreq.
    cbn in Hreq. congruence.
Qed.

(** The binding Space without modifiers rejects ctrl+Space. *)
Lemma isConfiguredHotkey_exact_modifiers_witness :
  isConfiguredHotkey ctrlSpacePress
    (updateModifierState ctrlSpacePress spaceBinding) = false.
Proof.
  refine (proj1 (proj2 (isConfiguredHotkey_exact_modifiers
                          ctrlSpacePress spaceBinding _ _ _ _)) _ _);
    reflexivity.
Defined.

(** ** C9: hotkey validation *)



Lemma checkBrowserShortcutConflicts_keyName n modifiers :
  ∃ found, checkBrowserShortcutConflicts (KeyName n) modifiers = Some found.
Proof. unfold checkBrowserShortcutConflicts. by eexists. Qed.




(** The corner that [validKeyString] leaves out: for a key named like an
    inherited property the alias table yields a value that is not a
    string, [toLowerCase] fails on it, and the validation ends in its
    internal-error branch. *)
Lemma validateHotkey_inherited_property_name :
  validateHotkey (Some {| cfgKey := JS.Str "constructor";
                          cfgModifiers := ModifiersArray [] |})
  = {| success := false; warnings := [];
       errors := ["Validation failed due to internal error"];
       conflicts := [] |}.
Proof. reflexivity. Qed.


(** ** C10 and C8: the side effects of the selection *)

Lemma getActiveVideo_candidate now w v :
  fst (getActiveVideo now w) = Some v → v ∈ validVideos (doc w).
Proof.
  rewrite getActiveVideo_eq. cbv zeta.
  destruct (validVideos (doc w)) as [|x [|y l]] eqn:Hvideos; cbn [fst].
  - done.
  - intros [= ->]. apply list_elem_of_here.
  - intros Hv.
    destruct (chooseActive_spec (afterDetection now w) (doc w) (x :: y :: l))
      as (u & Hu & Hin & _); [done| |congruence].
    intros z Hz. apply afterDetection_all_tracked. by rewrite Hvideos.
Qed.

(** C10. When detection yields no valid candidate, [getActiveVideo]
    returns null and forgets the last-active element; in the call that
    follows, whatever the document has become, the stability step finds
    nothing to keep, and a video that is returned is one of the candidates
    detected by that call. *)
Theorem getActiveVideo_no_candidate_forgets (now : N) (w : World) :
  validVideos (doc w) = [] →
  fst (getActiveVideo now w) = None
  ∧ lastActiveVideo (ctl (snd (getActiveVideo now w))) = None
  ∧ (∀ now' p',
       stillCandidate
         (afterDetection now' (withDoc p' (snd (getActiveVideo now w))))
         (validVideos p') = None)
  ∧ (∀ now' p' v,
       fst (getActiveVideo now' (withDoc p' (snd (getActiveVideo now w))))
       = Some v →
       v ∈ validVideos p').
Proof.
  intros Hnone.
  assert (Hfst : fst (getActiveVideo now w) = None).
  { rewrite getActiveVideo_eq. cbv zeta. by rewrite Hnone. }
  assert (Hlast : lastActiveVideo (ctl (snd (getActiveVideo now w))) = None).
  { by rewrite getActiveVideo_lastActive. }
  split; [done|]. split; [done|]. split.
  - intros now' p'. unfold stillCandidate.
    destruct (afterDetection_core now'
                (withDoc p' (snd (getActiveVideo now w)))) as (_ & -> & _).
    cbn [ctl withDoc]. by rewrite Hlast.
  - intros now' p' v Hv. by apply getActiveVideo_candidate in Hv.
Qed.

(** On a page without videos the remembered video 1 is forgotten. *)
Lemma getActiveVideo_no_candidate_forgets_witness :
  lastActiveVideo (ctl rememberedButGone) = Some 1%nat
  ∧ lastActiveVideo (ctl (snd (getActiveVideo 2000 rememberedButGone))) = None.
Proof.
  split; [reflexivity|].
  refine (proj1 (proj2 (getActiveVideo_no_candidate_forgets
                          2000 rememberedButGone _))).
  reflexivity.
Defined.

(** With two or more candidates both side effects take place. *)
Lemma getActiveVideo_several_candidates_effects now w v :
  (2 <= length (validVideos (doc w)))%nat →
  fst (getActiveVideo now w) = Some v →
  lastActiveVideo (ctl (snd (getActiveVideo now w))) = Some v
  ∧ ∃ st, trackedVideos (ctl (snd (getActiveVideo now w))) !! v = Some st
          ∧ lastInteraction st = now.
Proof.
  intros Hlen Hv. split; [by rewrite getActiveVideo_lastActive|].
  rewrite getActiveVideo_tracked, Hv, bool_decide_eq_true_2 by done.
  apply Nat.leb_le in Hlen. rewrite Hlen. cbn [andb].
  destruct (afterDetection_all_tracked now w v) as [st Hst].
  { by apply (getActiveVideo_candidate now). }
  rewrite Hst. by eexists.
Qed.

(** C8, on the path of a single candidate. The only valid candidate is
    returned and remembered as last active, but when it is tracked already
    its tracked state, timestamp included, stays what it was: the early
    return comes before the update of [lastInteraction]. *)
Theorem getActiveVideo_single_candidate_keeps_timestamp (now : N) (w : World)
    (v : VideoId) (st : VideoState) :
  validVideos (doc w) = [v] →
  trackedVideos (ctl w) !! v = Some st →
  fst (getActiveVideo now w) = Some v
  ∧ lastActiveVideo (ctl (snd (getActiveVideo now w))) = Some v
  ∧ trackedVideos (ctl (snd (getActiveVideo now w))) !! v = Some st.
Proof.
  intros Hone Hst.
  assert (Hfst : fst (getActiveVideo now w) = Some v).
  { rewrite getActiveVideo_eq. cbv zeta. by rewrite Hone. }
  split; [done|]. split; [by rewrite getActiveVideo_lastActive|].
  rewrite getActiveVideo_tracked, Hone. cbn [length Nat.leb].
  rewrite andb_false_r, afterDetection_tracked, Hone, Hst.
  rewrite bool_decide_eq_true_2; [done|apply list_elem_of_here].
Qed.

(** Video 1, last touched at 1000 ms, is selected at 5000 ms as the only
    candidate: its timestamp still reads 1000. *)
Lemma getActiveVideo_single_candidate_keeps_timestamp_witness :
  fst (getActiveVideo 5000 singleTrackedVideo) = Some 1%nat
  ∧ lastInteraction
      <$> trackedVideos (ctl (snd (getActiveVideo 5000 singleTrackedVideo)))
          !! 1%nat
    = Some 1000%N.
Proof.
  destruct (getActiveVideo_single_candidate_keeps_timestamp
              5000 singleTrackedVideo 1%nat
              {| originalRate := JS.Num (JS.ofZ 1); isSpeedBoosted := false;
                 platform := Generic; lastInteraction := 1000 |}
              eq_refl eq_refl) as (H1 & _ & H3).
  split; [exact H1|]. rewrite H3. reflexivity.
Defined.

(** ** C6: pruning of detached videos *)

Lemma pruneLoop_spec p (l : list (VideoId * VideoState)) :
  ∀ c n,
    (∀ v, v ∈ l.*1 → inDocument (element p v) = false →
          trackedVideos (foldl (pruneStep p) (c, n) l).1 !! v = None)
    ∧ (∀ v, v ∉ l.*1 ∨ inDocument (element p v) = true →
            trackedVideos (foldl (pruneStep p) (c, n) l).1 !! v
            = trackedVideos c !! v)
    ∧ lastActiveVideo (foldl (pruneStep p) (c, n) l).1
      = match lastActiveVideo c with
        | Some a =>
            if bool_decide (a ∈ l.*1 ∧ inDocument (element p a) = false)
            then None else Some a
        | None => None
        end.
Proof.
  induction l as [|[u st] l IH]; intros c n.
  - cbn. split; [intros v Hv; by apply elem_of_nil in Hv|]. split; [done|].
    destruct (lastActiveVideo c) as [a|]; [|done].
    rewrite bool_decide_eq_false_2; [done|].
    intros [Ha _]. by apply elem_of_nil in Ha.
  - cbn [foldl]. rewrite fmap_cons. cbn [fst].
    destruct (pruneStep p (c, n) (u, st)) as [c1 n1] eqn:Hstep.
    destruct (IH c1 n1) as (Hdrop & Hkeep & Hlast).
    assert (Htracked : trackedVideos c1
                       = if inDocument (element p u) then trackedVideos c
                         else delete u (trackedVideos c)).
    { unfold pruneStep in Hstep.
      destruct (inDocument (element p u)); cbn in Hstep.
      - by injection Hstep as <- _.
      - injection Hstep as <- _. by case_bool_decide. }
    assert (Hactive : lastActiveVideo c1
                      = if inDocument (element p u)
                        then lastActiveVideo c
                        else if bool_decide (lastActiveVideo c = Some u)
                             then None else lastActiveVideo c).
    { unfold pruneStep in Hstep.
      destruct (inDocument (element p u)); cbn in Hstep.
      - by injection Hstep as <- _.
      - injection Hstep as <- _. by case_bool_decide. }
    split; [|split].
    + intros v Hv Hout.
      destruct (decide (v ∈ l.*1)) as [Hin|Hnin]; [by apply Hdrop|].
      apply elem_of_cons in Hv as [->|]; [|done].
      rewrite Hkeep by (by left). rewrite Htracked, Hout.
      apply lookup_delete_eq.
    + intros v Hv. rewrite Hkeep.
      * rewrite Htracked. destruct (inDocument (element p u)) eqn:Hu; [done|].
        apply lookup_delete_ne. intros ->.
        destruct Hv as [Hv|Hv]; [|congruence].
        apply Hv. apply list_elem_of_here.
      * destruct Hv as [Hv|Hv]; [left|by right].
        intros Hin. apply Hv. by apply list_elem_of_further.
    + rewrite Hlast, Hactive. clear.
      destruct (lastActiveVideo c) as [a|]; [|by destruct (inDocument _)].
      destruct (inDocument (element p u)) eqn:Hu.
      * apply option_eq. intros x.
        repeat case_bool_decide; try done; exfalso.
        -- match goal with H : ¬ _ |- _ => apply H end.
           split; [apply list_elem_of_further|]; tauto.
        -- match goal with H : ¬ _ |- _ => apply H end.
           match goal with H : _ ∧ _ |- _ => destruct H as [H1 H2] end.
           split; [|done]. apply elem_of_cons in H1 as [->|]; [congruence|done].
      * case_bool_decide as Heq.
        -- injection Heq as ->. rewrite bool_decide_eq_true_2; [done|].
           split; [apply list_elem_of_here|done].
        -- repeat case_bool_decide; try done; exfalso.
           ++ match goal with H : ¬ _ |- _ => apply H end.
              split; [apply list_elem_of_further|]; tauto.
           ++ match goal with H : ¬ (_ ∧ _) |- _ => apply H end.
              match goal with H : _ ∧ _ |- _ => destruct H as [H1 H2] end.
              split; [|done].
              apply elem_of_cons in H1 as [->|]; [congruence|done].
Qed.

Lemma cleanupStaleElements_ctl w :
  ctl (snd (cleanupStaleElements w))
  = (foldl (pruneStep (doc w)) (ctl w, 0%nat)
           (map_to_list (trackedVideos (ctl w)))).1.
Proof.
  unfold cleanupStaleElements.
  destruct (foldl (pruneStep (doc w)) (ctl w, 0%nat)
                  (map_to_list (trackedVideos (ctl w)))) as [c n].
  cbn [fst].
  destruct (1 <? length (indicatorNodes (doc w)))%nat;
    destruct (1 <? styleNodes _)%nat; reflexivity.
Qed.

Lemma elem_of_map_to_list_fst (m : gmap VideoId VideoState) v :
  v ∈ (map_to_list m).*1 ↔ is_Some (m !! v).
Proof.
  split.
  - intros Hv. apply list_elem_of_fmap in Hv as ([u st] & -> & Hin).
    apply elem_of_map_to_list in Hin. by eexists.
  - intros [st Hst]. apply list_elem_of_fmap. exists (v, st).
    split; [done|]. by apply elem_of_map_to_list.
Qed.

(** C6. [cleanupStaleElements] keeps exactly the tracked videos that are
    attached to the document: with M tracked entries of which N are
    detached, M - N remain. The remembered last-active element is
    forgotten exactly when it was tracked and detached, that is, when it
    was among the removed entries. The operation returns for every
    controller and document. *)
Theorem cleanupStaleElements_removes_detached (w : World) :
  trackedVideos (ctl (snd (cleanupStaleElements w)))
  = filter (λ kv, inDocument (element (doc w) kv.1) = true)
           (trackedVideos (ctl w))
  ∧ (size (trackedVideos (ctl (snd (cleanupStaleElements w))))
     + size (filter (λ kv, ¬ inDocument (element (doc w) kv.1) = true)
                    (trackedVideos (ctl w))))%nat
    = size (trackedVideos (ctl w))
  ∧ lastActiveVideo (ctl (snd (cleanupStaleElements w)))
    = match lastActiveVideo (ctl w) with
      | Some a =>
          if bool_decide (is_Some (trackedVideos (ctl w) !! a)
                          ∧ inDocument (element (doc w) a) = false)
          then None else Some a
      | None => None
      end.
Proof.
  rewrite cleanupStaleElements_ctl.
  destruct (pruneLoop_spec (doc w) (map_to_list (trackedVideos (ctl w)))
              (ctl w) 0%nat) as (Hdrop & Hkeep & Hlast).
  assert (Heq : trackedVideos
                  (foldl (pruneStep (doc w)) (ctl w, 0%nat)
                         (map_to_list (trackedVideos (ctl w)))).1
                = filter (λ kv, inDocument (element (doc w) kv.1) = true)
                         (trackedVideos (ctl w))).
  { apply map_eq. intros v.
    destruct (inDocument (element (doc w) v)) eqn:Hv.
    - rewrite Hkeep by (by right).
      destruct (trackedVideos (ctl w) !! v) as [st|] eqn:Hst.
      + symmetry. by apply map_lookup_filter_Some_2.
      + symmetry. apply map_lookup_filter_None. by left.
    - transitivity (@None VideoState).
      + destruct (trackedVideos (ctl w) !! v) as [st|] eqn:Hst.
        * apply Hdrop; [|done]. apply elem_of_map_to_list_fst. by eexists.
        * rewrite Hkeep; [done|]. left. intros Hin.
          apply elem_of_map_to_list_fst in Hin as [? ?]. congruence.
      + symmetry. apply map_lookup_filter_None. right.
        intros st _. cbn. congruence. }
  split; [exact Heq|]. split.
  - rewrite Heq. rewrite <- map_size_disj_union
      by apply map_disjoint_filter_complement.
    by rewrite map_filter_union_complement.
  - rewrite Hlast. destruct (lastActiveVideo (ctl w)) as [a|]; [|done].
    repeat case_bool_decide; try done; exfalso.
    + match goal with H : ¬ _ |- _ => apply H end.
      match goal with H : _ ∧ _ |- _ => destruct H as [H1 H2] end.
      split; [|done]. by apply elem_of_map_to_list_fst.
    + match goal with H : ¬ (_ ∈ _ ∧ _) |- _ => apply H end.
      match goal with H : _ ∧ _ |- _ => destruct H as [H1 H2] end.
      split; [|done]. by apply elem_of_map_to_list_fst.
Qed.

(** ** Boost and restore, case by case *)

(** The state detection hands to the selection for a candidate: the
    tracked one, or a fresh one. *)
Lemma getActiveVideo_tracked_Some now w u st' :
  trackedVideos (ctl (snd (getActiveVideo now w))) !! u = Some st' →
  u ∈ validVideos (doc w)
  ∧ originalRate st'
    = originalRate (default (freshState now (doc w) u)
                            (trackedVideos (ctl w) !! u))
  ∧ isSpeedBoosted st'
    = isSpeedBoosted (default (freshState now (doc w) u)
                              (trackedVideos (ctl w) !! u)).
Proof.
  rewrite getActiveVideo_tracked, afterDetection_tracked.
  destruct (decide (u ∈ validVideos (doc w))) as [Hu|Hu].
  - rewrite (bool_decide_eq_true_2 _ Hu).
    destruct (_ && _); cbn; intros [= <-]; done.
  - rewrite (bool_decide_eq_false_2 _ Hu). destruct (_ && _); cbn; done.
Qed.

Lemma getActiveVideo_selected_tracked now w v :
  fst (getActiveVideo now w) = Some v →
  ∃ st, trackedVideos (ctl (snd (getActiveVideo now w))) !! v = Some st.
Proof.
  intros Hv. rewrite getActiveVideo_tracked.
  destruct (afterDetection_all_tracked now w v) as [st Hst].
  { by apply (getActiveVideo_candidate now). }
  rewrite Hst. destruct (_ && _); by eexists.
Qed.

Lemma applySpeedBoost_cases multiplier now w :
  match fst (getActiveVideo now w) with
  | None =>
      applySpeedBoost multiplier now w = (false, snd (getActiveVideo now w))
  | Some v =>
      ∃ st,
        trackedVideos (ctl (snd (getActiveVideo now w))) !! v = Some st
        ∧ applySpeedBoost multiplier now w
          = boostOutcome multiplier v st (snd (getActiveVideo now w))
  end.
Proof.
  destruct (fst (getActiveVideo now w)) as [v|] eqn:Hsel.
  - destruct (getActiveVideo_selected_tracked now w v Hsel) as [st Hst].
    exists st. split; [done|]. unfold applySpeedBoost, boostOutcome.
    destruct (getActiveVideo now w) as [a w1]. cbn [fst snd] in *.
    subst a. rewrite Hst. reflexivity.
  - unfold applySpeedBoost.
    destruct (getActiveVideo now w) as [a w1]. cbn [fst snd] in *.
    by subst a.
Qed.

Lemma restoreOriginalSpeed_cases now w :
  match fst (getActiveVideo now w) with
  | None => restoreOriginalSpeed now w = (false, snd (getActiveVideo now w))
  | Some v =>
      ∃ st,
        trackedVideos (ctl (snd (getActiveVideo now w))) !! v = Some st
        ∧ restoreOriginalSpeed now w
          = restoreOutcome v st (snd (getActiveVideo now w))
  end.
Proof.
  destruct (fst (getActiveVideo now w)) as [v|] eqn:Hsel.
  - destruct (getActiveVideo_selected_tracked now w v Hsel) as [st Hst].
    exists st. split; [done|]. unfold restoreOriginalSpeed, restoreOutcome.
    destruct (getActiveVideo now w) as [a w1]. cbn [fst snd] in *.
    subst a. rewrite Hst. reflexivity.
  - unfold restoreOriginalSpeed.
    destruct (getActiveVideo now w) as [a w1]. cbn [fst snd] in *.
    by subst a.
Qed.

(** ** C2: invalid multipliers *)

Lemma rejectedMultiplier_invalid m :
  m ≠ JS.Undefined →
  m ≠ JS.Num JS.NaN →
  invalidMultiplier m →
  rejectedMultiplier (defaultMultiplier m) = true.
Proof.
  intros Hundef Hnan Hinv. destruct m as [| | |n| |]; try done.
  cbn [defaultMultiplier rejectedMultiplier].
  destruct n as [| | |q]; try done. cbn in Hinv |- *.
  destruct (Qle_bool q (inject_Z 0)) eqn:Hle; [done|]. cbn [orb].
  apply Qltb_lt. apply Qnot_le_lt. intros Hup. apply Hinv. split; [|done].
  apply Qnot_le_lt. intros Hlow.
  apply (proj2 (Qle_bool_iff q (inject_Z 0))) in Hlow. congruence.
Qed.

(** C2, as the code has it. For a multiplier that is not a number, is
    infinite, or is a finite number outside (0, 16], the argument
    [undefined] apart (the default 2.0 of the parameter replaces it),
    [applySpeedBoost] writes no playback rate and changes neither the
    [originalRate] nor the [isSpeedBoosted] of any tracked video. It
    returns failure, except that it returns success when the active video
    is boosted already: that test comes before the one on the multiplier.
    The argument [undefined] stands for the multiplier 2. Nothing is said
    here of NaN. *)
Theorem applySpeedBoost_rejects_invalid (m : JS.Value) (now : N) (w : World) :
  m ≠ JS.Undefined →
  m ≠ JS.Num JS.NaN →
  invalidMultiplier m →
  doc (snd (applySpeedBoost m now w)) = doc w
  ∧ (∀ v st st',
       trackedVideos (ctl w) !! v = Some st →
       trackedVideos (ctl (snd (applySpeedBoost m now w))) !! v = Some st' →
       originalRate st' = originalRate st
       ∧ isSpeedBoosted st' = isSpeedBoosted st)
  ∧ (fst (applySpeedBoost m now w) = true ↔ activeAlreadyBoosted now w)
  ∧ applySpeedBoost JS.Undefined now w
    = applySpeedBoost (JS.Num (JS.ofZ 2)) now w.
Proof.
  intros Hundef Hnan Hinv.
  cut (doc (snd (applySpeedBoost m now w)) = doc w
       ∧ (∀ v st st',
            trackedVideos (ctl w) !! v = Some st →
            trackedVideos (ctl (snd (applySpeedBoost m now w))) !! v
            = Some st' →
            originalRate st' = originalRate st
            ∧ isSpeedBoosted st' = isSpeedBoosted st)
       ∧ (fst (applySpeedBoost m now w) = true ↔ activeAlreadyBoosted now w)).
  { intros (H1 & H2 & H3). split; [exact H1|]. split; [exact H2|].
    split; [exact H3|]. reflexivity. }
  pose proof (rejectedMultiplier_invalid m Hundef Hnan Hinv) as Hrej.
  assert (Hsame : ∀ v st st',
            trackedVideos (ctl w) !! v = Some st →
            trackedVideos (ctl (snd (getActiveVideo now w))) !! v = Some st' →
            originalRate st' = originalRate st
            ∧ isSpeedBoosted st' = isSpeedBoosted st).
  { intros v st st' Hst Hst'.
    apply getActiveVideo_tracked_Some in Hst' as (_ & -> & ->).
    by rewrite Hst. }
  pose proof (applySpeedBoost_cases m now w) as Hcases.
  destruct (fst (getActiveVideo now w)) as [v|] eqn:Hsel.
  - destruct Hcases as (st1 & Hst1 & ->). unfold boostOutcome.
    pose proof (getActiveVideo_tracked_Some now w v st1 Hst1)
      as (_ & _ & Hboost).
    destruct (isSpeedBoosted st1) eqn:Hb; cbn [fst snd].
    + split; [apply getActiveVideo_doc|]. split; [exact Hsame|].
      split; [|done]. intros _. unfold activeAlreadyBoosted.
      destruct (trackedVideos (ctl w) !! v) as [st0|] eqn:Hst0;
        cbn in Hboost; [|done].
      exists v, st0. by rewrite Hsel.
    + rewrite Hrej. cbn [fst snd].
      split; [apply getActiveVideo_doc|]. split; [exact Hsame|].
      split; [done|]. intros (u & st0 & Hu & Hst0 & Hb0).
      rewrite Hsel in Hu. injection Hu as <-.
      rewrite Hst0 in Hboost. cbn in Hboost. congruence.
  - rewrite Hcases. cbn [fst snd].
    split; [apply getActiveVideo_doc|]. split; [exact Hsame|].
    split; [done|]. intros (u & st0 & Hu & _). by rewrite Hsel in Hu.
Qed.

(** The multiplier 0 on the tracked, unboosted video 1: nothing is
    written. *)
Lemma applySpeedBoost_rejects_invalid_witness :
  doc (snd (applySpeedBoost (JS.Num (JS.ofZ 0)) 2000 singleTrackedVideo))
  = doc singleTrackedVideo.
Proof.
  refine (proj1 (applySpeedBoost_rejects_invalid
                   (JS.Num (JS.ofZ 0)) 2000 singleTrackedVideo _ _ _)).
  - discriminate.
  - discriminate.
  - intros [H _]. vm_compute in H. discriminate.
Defined.

(** C2 as stated fails: 0 is an invalid multiplier, yet on the boosted
    video 1 the call returns success; and [undefined] is not a number, yet
    the call boosts the unboosted video 1 to the default rate 2. *)
Lemma applySpeedBoost_invalid_not_always_refused :
  (invalidMultiplier (JS.Num (JS.ofZ 0))
   ∧ fst (applySpeedBoost (JS.Num (JS.ofZ 0)) 2000 boostedVideo1) = true)
  ∧ (invalidMultiplier JS.Undefined
     ∧ fst (applySpeedBoost JS.Undefined 2000 singleTrackedVideo) = true
     ∧ playbackRate
         (element (doc (snd (applySpeedBoost JS.Undefined 2000
                               singleTrackedVideo))) 1%nat)
       = JS.Num (JS.ofZ 2)).
Proof.
  split.
  - split; [|vm_compute; reflexivity].
    intros [H _]. vm_compute in H. discriminate.
  - split; [exact I|]. split; vm_compute; reflexivity.
Qed.

(** NaN passes the test on the multiplier, since every comparison with
    NaN is false: on an element whose setter takes any value the call
    succeeds and leaves the rate at NaN. *)
Lemma applySpeedBoost_NaN_passes :
  rejectedMultiplier (JS.Num JS.NaN) = false
  ∧ fst (applySpeedBoost (JS.Num JS.NaN) 2000 singleTrackedVideo) = true
  ∧ playbackRate
      (element (doc (snd (applySpeedBoost (JS.Num JS.NaN) 2000
                            singleTrackedVideo))) 1%nat)
    = JS.Num JS.NaN.
Proof. repeat split; vm_compute; reflexivity. Qed.

(** ** The selection is stable across an immediate second call *)

Lemma interactionTime_after_selection now1 w v u :
  (2 <= length (validVideos (doc w)))%nat →
  fst (getActiveVideo now1 w) = Some v →
  u ∈ validVideos (doc w) →
  interactionTime (trackedVideos (ctl (snd (getActiveVideo now1 w)))) u
  = if decide (u = v) then now1
    else interactionTime (trackedVideos (afterDetection now1 w)) u.
Proof.
  intros Hlen Hsel Hu. unfold interactionTime.
  rewrite getActiveVideo_tracked, Hsel.
  apply Nat.leb_le in Hlen. rewrite Hlen, andb_true_r.
  destruct (afterDetection_all_tracked now1 w u Hu) as [st ->].
  destruct (decide (u = v)) as [->|Hne].
  - by rewrite bool_decide_eq_true_2.
  - rewrite bool_decide_eq_false_2; [done|congruence].
Qed.

Lemma getActiveVideo_reselect now1 now2 w w2 v :
  fst (getActiveVideo now1 w) = Some v →
  (∀ st, trackedVideos (ctl w) !! v = Some st →
         (lastInteraction st <= now1)%N) →
  validVideos (doc w2) = validVideos (doc w) →
  (∀ u, isPlaying (doc w2) u = isPlaying (doc w) u) →
  lastActiveVideo (ctl w2) = Some v →
  (∀ u, lastInteraction <$> trackedVideos (ctl w2) !! u
        = lastInteraction
            <$> trackedVideos (ctl (snd (getActiveVideo now1 w))) !! u) →
  fst (getActiveVideo now2 w2) = Some v.
Proof.
  intros Hsel Hclock Hvalid Hplay Hlast Hts.
  pose proof (getActiveVideo_candidate now1 w v Hsel) as Hv.
  pose proof Hsel as Hsel1.
  rewrite getActiveVideo_eq in Hsel1. rewrite getActiveVideo_eq.
  cbv zeta in Hsel1 |- *. rewrite Hvalid.
  destruct (validVideos (doc w)) as [|x [|y l]] eqn:Hvideos;
    cbn [fst] in Hsel1 |- *; [done|done|].
  assert (Hlen : (2 <= length (validVideos (doc w)))%nat).
  { rewrite Hvideos. cbn. lia. }
  assert (Hfilter : List.filter (isPlaying (doc w2)) (x :: y :: l)
                    = List.filter (isPlaying (doc w)) (x :: y :: l)).
  { apply List.filter_ext. intros u. apply Hplay. }
  destruct (chooseActive_spec (afterDetection now1 w) (doc w) (x :: y :: l))
    as (v1 & Hv1 & _ & Hone1 & Hmany1 & _); [done| |].
  { intros u Hu. apply afterDetection_all_tracked. by rewrite Hvideos. }
  assert (v1 = v) as -> by congruence.
  destruct (chooseActive_spec (afterDetection now2 w2) (doc w2) (x :: y :: l))
    as (v2 & Hv2 & _ & Hone2 & Hmany2 & Hkeep2 & _); [done| |].
  { intros u Hu. apply afterDetection_all_tracked. by rewrite Hvalid. }
  rewrite Hv2. f_equal. rewrite Hfilter in Hone2, Hmany2, Hkeep2.
  destruct (List.filter (isPlaying (doc w)) (x :: y :: l))
    as [|a [|b pl]] eqn:Hplaying.
  - apply Hkeep2; [done| |exact Hv].
    destruct (afterDetection_core now2 w2) as (_ & -> & _). done.
  - by rewrite (Hone1 a eq_refl), (Hone2 a eq_refl).
  - specialize (Hmany1 ltac:(cbn; lia)). specialize (Hmany2 ltac:(cbn; lia)).
    eapply (FirstMax_unique N.le N.lt ltac:(intros; lia)); [exact Hmany2|].
    eapply FirstMax_ext;
      [|eapply (FirstMax_raise N.le N.lt ltac:(intros; lia)
                  ltac:(intros; lia) ltac:(intros; lia) ltac:(intros; lia)
                  _ (λ u, if decide (u = v) then now1
                          else interactionTime
                                 (trackedVideos (afterDetection now1 w)) u));
        [| |exact Hmany1]].
    + intros u Hu. cbv beta.
      assert (Hin : u ∈ validVideos (doc w)).
      { rewrite Hvideos. apply (filter_isPlaying_elem_of (doc w)).
        by rewrite Hplaying. }
      rewrite <- (interactionTime_after_selection now1 w v u Hlen Hsel Hin).
      unfold interactionTime at 2.
      rewrite afterDetection_tracked, Hvalid.
      rewrite bool_decide_eq_true_2 by (by rewrite <- Hvideos).
      specialize (Hts u). unfold interactionTime.
      destruct (getActiveVideo_selected_tracked now1 w v Hsel) as [stv Hstv].
      destruct (trackedVideos (ctl (snd (getActiveVideo now1 w))) !! u)
        as [st1|] eqn:Hst1.
      * destruct (trackedVideos (ctl w2) !! u) as [st2|]; cbn in Hts |- *;
          congruence.
      * exfalso. rewrite getActiveVideo_tracked in Hst1.
        destruct (afterDetection_all_tracked now1 w u Hin) as [st Hst].
        rewrite Hst in Hst1. by destruct (_ && _).
    + intros u Hne. cbv beta. by rewrite decide_False.
    + cbv beta. rewrite decide_True by done.
      rewrite interactionTime_afterDetection by (by rewrite Hvideos).
      unfold selectionTime.
      destruct (trackedVideos (ctl w) !! v) as [st|] eqn:Hst; [|lia].
      by apply Hclock.
Qed.

(** ** Writing a playback rate does not change the candidates *)

Lemma element_withElement v el p u :
  element (withElement v el p) u = if decide (u = v) then el else element p u.
Proof. reflexivity. Qed.

Lemma isVideoTag_withPlaybackRate p v r u :
  isVideoTag (element (withElement v (withPlaybackRate r (element p v)) p) u)
  = isVideoTag (element p u).
Proof.
  rewrite element_withElement. by destruct (decide (u = v)) as [->|].
Qed.

Lemma isValidVideo_withPlaybackRate p v r u :
  JS.isNumber r = true →
  isValidVideo (element p v) = true →
  isValidVideo (element (withElement v (withPlaybackRate r (element p v)) p) u)
  = isValidVideo (element p u).
Proof.
  intros Hr Hv. rewrite element_withElement.
  destruct (decide (u = v)) as [->|]; [|done]. rewrite Hv.
  unfold isValidVideo in *. unfold isVideoTag in *.
  cbn [tagName rectWidth rectHeight src hasSourceChild currentSrc
       hasOffsetParent display visibility opacity playbackRate
       withPlaybackRate].
  destruct (negb _); [done|]. rewrite Hr.
  apply andb_true_iff in Hv as [Hv _]. by rewrite Hv.
Qed.

Lemma queryMultipleSelectors_ext selectors p p' :
  querySelectorAll p' = querySelectorAll p →
  (∀ u, isVideoTag (element p' u) = isVideoTag (element p u)) →
  queryMultipleSelectors selectors p' = queryMultipleSelectors selectors p.
Proof.
  intros Hq Htag. unfold queryMultipleSelectors. generalize (@nil VideoId).
  induction selectors as [|sel selectors IH]; intros acc; [done|].
  cbn [foldl]. rewrite IH, Hq. do 2 f_equal. apply List.filter_ext.
  intros u. apply Htag.
Qed.

Lemma validVideos_withPlaybackRate p v r :
  JS.isNumber r = true →
  isValidVideo (element p v) = true →
  validVideos (withElement v (withPlaybackRate r (element p v)) p)
  = validVideos p.
Proof.
  intros Hr Hv. unfold validVideos.
  assert (Hplat :
    detectPlatformSpecificVideos
      (withElement v (withPlaybackRate r (element p v)) p)
    = detectPlatformSpecificVideos p).
  { unfold detectPlatformSpecificVideos, detectYouTubeVideos,
      detectVimeoVideos, detectNetflixVideos.
    cbn [hostname withElement].
    repeat match goal with
           | |- context [if ?b then _ else _] => destruct b
           end;
      try reflexivity;
      (apply queryMultipleSelectors_ext;
       [reflexivity|apply isVideoTag_withPlaybackRate]). }
  rewrite Hplat. unfold detectGenericVideos. cbn [querySelectorAll withElement].
  apply List.filter_ext. intros u. by apply isValidVideo_withPlaybackRate.
Qed.

Lemma isPlaying_withPlaybackRate p v r u :
  isPlaying (withElement v (withPlaybackRate r (element p v)) p) u
  = isPlaying p u.
Proof.
  unfold isPlaying. rewrite element_withElement.
  by destruct (decide (u = v)) as [->|].
Qed.

Lemma setTracked_lookup v st w u :
  trackedVideos (ctl (setTracked v st w)) !! u
  = if decide (u = v) then Some st else trackedVideos (ctl w) !! u.
Proof.
  unfold setTracked. cbn [ctl withCtl withTracked trackedVideos].
  destruct (decide (u = v)) as [->|Hne].
  - apply lookup_insert_eq.
  - by apply lookup_insert_ne.
Qed.

Lemma rejectedMultiplier_false_isNumber m :
  rejectedMultiplier m = false → JS.isNumber m = true.
Proof. by destruct m. Qed.

(** After [applySpeedBoost] has run on the selected video [v], an
    immediate selection returns [v] again, provided the clock has not gone
    back behind the timestamp held for [v]. *)
Lemma applySpeedBoost_then_select m now1 now2 w v :
  fst (getActiveVideo now1 w) = Some v →
  (∀ st, trackedVideos (ctl w) !! v = Some st →
         (lastInteraction st <= now1)%N) →
  fst (getActiveVideo now2 (snd (applySpeedBoost m now1 w))) = Some v.
Proof.
  intros Hsel Hclock.
  pose proof (applySpeedBoost_cases m now1 w) as Hcases.
  rewrite Hsel in Hcases. destruct Hcases as (st1 & Hst1 & ->).
  pose proof (getActiveVideo_lastActive now1 w) as Hlast.
  rewrite Hsel in Hlast.
  pose proof (getActiveVideo_doc now1 w) as Hdoc.
  pose proof (validVideos_valid _ _ (getActiveVideo_candidate now1 w v Hsel))
    as Hvalid.
  apply (getActiveVideo_reselect now1 now2 w _ v Hsel Hclock);
    unfold boostOutcome.
  - destruct (isSpeedBoosted st1); cbn [snd]; [by rewrite Hdoc|].
    destruct (rejectedMultiplier (defaultMultiplier m)) eqn:Hrej;
      cbn [snd]; [by rewrite Hdoc|].
    unfold setPlaybackRate. cbn [doc setTracked withCtl].
    destruct (acceptsRate _ _); cbn [snd doc setTracked withCtl withDoc];
      rewrite Hdoc; [|done].
    apply validVideos_withPlaybackRate; [|done].
    by apply rejectedMultiplier_false_isNumber.
  - intros u. destruct (isSpeedBoosted st1); cbn [snd]; [by rewrite Hdoc|].
    destruct (rejectedMultiplier (defaultMultiplier m));
      cbn [snd]; [by rewrite Hdoc|].
    unfold setPlaybackRate. cbn [doc setTracked withCtl].
    destruct (acceptsRate _ _); cbn [snd doc setTracked withCtl withDoc];
      rewrite Hdoc; [|done].
    apply isPlaying_withPlaybackRate.
  - destruct (isSpeedBoosted st1); cbn [snd]; [done|].
    destruct (rejectedMultiplier (defaultMultiplier m)); cbn [snd]; [done|].
    unfold setPlaybackRate. cbn [doc setTracked withCtl].
    by destruct (acceptsRate _ _).
  - intros u. destruct (isSpeedBoosted st1); cbn [snd]; [done|].
    destruct (rejectedMultiplier (defaultMultiplier m)); cbn [snd]; [done|].
    unfold setPlaybackRate. cbn [doc setTracked withCtl].
    destruct (acceptsRate _ _); cbn [snd];
      repeat rewrite setTracked_lookup; cbn [ctl withDoc];
      repeat rewrite setTracked_lookup;
      destruct (decide (u = v)) as [->|]; try done; by rewrite Hst1.
Qed.

(** ** C7 and C3: boost twice, boost then restore *)

Lemma applySpeedBoost_noop_when_boosted m now w v st :
  fst (getActiveVideo now w) = Some v →
  trackedVideos (ctl w) !! v = Some st →
  isSpeedBoosted st = true →
  applySpeedBoost m now w = (true, snd (getActiveVideo now w)).
Proof.
  intros Hsel Hst Hboost.
  pose proof (applySpeedBoost_cases m now w) as Hcases.
  rewrite Hsel in Hcases. destruct Hcases as (st1 & Hst1 & ->).
  apply getActiveVideo_tracked_Some in Hst1 as (_ & _ & Hb).
  rewrite Hst in Hb. cbn in Hb. unfold boostOutcome.
  by rewrite Hb, Hboost.
Qed.

Lemma selected_not_boosted now w v st1 :
  (∀ st, trackedVideos (ctl w) !! v = Some st → isSpeedBoosted st = false) →
  trackedVideos (ctl (snd (getActiveVideo now w))) !! v = Some st1 →
  isSpeedBoosted st1 = false.
Proof.
  intros Hnot Hst1. apply getActiveVideo_tracked_Some in Hst1 as (_ & _ & ->).
  destruct (trackedVideos (ctl w) !! v) as [st|] eqn:Hst; cbn; [|done].
  by apply Hnot.
Qed.

Lemma applySpeedBoost_success_state m now w v :
  fst (getActiveVideo now w) = Some v →
  (∀ st, trackedVideos (ctl w) !! v = Some st → isSpeedBoosted st = false) →
  fst (applySpeedBoost m now w) = true →
  playbackRate (element (doc (snd (applySpeedBoost m now w))) v)
  = defaultMultiplier m
  ∧ acceptsRate (element (doc (snd (applySpeedBoost m now w))) v)
    = acceptsRate (element (doc w) v)
  ∧ ∃ st, trackedVideos (ctl (snd (applySpeedBoost m now w))) !! v = Some st
          ∧ originalRate st = playbackRate (element (doc w) v)
          ∧ isSpeedBoosted st = true.
Proof.
  intros Hsel Hnot.
  pose proof (applySpeedBoost_cases m now w) as Hcases.
  rewrite Hsel in Hcases. destruct Hcases as (st1 & Hst1 & ->).
  unfold boostOutcome.
  rewrite (selected_not_boosted now w v st1 Hnot Hst1).
  destruct (rejectedMultiplier (defaultMultiplier m)); [done|].
  unfold setPlaybackRate. cbn [doc setTracked withCtl].
  rewrite (getActiveVideo_doc now w).
  destruct (acceptsRate (element (doc w) v) (defaultMultiplier m));
    cbn [fst snd]; [intros _|done].
  cbn [doc setTracked withCtl withDoc]. rewrite element_withElement.
  rewrite decide_True by done. split; [done|]. split; [done|].
  rewrite setTracked_lookup, decide_True by done. by eexists.
Qed.


Lemma validMultiplier_default m : validMultiplier m → defaultMultiplier m = m.
Proof. by destruct m. Qed.

Lemma applySpeedBoost_second_call (m1 m2 : JS.Value) (now1 now2 : N)
    (w : World) (v : VideoId) :
  validMultiplier m1 →
  fst (getActiveVideo now1 w) = Some v →
  (∀ st, trackedVideos (ctl w) !! v = Some st →
         isSpeedBoosted st = false ∧ (lastInteraction st <= now1)%N) →
  fst (applySpeedBoost m1 now1 w) = true →
  fst (applySpeedBoost m2 now2 (snd (applySpeedBoost m1 now1 w))) = true
  ∧ doc (snd (applySpeedBoost m2 now2 (snd (applySpeedBoost m1 now1 w))))
    = doc (snd (applySpeedBoost m1 now1 w))
  ∧ playbackRate
      (element (doc (snd (applySpeedBoost m2 now2
                            (snd (applySpeedBoost m1 now1 w))))) v)
    = m1
  ∧ ∃ st,
      trackedVideos
        (ctl (snd (applySpeedBoost m2 now2 (snd (applySpeedBoost m1 now1 w)))))
        !! v = Some st
      ∧ originalRate st = playbackRate (element (doc w) v)
      ∧ isSpeedBoosted st = true.
Proof.
  intros Hm1 Hsel Hpre Hok.
  destruct (applySpeedBoost_success_state m1 now1 w v Hsel
              (λ st Hst, proj1 (Hpre st Hst)) Hok)
    as (Hrate & _ & stA & HstA & Horig & Hboost).
  pose proof (applySpeedBoost_then_select m1 now1 now2 w v Hsel
                (λ st Hst, proj2 (Hpre st Hst))) as Hsel2.
  rewrite (applySpeedBoost_noop_when_boosted m2 now2 _ v stA Hsel2 HstA Hboost).
  cbn [fst snd]. rewrite getActiveVideo_doc.
  split; [done|]. split; [done|].
  split; [by rewrite Hrate, validMultiplier_default|].
  destruct (getActiveVideo_selected_tracked now2 _ v Hsel2) as [st3 Hst3].
  exists st3. split; [done|].
  apply getActiveVideo_tracked_Some in Hst3 as (_ & -> & ->).
  by rewrite HstA.
Qed.

(** C7. A call of [applySpeedBoost] that finds the active video boosted
    already returns success and writes nothing, whatever the multiplier:
    the document is unchanged and the video keeps its [originalRate] and
    its mark. In particular, once a valid multiplier [m1] has been applied
    to an unboosted active video, a second call with any multiplier
    leaves the playback rate at [m1] and [originalRate] at the rate from
    before the first call; there the clock is taken not to have gone back
    behind the timestamp held for the video, so that the second call
    selects the same video. *)
Theorem applySpeedBoost_idempotent_while_boosted :
  (∀ (m : JS.Value) (now : N) (w : World) (v : VideoId) (st : VideoState),
     fst (getActiveVideo now w) = Some v →
     trackedVideos (ctl w) !! v = Some st →
     isSpeedBoosted st = true →
     fst (applySpeedBoost m now w) = true
     ∧ doc (snd (applySpeedBoost m now w)) = doc w
     ∧ ∃ st', trackedVideos (ctl (snd (applySpeedBoost m now w))) !! v
              = Some st'
              ∧ originalRate st' = originalRate st
              ∧ isSpeedBoosted st' = true)
  ∧ (∀ (m1 m2 : JS.Value) (now1 now2 : N) (w : World) (v : VideoId),
       validMultiplier m1 →
       fst (getActiveVideo now1 w) = Some v →
       (∀ st, trackedVideos (ctl w) !! v = Some st →
              isSpeedBoosted st = false ∧ (lastInteraction st <= now1)%N) →
       fst (applySpeedBoost m1 now1 w) = true →
       fst (applySpeedBoost m2 now2 (snd (applySpeedBoost m1 now1 w))) = true
       ∧ doc (snd (applySpeedBoost m2 now2 (snd (applySpeedBoost m1 now1 w))))
         = doc (snd (applySpeedBoost m1 now1 w))
       ∧ playbackRate
           (element (doc (snd (applySpeedBoost m2 now2
                                 (snd (applySpeedBoost m1 now1 w))))) v)
         = m1
       ∧ ∃ st,
           trackedVideos
             (ctl (snd (applySpeedBoost m2 now2
                          (snd (applySpeedBoost m1 now1 w)))))
             !! v = Some st
           ∧ originalRate st = playbackRate (element (doc w) v)
           ∧ isSpeedBoosted st = true).
Proof.
  split.
  - intros m now w v st Hsel Hst Hboost.
    rewrite (applySpeedBoost_noop_when_boosted m now w v st Hsel Hst Hboost).
    cbn [fst snd]. split; [done|]. split; [apply getActiveVideo_doc|].
    destruct (getActiveVideo_selected_tracked now w v Hsel) as [st' Hst'].
    exists st'. split; [done|].
    apply getActiveVideo_tracked_Some in Hst' as (_ & -> & ->).
    by rewrite Hst.
  - apply applySpeedBoost_second_call.
Qed.

(** Video 1 at rate 1 is boosted to 2; a second call with 3 changes
    nothing. *)
Lemma applySpeedBoost_idempotent_while_boosted_witness :
  playbackRate
    (element (doc (snd (applySpeedBoost (JS.Num (JS.ofZ 3)) 3000
                          (snd (applySpeedBoost (JS.Num (JS.ofZ 2)) 2000
                                  singleTrackedVideo)))))
             1%nat)
  = JS.Num (JS.ofZ 2)
  ∧ fst (applySpeedBoost (JS.Num (JS.ofZ 3)) 2000 boostedVideo1) = true.
Proof.
  split.
  - refine (proj1 (proj2 (proj2
              (proj2 applySpeedBoost_idempotent_while_boosted
                 (JS.Num (JS.ofZ 2)) (JS.Num (JS.ofZ 3)) 2000%N 3000%N
                 singleTrackedVideo 1%nat _ _ _ _)))).
    + split; vm_compute; congruence.
    + vm_compute. reflexivity.
    + intros st Hst. vm_compute in Hst. injection Hst as <-.
      split; [reflexivity|]. vm_compute. congruence.
    + vm_compute. reflexivity.
  - refine (proj1 (proj1 applySpeedBoost_idempotent_while_boosted
                     (JS.Num (JS.ofZ 3)) 2000%N boostedVideo1 1%nat
                     {| originalRate := JS.Num (JS.ofZ 1);
                        isSpeedBoosted := true; platform := Generic;
                        lastInteraction := 1000%N |} _ _ _));
      vm_compute; reflexivity.
Defined.



(** ** Forced deactivation *)

Lemma logError_fields message w :
  trackedVideos (ctl (logError message w)) = trackedVideos (ctl w)
  ∧ hotkeyState (ctl (logError message w)) = hotkeyState (ctl w)
  ∧ doc (logError message w) = doc w.
Proof. unfold logError. by destruct (_ <? _)%nat. Qed.

(** One turn of the loop of [resetAllSpeeds]. *)
Lemma resetStep_spec w n x stx :
  let w1 := (resetStep (w, n) (x, stx)).1 in
  let undo := isSpeedBoosted stx
              && acceptsRate (element (doc w) x) (originalRate stx) in
  hotkeyState (ctl w1) = hotkeyState (ctl w)
  ∧ indicatorNodes (doc w1) = indicatorNodes (doc w)
  ∧ (∀ u, acceptsRate (element (doc w1) u) = acceptsRate (element (doc w) u))
  ∧ (∀ u, u ≠ x →
          trackedVideos (ctl w1) !! u = trackedVideos (ctl w) !! u
          ∧ element (doc w1) u = element (doc w) u)
  ∧ trackedVideos (ctl w1) !! x
    = (if undo then Some (markBoosted false stx)
       else trackedVideos (ctl w) !! x)
  ∧ element (doc w1) x
    = (if undo then withPlaybackRate (originalRate stx) (element (doc w) x)
       else element (doc w) x).
Proof.
  cbv zeta. unfold resetStep, setPlaybackRate.
  destruct (isSpeedBoosted stx); cbn [andb fst].
  - destruct (acceptsRate (element (doc w) x) (originalRate stx)) eqn:Hacc;
      cbn [fst].
    + split; [done|]. split; [done|]. split.
      { intros u. cbn [doc setTracked withCtl withDoc].
        rewrite element_withElement. by destruct (decide (u = x)) as [->|]. }
      split.
      { intros u Hne. rewrite setTracked_lookup, decide_False by done.
        cbn [doc setTracked withCtl withDoc ctl].
        by rewrite element_withElement, decide_False. }
      rewrite setTracked_lookup, decide_True by done. split; [done|].
      cbn [doc setTracked withCtl withDoc].
      by rewrite element_withElement, decide_True.
    + destruct (logError_fields "Error resetting individual video speed" w)
        as (-> & -> & ->). done.
  - done.
Qed.

Lemma resetLoop_spec (l : list (VideoId * VideoState)) :
  NoDup l.*1 →
  ∀ w n,
    hotkeyState (ctl (foldl resetStep (w, n) l).1) = hotkeyState (ctl w)
    ∧ indicatorNodes (doc (foldl resetStep (w, n) l).1)
      = indicatorNodes (doc w)
    ∧ (∀ u, acceptsRate (element (doc (foldl resetStep (w, n) l).1) u)
            = acceptsRate (element (doc w) u))
    ∧ (∀ u, u ∉ l.*1 →
            trackedVideos (ctl (foldl resetStep (w, n) l).1) !! u
            = trackedVideos (ctl w) !! u
            ∧ element (doc (foldl resetStep (w, n) l).1) u
              = element (doc w) u)
    ∧ (∀ u st, (u, st) ∈ l →
         trackedVideos (ctl (foldl resetStep (w, n) l).1) !! u
         = (if isSpeedBoosted st
               && acceptsRate (element (doc w) u) (originalRate st)
            then Some (markBoosted false st)
            else trackedVideos (ctl w) !! u)
         ∧ element (doc (foldl resetStep (w, n) l).1) u
           = (if isSpeedBoosted st
                 && acceptsRate (element (doc w) u) (originalRate st)
              then withPlaybackRate (originalRate st) (element (doc w) u)
              else element (doc w) u)).
Proof.
  induction l as [|[x stx] l IH]; intros Hnodup w n.
  - cbn. split; [done|]. split; [done|]. split; [done|]. split; [done|].
    intros u st Hin. by apply elem_of_nil in Hin.
  - rewrite fmap_cons in Hnodup. cbn [fst] in Hnodup.
    apply NoDup_cons in Hnodup as [Hx Hnodup].
    cbn [foldl].
    destruct (resetStep (w, n) (x, stx)) as [w1 n1] eqn:Hstep.
    pose proof (resetStep_spec w n x stx) as Hone.
    rewrite Hstep in Hone. cbv zeta in Hone. cbn [fst] in Hone.
    destruct Hone as (Hhk & Hind & Hacc & Hother & Htx & Hex).
    destruct (IH Hnodup w1 n1) as (IHhk & IHind & IHacc & IHout & IHin).
    split; [congruence|]. split; [congruence|]. split.
    { intros u. by rewrite IHacc, Hacc. }
    split.
    + intros u Hu. rewrite fmap_cons in Hu. cbn [fst] in Hu.
      apply not_elem_of_cons in Hu as [Hne Hu].
      destruct (IHout u Hu) as [-> ->]. by apply Hother.
    + intros u st Hin. apply elem_of_cons in Hin as [Heq|Hin].
      * injection Heq as Hu Hs. subst u st.
        destruct (IHout x Hx) as [-> ->]. by rewrite Htx, Hex.
      * assert (Hne : u ≠ x).
        { intros ->. apply Hx. apply list_elem_of_fmap. by exists (x, st). }
        destruct (IHin u st Hin) as [-> ->].
        by destruct (Hother u Hne) as [-> ->].
Qed.

Lemma hideSpeedIndicator_spec w :
  isSpeedIndicatorVisible (snd (hideSpeedIndicator w)) = false
  ∧ trackedVideos (ctl (snd (hideSpeedIndicator w))) = trackedVideos (ctl w)
  ∧ hotkeyState (ctl (snd (hideSpeedIndicator w))) = hotkeyState (ctl w)
  ∧ element (doc (snd (hideSpeedIndicator w))) = element (doc w).
Proof.
  unfold hideSpeedIndicator, isSpeedIndicatorVisible.
  destruct (indicatorNodes (doc w)) as [|node rest] eqn:Hnodes; cbn [snd].
  - by rewrite Hnodes.
  - done.
Qed.

(** [resetAllSpeeds] as a whole. *)
Lemma resetAllSpeeds_spec w :
  hotkeyState (ctl (snd (resetAllSpeeds w))) = hotkeyState (ctl w)
  ∧ isSpeedIndicatorVisible (snd (resetAllSpeeds w)) = false
  ∧ (∀ u, trackedVideos (ctl (snd (resetAllSpeeds w))) !! u
          = (λ st, if isSpeedBoosted st
                      && acceptsRate (element (doc w) u) (originalRate st)
                   then markBoosted false st else st)
            <$> trackedVideos (ctl w) !! u)
  ∧ (∀ u, element (doc (snd (resetAllSpeeds w))) u
          = match trackedVideos (ctl w) !! u with
            | Some st =>
                if isSpeedBoosted st
                   && acceptsRate (element (doc w) u) (originalRate st)
                then withPlaybackRate (originalRate st) (element (doc w) u)
                else element (doc w) u
            | None => element (doc w) u
            end).
Proof.
  unfold resetAllSpeeds.
  pose proof (resetLoop_spec (map_to_list (trackedVideos (ctl w)))
                (NoDup_fst_map_to_list _) w 0%nat)
    as (Hhk & _ & _ & Hout & Hin).
  destruct (foldl resetStep (w, 0%nat) (map_to_list (trackedVideos (ctl w))))
    as [w1 n1]. cbn [fst] in *.
  pose proof (hideSpeedIndicator_spec w1) as (Hvis & Ht & Hh & He).
  destruct (hideSpeedIndicator w1) as [b w2]. cbn [snd] in *.
  split; [congruence|]. split; [done|]. split.
  - intros u. rewrite Ht.
    destruct (trackedVideos (ctl w) !! u) as [st|] eqn:Hst; cbn.
    + destruct (Hin u st) as [-> _]; [by apply elem_of_map_to_list|].
      rewrite Hst. by destruct (_ && _).
    + destruct (Hout u) as [-> _]; [|done]. intros Hu.
      apply elem_of_map_to_list_fst in Hu as [? ?]. congruence.
  - intros u. rewrite He.
    destruct (trackedVideos (ctl w) !! u) as [st|] eqn:Hst.
    + by destruct (Hin u st) as [_ ->]; [by apply elem_of_map_to_list|].
    + destruct (Hout u) as [_ ->]; [|done]. intros Hu.
      apply elem_of_map_to_list_fst in Hu as [? ?]. congruence.
Qed.

Lemma getActiveVideo_undoing now w : undoing w (snd (getActiveVideo now w)).
Proof.
  split.
  - intros u. by rewrite getActiveVideo_doc.
  - intros u st st' Hst' Hst.
    apply getActiveVideo_tracked_Some in Hst' as (_ & -> & ->).
    rewrite Hst. cbn. by split; [|left].
Qed.

Lemma restoreOriginalSpeed_undoing now w :
  undoing w (snd (restoreOriginalSpeed now w))
  ∧ hotkeyState (ctl (snd (restoreOriginalSpeed now w))) = hotkeyState (ctl w).
Proof.
  pose proof (getActiveVideo_undoing now w) as [Hacc Hrel].
  pose proof (getActiveVideo_fields now w) as (_ & Hhk & _).
  pose proof (restoreOriginalSpeed_cases now w) as Hcases.
  destruct (fst (getActiveVideo now w)) as [v|] eqn:Hsel.
  - destruct Hcases as (st3 & Hst3 & ->). unfold restoreOutcome.
    destruct (negb (isSpeedBoosted st3)); cbn [snd]; [by split|].
    unfold setPlaybackRate.
    destruct (acceptsRate _ _); cbn [snd]; [|by split].
    split; [|done]. split.
    + intros u. cbn [doc setTracked withCtl withDoc].
      rewrite element_withElement, <- Hacc.
      by destruct (decide (u = v)) as [->|].
    + intros u st st' Hst' Hst. rewrite setTracked_lookup in Hst'.
      cbn [doc setTracked withCtl withDoc ctl] in *.
      rewrite element_withElement.
      destruct (decide (u = v)) as [->|Hne].
      * injection Hst' as <-. cbn [originalRate markBoosted isSpeedBoosted].
        destruct (Hrel v st st3 Hst3 Hst) as [Ho _].
        split; [done|]. right. by split.
      * by apply Hrel.
  - rewrite Hcases. cbn [snd]. by split.
Qed.

Lemma deactivateSpeedBoost_spec now w :
  isPressed (hotkeyState (ctl w)) = true →
  hotkeyState (ctl (deactivateSpeedBoost now w)) = idleHotkeyState
  ∧ undoing w (deactivateSpeedBoost now w).
Proof.
  intros Hpressed. unfold deactivateSpeedBoost. rewrite Hpressed. cbn [negb].
  pose proof (restoreOriginalSpeed_undoing now w) as [[Hacc Hrel] _].
  destruct (restoreOriginalSpeed now w) as [success wr]. cbn [snd] in *.
  split; [done|].
  pose proof (hideSpeedIndicator_spec wr) as (_ & Ht & _ & He).
  unfold undoing, resetHotkeyState.
  cbn [ctl doc withCtl withHotkeyState trackedVideos].
  destruct success; [|by split].
  rewrite Ht, He. by split.
Qed.

Lemma forcedResetDone_after_reset w wa w' :
  undoing w wa →
  hotkeyState (ctl wa) = idleHotkeyState →
  trackedVideos (ctl w') = trackedVideos (ctl (snd (resetAllSpeeds wa))) →
  element (doc w') = element (doc (snd (resetAllSpeeds wa))) →
  hotkeyState (ctl w') = hotkeyState (ctl (snd (resetAllSpeeds wa))) →
  isSpeedIndicatorVisible w' = false →
  forcedResetDone w w'.
Proof.
  intros [Hacc Hrel] Hidle Ht He Hhk Hvis.
  pose proof (resetAllSpeeds_spec wa) as (Hhk' & _ & Htracked & Helem).
  split; [congruence|]. split; [done|]. split.
  - intros v st' Hst' Hboost. rewrite Ht, Htracked in Hst'.
    destruct (trackedVideos (ctl wa) !! v) as [stk|] eqn:Hstk; [|done].
    cbn in Hst'. injection Hst' as <-. rewrite <- Hacc.
    destruct (isSpeedBoosted stk) eqn:Hbk; cbn [andb] in *.
    + destruct (acceptsRate (element (doc wa) v) (originalRate stk)) eqn:Ha;
        [cbn in Hboost; congruence|exact Ha].
    + congruence.
  - intros v st st' Hst' Hnot Hst Hboost. rewrite Ht, Htracked in Hst'.
    rewrite He, Helem.
    destruct (trackedVideos (ctl wa) !! v) as [stk|] eqn:Hstk; [|done].
    cbn in Hst'. injection Hst' as <-.
    destruct (Hrel v st stk Hstk Hst) as [Ho Hcase].
    destruct (isSpeedBoosted stk && acceptsRate _ _) eqn:Hundo.
    + done.
    + destruct Hcase as [Hsame|[_ Hrate]]; [congruence|done].
Qed.

(** C4, as the code has it. When the window loses focus, or the tab
    becomes hidden, while the hotkey is held: the hotkey state is fully
    reset and the indicator is no longer visible; every video that is
    still tracked and was marked boosted is unmarked and plays at its
    [originalRate], unless its setter throws on that rate, in which case
    the loop passes on and the video stays marked. *)
Theorem forced_deactivation_resets (now : N) (w : World) :
  isPressed (hotkeyState (ctl w)) = true →
  forcedResetDone w (handleWindowBlur now w)
  ∧ (documentHidden (doc w) = true →
     forcedResetDone w (handleVisibilityChange now w)).
Proof.
  intros Hpressed.
  destruct (deactivateSpeedBoost_spec now w Hpressed) as [Hidle Hundo].
  split.
  - unfold handleWindowBlur. rewrite Hpressed.
    pose proof (resetAllSpeeds_spec (deactivateSpeedBoost now w))
      as (_ & Hvis & _).
    apply (forcedResetDone_after_reset w (deactivateSpeedBoost now w));
      try done; by destruct (resetAllSpeeds (deactivateSpeedBoost now w)).
  - intros Hhidden. unfold handleVisibilityChange. rewrite Hhidden, Hpressed.
    pose proof (hideSpeedIndicator_spec
                  (snd (resetAllSpeeds (deactivateSpeedBoost now w))))
      as (Hvis & Ht & Hh & He).
    apply (forcedResetDone_after_reset w (deactivateSpeedBoost now w));
      try done;
      destruct (resetAllSpeeds (deactivateSpeedBoost now w)) as [n wr];
      cbn [snd] in *; by destruct (hideSpeedIndicator wr).
Qed.

(** The hotkey is held on the boosted video 1, the window loses focus:
    the video is unmarked and plays at rate 1 again. *)
Lemma forced_deactivation_resets_witness :
  hotkeyState (ctl (handleWindowBlur 2000 heldOnBoostedVideo))
  = idleHotkeyState
  ∧ playbackRate (element (doc (handleWindowBlur 2000 heldOnBoostedVideo))
                          1%nat)
    = JS.Num (JS.ofZ 1).
Proof.
  destruct (proj1 (forced_deactivation_resets 2000 heldOnBoostedVideo
                     eq_refl)) as (Hidle & _ & _ & Hrate).
  split; [exact Hidle|].
  refine (Hrate 1%nat
            {| originalRate := JS.Num (JS.ofZ 1); isSpeedBoosted := true;
               platform := Generic; lastInteraction := 1000 |}
            {| originalRate := JS.Num (JS.ofZ 1); isSpeedBoosted := false;
               platform := Generic; lastInteraction := 1000 |} _ _ _ _);
    vm_compute; reflexivity.
Defined.

(** C4 as stated fails: the hotkey is held on a boosted video whose
    setter throws, the window loses focus, and the video still is tracked
    as boosted, at rate 2. *)
Lemma forced_deactivation_leaves_stuck_video_boosted :
  isPressed (hotkeyState (ctl heldOnStuckVideo)) = true
  ∧ isSpeedBoosted
      <$> trackedVideos (ctl (handleWindowBlur 2000 heldOnStuckVideo))
          !! 1%nat
    = Some true
  ∧ playbackRate (element (doc (handleWindowBlur 2000 heldOnStuckVideo))
                          1%nat)
    = JS.Num (JS.ofZ 2).
Proof. repeat split; vm_compute; reflexivity. Qed.

(** A boosted video that the page has hidden by then is dropped from the
    tracking by the detection that the deactivation runs first, so that
    the loop of [resetAllSpeeds] does not meet it: it keeps rate 2. *)
Lemma forced_deactivation_misses_hidden_video :
  isPressed (hotkeyState (ctl heldOnHiddenVideo)) = true
  ∧ trackedVideos (ctl (handleWindowBlur 2000 heldOnHiddenVideo)) !! 1%nat
    = None
  ∧ playbackRate (element (doc (handleWindowBlur 2000 heldOnHiddenVideo))
                          1%nat)
    = JS.Num (JS.ofZ 2).
Proof. repeat split; vm_compute; reflexivity. Qed.

(** * Further properties of the controller *)

(** ** Detection keeps the tracking map and the listeners in step *)

Lemma uniqueFrom_NoDup (l seen : list VideoId) :
  NoDup (JS.uniqueFrom seen l) ∧ ∀ x, x ∈ JS.uniqueFrom seen l → x ∉ seen.
Proof.
  revert seen. induction l as [|x l IH]; intros seen; cbn [JS.uniqueFrom].
  - split; [constructor|]. intros x Hx. by apply elem_of_nil in Hx.
  - destruct (decide (x ∈ seen)) as [Hin|Hnin]; [apply IH|].
    destruct (IH (x :: seen)) as [Hnd Hfresh]. split.
    + constructor; [|done]. intros Hx. apply Hfresh in Hx.
      apply Hx, list_elem_of_here.
    + intros y Hy. apply elem_of_cons in Hy as [->|Hy]; [done|].
      apply Hfresh in Hy. intros Hys. apply Hy.
      by apply list_elem_of_further.
Qed.

(** X1. [detectVideos] returns the candidates, each of them once and each
    of them a valid video, and leaves the tracking map with exactly the
    candidates as keys: a candidate that was tracked keeps its state, a
    new one starts from its present rate, not boosted, touched now. *)
Theorem detectVideos_tracks_candidates (now : N) (w : World) :
  fst (detectVideos now w) = validVideos (doc w)
  ∧ NoDup (validVideos (doc w))
  ∧ (∀ v, v ∈ validVideos (doc w) → isValidVideo (element (doc w) v) = true)
  ∧ (∀ v, is_Some (trackedVideos (ctl (snd (detectVideos now w))) !! v)
          ↔ v ∈ validVideos (doc w))
  ∧ (∀ v st, trackedVideos (ctl w) !! v = Some st →
             v ∈ validVideos (doc w) →
             trackedVideos (ctl (snd (detectVideos now w))) !! v = Some st)
  ∧ (∀ v, trackedVideos (ctl w) !! v = None →
          v ∈ validVideos (doc w) →
          trackedVideos (ctl (snd (detectVideos now w))) !! v
          = Some (freshState now (doc w) v)).
Proof.
  split; [done|]. split.
  { unfold validVideos. apply NoDup_ListNoDup, List.NoDup_filter.
    apply NoDup_ListNoDup, uniqueFrom_NoDup. }
  split; [apply validVideos_valid|].
  change (ctl (snd (detectVideos now w))) with (afterDetection now w).
  split; [|split].
  - intros v. rewrite afterDetection_tracked. case_bool_decide.
    + split; [done|]. intros _. by eexists.
    + split; [by intros [? ?]|done].
  - intros v st Hst Hv. rewrite afterDetection_tracked, Hst.
    by rewrite bool_decide_eq_true_2.
  - intros v Hst Hv. rewrite afterDetection_tracked, Hst.
    by rewrite bool_decide_eq_true_2.
Qed.

(** The tracked video 1 is the only candidate: it keeps its state. *)
Lemma detectVideos_tracks_candidates_witness :
  trackedVideos (ctl (snd (detectVideos 2000 singleTrackedVideo))) !! 1%nat
  = Some {| originalRate := JS.Num (JS.ofZ 1); isSpeedBoosted := false;
            platform := Generic; lastInteraction := 1000 |}.
Proof.
  refine (proj1 (proj2 (proj2 (proj2 (proj2
            (detectVideos_tracks_candidates 2000 singleTrackedVideo)))))
            1%nat _ _ _).
  - vm_compute. reflexivity.
  - vm_compute. constructor.
Defined.

Lemma removeVideoEventListeners_listeners u c :
  videoEventListeners (removeVideoEventListeners u c)
  = videoEventListeners c ∖ {[u]}.
Proof.
  unfold removeVideoEventListeners. case_bool_decide; [done|].
  apply set_eq. intros x. rewrite elem_of_difference, elem_of_singleton.
  split; [|tauto]. intros Hx. split; [done|]. by intros ->.
Qed.

Lemma addVideoEventListeners_listeners u c :
  videoEventListeners (addVideoEventListeners u c)
  = {[u]} ∪ videoEventListeners c.
Proof.
  unfold addVideoEventListeners. case_bool_decide; [|done].
  apply set_eq. intros x. rewrite elem_of_union, elem_of_singleton.
  split; [tauto|]. by intros [->|].
Qed.

Lemma dropStep_listeners (videos : list VideoId) c entry :
  listenersFollowTracking c → listenersFollowTracking (dropStep videos c entry).
Proof.
  unfold listenersFollowTracking, dropStep. destruct entry as [video st].
  intros Hc. case_bool_decide; [done|].
  cbn [videoEventListeners trackedVideos withTracked].
  rewrite removeVideoEventListeners_listeners,
    removeVideoEventListeners_tracked, dom_delete_L. by rewrite Hc.
Qed.

Lemma trackStep_listeners now p c video :
  listenersFollowTracking c → listenersFollowTracking (trackStep now p c video).
Proof.
  unfold listenersFollowTracking, trackStep. intros Hc.
  destruct (trackedVideos c !! video); [done|].
  rewrite addVideoEventListeners_listeners, addVideoEventListeners_tracked.
  cbn [videoEventListeners trackedVideos withTracked].
  by rewrite dom_insert_L, Hc.
Qed.

Lemma foldl_preserves {A B} (P : A → Prop) (f : A → B → A) (l : list B) :
  (∀ a b, P a → P (f a b)) → ∀ a, P a → P (foldl f a l).
Proof.
  intros Hstep. induction l as [|b l IH]; intros a Ha; [done|].
  cbn [foldl]. by apply IH, Hstep.
Qed.

Lemma updateTrackedVideos_listeners now p (videos : list VideoId) c :
  listenersFollowTracking c →
  listenersFollowTracking (updateTrackedVideos now p videos c).
Proof.
  intros Hc. unfold updateTrackedVideos, trackNew, dropUndetected.
  apply foldl_preserves; [intros; by apply trackStep_listeners|].
  apply foldl_preserves; [intros; by apply dropStep_listeners|done].
Qed.

Lemma forgetVideo_listeners c video :
  listenersFollowTracking c → listenersFollowTracking (forgetVideo c video).
Proof.
  unfold listenersFollowTracking, forgetVideo. intros Hc.
  case_bool_decide;
    cbn [videoEventListeners trackedVideos withTracked withLastActive];
    rewrite removeVideoEventListeners_listeners,
      removeVideoEventListeners_tracked, dom_delete_L; by rewrite Hc.
Qed.

Lemma setTracked_listeners v st w :
  is_Some (trackedVideos (ctl w) !! v) →
  listenersFollowTracking (ctl w) →
  listenersFollowTracking (ctl (setTracked v st w)).
Proof.
  unfold listenersFollowTracking. intros Hv Hc.
  cbn [setTracked withCtl ctl videoEventListeners trackedVideos withTracked].
  rewrite dom_insert_L, Hc. apply elem_of_dom in Hv.
  apply set_eq. intros x. rewrite elem_of_union, elem_of_singleton.
  split; [tauto|]. by intros [->|].
Qed.

Lemma recordSelection_listeners now a c :
  listenersFollowTracking c → listenersFollowTracking (recordSelection now a c).
Proof.
  unfold listenersFollowTracking, recordSelection. intros Hc.
  destruct a as [v|]; [|done].
  cbn [trackedVideos withLastActive].
  destruct (trackedVideos c !! v) as [st|] eqn:Hst; [|done].
  cbn [videoEventListeners trackedVideos withTracked withLastActive].
  rewrite dom_insert_L, Hc.
  assert (v ∈ dom (trackedVideos c)) by (apply elem_of_dom; by eexists).
  apply set_eq. intros x. rewrite elem_of_union, elem_of_singleton.
  split; [tauto|]. by intros [->|].
Qed.

Lemma getActiveVideo_listeners now w :
  listenersFollowTracking (ctl w) →
  listenersFollowTracking (ctl (snd (getActiveVideo now w))).
Proof.
  intros Hc. rewrite getActiveVideo_eq. cbv zeta.
  assert (listenersFollowTracking (afterDetection now w)) as H1
    by by apply updateTrackedVideos_listeners.
  destruct (validVideos (doc w)) as [|v [|v' l]]; cbn [snd ctl]; [done..|].
  by apply recordSelection_listeners.
Qed.

Lemma applySpeedBoost_listeners m now w :
  listenersFollowTracking (ctl w) →
  listenersFollowTracking (ctl (snd (applySpeedBoost m now w))).
Proof.
  intros Hc. pose proof (getActiveVideo_listeners now w Hc) as H1.
  pose proof (applySpeedBoost_cases m now w) as Hcases.
  destruct (fst (getActiveVideo now w)) as [v|]; [|by rewrite Hcases].
  destruct Hcases as (st & Hst & ->). unfold boostOutcome.
  destruct (isSpeedBoosted st); [done|].
  destruct (rejectedMultiplier _); [done|].
  destruct (setPlaybackRate _ _ _); cbn [snd].
  - apply setTracked_listeners.
    + cbn [withDoc ctl]. rewrite setTracked_lookup, decide_True by done.
      by eexists.
    + cbn [withDoc ctl]. apply setTracked_listeners; [by eexists|done].
  - apply setTracked_listeners; [by eexists|done].
Qed.

Lemma restoreOriginalSpeed_listeners now w :
  listenersFollowTracking (ctl w) →
  listenersFollowTracking (ctl (snd (restoreOriginalSpeed now w))).
Proof.
  intros Hc. pose proof (getActiveVideo_listeners now w Hc) as H1.
  pose proof (restoreOriginalSpeed_cases now w) as Hcases.
  destruct (fst (getActiveVideo now w)) as [v|]; [|by rewrite Hcases].
  destruct Hcases as (st & Hst & ->). unfold restoreOutcome.
  destruct (negb (isSpeedBoosted st)); [done|].
  destruct (setPlaybackRate _ _ _); cbn [snd]; [|done].
  apply setTracked_listeners; [by eexists|done].
Qed.

Lemma cleanupRemovedVideos_listeners node w :
  listenersFollowTracking (ctl w) →
  listenersFollowTracking (ctl (cleanupRemovedVideos node w)).
Proof.
  intros Hc. unfold cleanupRemovedVideos. cbn [ctl withCtl].
  apply foldl_preserves; [intros; by apply forgetVideo_listeners|done].
Qed.

Lemma pruneStep_listeners p acc entry :
  videoEventListeners (pruneStep p acc entry).1 = videoEventListeners acc.1.
Proof.
  destruct acc as [c n], entry as [video st]. unfold pruneStep.
  destruct (negb _); [|done].
  cbn [fst trackedVideos lastActiveVideo withTracked].
  by case_bool_decide.
Qed.

Lemma cleanupStaleElements_listeners w :
  videoEventListeners (ctl (snd (cleanupStaleElements w)))
  = videoEventListeners (ctl w).
Proof.
  rewrite cleanupStaleElements_ctl.
  generalize (map_to_list (trackedVideos (ctl w))). intros l.
  change (ctl w) with ((ctl w, 0%nat).1) at 2.
  generalize (ctl w, 0%nat). induction l as [|e l IH]; intros acc; [done|].
  cbn [foldl]. by rewrite IH, pruneStep_listeners.
Qed.

(** X2. Once the lifecycle listeners sit on exactly the tracked videos,
    they still do after detection, selection, boost, restore and the
    clean-up of a removed node. [cleanupStaleElements] is the exception:
    it leaves the listeners where they were, also on the videos it stops
    tracking. *)
Theorem listeners_follow_tracking (now : N) (w : World) :
  listenersFollowTracking (ctl w) →
  listenersFollowTracking (ctl (snd (detectVideos now w)))
  ∧ listenersFollowTracking (ctl (snd (getActiveVideo now w)))
  ∧ (∀ m, listenersFollowTracking (ctl (snd (applySpeedBoost m now w))))
  ∧ listenersFollowTracking (ctl (snd (restoreOriginalSpeed now w)))
  ∧ (∀ node, listenersFollowTracking (ctl (cleanupRemovedVideos node w)))
  ∧ videoEventListeners (ctl (snd (cleanupStaleElements w)))
    = dom (trackedVideos (ctl w)).
Proof.
  intros Hc. split; [by apply updateTrackedVideos_listeners|].
  split; [by apply getActiveVideo_listeners|].
  split; [intros m; by apply applySpeedBoost_listeners|].
  split; [by apply restoreOriginalSpeed_listeners|].
  split; [intros node; by apply cleanupRemovedVideos_listeners|].
  by rewrite cleanupStaleElements_listeners.
Qed.

(** The remembered video has left the page: detection drops it together
    with its listeners. *)
Lemma listeners_follow_tracking_witness :
  listenersFollowTracking (ctl rememberedButGone)
  ∧ listenersFollowTracking (ctl (snd (detectVideos 2000 rememberedButGone))).
Proof.
  assert (H : listenersFollowTracking (ctl rememberedButGone))
    by (vm_compute; reflexivity).
  split; [exact H|].
  exact (proj1 (listeners_follow_tracking 2000 rememberedButGone H)).
Defined.

(** ** The count of [resetAllSpeeds], and what stays boosted *)

Lemma resetLoop_count (l : list (VideoId * VideoState)) :
  ∀ w n,
    (foldl resetStep (w, n) l).2
    = (n + length (filter (λ entry, resettable w entry = true) l))%nat.
Proof.
  induction l as [|[x stx] l IH]; intros w n; [cbn; lia|].
  cbn [foldl].
  destruct (resetStep (w, n) (x, stx)) as [w1 n1] eqn:Hstep.
  pose proof (resetStep_spec w n x stx) as Hone.
  rewrite Hstep in Hone. cbv zeta in Hone. cbn [fst] in Hone.
  destruct Hone as (_ & _ & Hacc & _ & _ & _).
  rewrite IH.
  assert (Hext : filter (λ entry, resettable w1 entry = true) l
                 = filter (λ entry, resettable w entry = true) l).
  { apply list_filter_iff. intros [u st]. unfold resettable. cbn [fst snd].
    by rewrite Hacc. }
  rewrite Hext, filter_cons.
  assert (Hn1 : n1 = if resettable w (x, stx) then S n else n).
  { unfold resetStep, setPlaybackRate in Hstep. unfold resettable.
    cbn [fst snd].
    destruct (isSpeedBoosted stx); [|by injection Hstep as _ <-].
    by destruct (acceptsRate _ _); injection Hstep as _ <-. }
  rewrite Hn1. destruct (resettable w (x, stx)) eqn:Hr.
  - rewrite decide_True by done. cbn [length]. lia.
  - rewrite decide_False by done. lia.
Qed.

Lemma isSpeedBoostActive_iff w :
  isSpeedBoostActive w = true
  ↔ ∃ v st, trackedVideos (ctl w) !! v = Some st ∧ isSpeedBoosted st = true.
Proof.
  unfold isSpeedBoostActive. rewrite existsb_exists. split.
  - intros ([v st] & Hin & Hb). exists v, st. split; [|done].
    apply elem_of_map_to_list. by apply list_elem_of_In.
  - intros (v & st & Hst & Hb). exists (v, st). split; [|done].
    apply list_elem_of_In. by apply elem_of_map_to_list.
Qed.

(** X3. [resetAllSpeeds] returns the number of tracked videos that were
    marked as boosted and took their original rate back. Afterwards
    [isSpeedBoostActive] holds exactly when some boosted video has a
    setter that threw; and when nothing is boosted to begin with, the call
    returns 0 and does no more than hide the indicator. *)
Theorem resetAllSpeeds_count (w : World) :
  fst (resetAllSpeeds w)
  = size (filter (λ entry, resettable w entry = true) (trackedVideos (ctl w)))
  ∧ (isSpeedBoostActive (snd (resetAllSpeeds w)) = true
     ↔ ∃ v st, trackedVideos (ctl w) !! v = Some st
               ∧ isSpeedBoosted st = true
               ∧ acceptsRate (element (doc w) v) (originalRate st) = false)
  ∧ (isSpeedBoostActive w = false →
     resetAllSpeeds w = (0%nat, snd (hideSpeedIndicator w))).
Proof.
  split; [|split].
  - unfold resetAllSpeeds.
    pose proof (resetLoop_count (map_to_list (trackedVideos (ctl w))) w 0)
      as Hcount.
    destruct (foldl resetStep (w, 0%nat) (map_to_list (trackedVideos (ctl w))))
      as [w1 n1]. cbn [snd] in Hcount.
    destruct (hideSpeedIndicator w1) as [b w2]. cbn [fst].
    rewrite Hcount, map_filter_alt, map_size_list_to_map; [done|].
    eapply sublist_NoDup;
      [apply (NoDup_fst_map_to_list (trackedVideos (ctl w)))
      |apply fmap_sublist, sublist_filter].
  - rewrite isSpeedBoostActive_iff.
    pose proof (resetAllSpeeds_spec w) as (_ & _ & Htracked & _).
    split.
    + intros (v & st' & Hst' & Hb). rewrite Htracked in Hst'.
      destruct (trackedVideos (ctl w) !! v) as [st|] eqn:Hst; [|done].
      cbn in Hst'. injection Hst' as <-. exists v, st. split; [done|].
      destruct (isSpeedBoosted st) eqn:Hbs; cbn [andb] in Hb.
      * by destruct (acceptsRate _ _).
      * congruence.
    + intros (v & st & Hst & Hb & Ha). exists v, st.
      rewrite Htracked, Hst. cbn. by rewrite Hb, Ha.
  - intros Hnone. unfold resetAllSpeeds.
    assert (Hl : ∀ entry, entry ∈ map_to_list (trackedVideos (ctl w)) →
                          isSpeedBoosted entry.2 = false).
    { intros [v st] Hin. apply elem_of_map_to_list in Hin.
      destruct (isSpeedBoosted st) eqn:Hb; [|done].
      assert (isSpeedBoostActive w = true) as Hact
        by (apply isSpeedBoostActive_iff; by exists v, st).
      congruence. }
    assert (Hfold : ∀ l, (∀ entry, entry ∈ l → isSpeedBoosted entry.2 = false) →
                         ∀ n, foldl resetStep (w, n) l = (w, n)).
    { induction l as [|[v st] l IH]; intros Hall n; [done|].
      cbn [foldl].
      assert (resetStep (w, n) (v, st) = (w, n)) as ->.
      { pose proof (Hall (v, st) (list_elem_of_here _ _)) as Hb.
        cbn [snd] in Hb. unfold resetStep. by rewrite Hb. }
      apply IH. intros entry Hin. by apply Hall, list_elem_of_further. }
    rewrite Hfold by done. by destruct (hideSpeedIndicator w).
Qed.

(** Nothing is boosted on the page with the tracked video 1: the count
    is 0. *)
Lemma resetAllSpeeds_count_witness :
  isSpeedBoostActive singleTrackedVideo = false
  ∧ fst (resetAllSpeeds singleTrackedVideo) = 0%nat.
Proof.
  assert (H : isSpeedBoostActive singleTrackedVideo = false)
    by (vm_compute; reflexivity).
  split; [exact H|].
  exact (f_equal fst
           (proj2 (proj2 (resetAllSpeeds_count singleTrackedVideo)) H)).
Defined.

(** ** The error log *)


(** ** Coming back to the page *)

Lemma cleanupStaleElements_lookup w v :
  trackedVideos (ctl (snd (cleanupStaleElements w))) !! v
  = if inDocument (element (doc w) v) then trackedVideos (ctl w) !! v
    else None.
Proof.
  rewrite cleanupStaleElements_ctl.
  pose proof (pruneLoop_spec (doc w) (map_to_list (trackedVideos (ctl w)))
                (ctl w) 0%nat) as (Hgone & Hkept & _).
  destruct (inDocument (element (doc w) v)) eqn:Hin.
  - apply Hkept. by right.
  - destruct (trackedVideos (ctl w) !! v) as [st|] eqn:Hst.
    + apply Hgone; [|done]. apply elem_of_map_to_list_fst. by eexists.
    + rewrite Hkept; [done|]. left. intros Hv.
      apply elem_of_map_to_list_fst in Hv as [? ?]. congruence.
Qed.

Lemma pruneStep_fields p acc entry :
  hotkeyState (pruneStep p acc entry).1 = hotkeyState acc.1
  ∧ settings (pruneStep p acc entry).1 = settings acc.1.
Proof.
  destruct acc as [c n], entry as [video st]. unfold pruneStep.
  destruct (negb _); [|done].
  cbn [fst trackedVideos lastActiveVideo withTracked].
  by case_bool_decide.
Qed.

Lemma cleanupStaleElements_fields w :
  hotkeyState (ctl (snd (cleanupStaleElements w))) = hotkeyState (ctl w)
  ∧ settings (ctl (snd (cleanupStaleElements w))) = settings (ctl w)
  ∧ element (doc (snd (cleanupStaleElements w))) = element (doc w)
  ∧ (length (indicatorNodes (doc (snd (cleanupStaleElements w)))) <= 1)%nat
  ∧ (styleNodes (doc (snd (cleanupStaleElements w))) <= 1)%nat.
Proof.
  split; [|split].
  - rewrite cleanupStaleElements_ctl.
    generalize (map_to_list (trackedVideos (ctl w))). intros l.
    change (ctl w) with ((ctl w, 0%nat).1) at 2.
    generalize (ctl w, 0%nat). induction l as [|e l IH]; intros acc; [done|].
    cbn [foldl]. rewrite IH. apply pruneStep_fields.
  - rewrite cleanupStaleElements_ctl.
    generalize (map_to_list (trackedVideos (ctl w))). intros l.
    change (ctl w) with ((ctl w, 0%nat).1) at 2.
    generalize (ctl w, 0%nat). induction l as [|e l IH]; intros acc; [done|].
    cbn [foldl]. rewrite IH. apply pruneStep_fields.
  - unfold cleanupStaleElements.
    destruct (foldl _ _ _) as [c n].
    destruct (Nat.ltb_spec 1 (length (indicatorNodes (doc w)))) as [Hi|Hi].
    + cbn [styleNodes withIndicatorNodes].
      destruct (Nat.ltb_spec 1 (styleNodes (doc w))) as [Hs|Hs];
        cbn [snd doc element indicatorNodes styleNodes withStyleNodes
             withIndicatorNodes];
        rewrite length_drop; (split; [done|]); split; lia.
    + destruct (Nat.ltb_spec 1 (styleNodes (doc w))) as [Hs|Hs];
        cbn [snd doc element indicatorNodes styleNodes withStyleNodes
             withIndicatorNodes];
        (split; [done|]); split; lia.
Qed.

(** X5. When the tab becomes visible again, [handleVisibilityChange]
    leaves the hotkey idle and tracks exactly the candidates that are
    attached to the document, a tracked one with the state it had, boosted
    mark included. No element of the page is written to, and at most one
    indicator node is left. *)
Theorem handleVisibilityChange_visible (now : N) (w : World) :
  documentHidden (doc w) = false →
  hotkeyState (ctl (handleVisibilityChange now w)) = idleHotkeyState
  ∧ (∀ v, trackedVideos (ctl (handleVisibilityChange now w)) !! v
          = if bool_decide (v ∈ validVideos (doc w))
               && inDocument (element (doc w) v)
            then Some (default (freshState now (doc w) v)
                               (trackedVideos (ctl w) !! v))
            else None)
  ∧ element (doc (handleVisibilityChange now w)) = element (doc w)
  ∧ (length (indicatorNodes (doc (handleVisibilityChange now w))) <= 1)%nat.
Proof.
  intros Hvisible. unfold handleVisibilityChange. rewrite Hvisible.
  set (w1 := resetHotkeyState w).
  destruct (detectVideos now w1) as [videos w2] eqn:Hdetect.
  assert (Hw2 : w2 = snd (detectVideos now w1)) by by rewrite Hdetect.
  pose proof (cleanupStaleElements_fields w2) as (Hhk & _ & Hel & Hind & _).
  pose proof (cleanupStaleElements_lookup w2) as Hlookup.
  destruct (cleanupStaleElements w2) as [n w3]. cbn [snd] in *.
  assert (Hdoc2 : doc w2 = doc w) by by rewrite Hw2.
  split; [|split; [|split]].
  - rewrite Hhk, Hw2.
    change (ctl (snd (detectVideos now w1))) with (afterDetection now w1).
    by destruct (afterDetection_core now w1) as (_ & _ & -> & _).
  - intros v. rewrite Hlookup, Hdoc2, Hw2.
    change (ctl (snd (detectVideos now w1))) with (afterDetection now w1).
    rewrite afterDetection_tracked. cbn [doc w1 resetHotkeyState withCtl ctl
      trackedVideos withHotkeyState].
    destruct (inDocument (element (doc w) v)); [|by rewrite andb_false_r].
    by rewrite andb_true_r.
  - by rewrite Hel, Hdoc2.
  - done.
Qed.

(** The tab comes back while video 1 is still marked as boosted at rate
    2: the hotkey is idle, the rate stays 2. *)
Lemma handleVisibilityChange_visible_witness :
  hotkeyState (ctl (handleVisibilityChange 2000 heldOnBoostedVideo))
  = idleHotkeyState
  ∧ playbackRate
      (element (doc (handleVisibilityChange 2000 heldOnBoostedVideo)) 1%nat)
    = JS.Num (JS.ofZ 2).
Proof.
  pose proof (handleVisibilityChange_visible 2000 heldOnBoostedVideo eq_refl)
    as (Hh & _ & He & _).
  split; [exact Hh|]. rewrite He. reflexivity.
Defined.

(** X6. When the window regains focus, [handleWindowFocus] leaves the
    hotkey idle, tracks exactly the candidates (a tracked one with the
    state it had), writes to no element of the page and leaves no visible
    indicator. *)
Theorem handleWindowFocus_resets_hotkey_only (now : N) (w : World) :
  hotkeyState (ctl (handleWindowFocus now w)) = idleHotkeyState
  ∧ (∀ v, trackedVideos (ctl (handleWindowFocus now w)) !! v
          = if bool_decide (v ∈ validVideos (doc w))
            then Some (default (freshState now (doc w) v)
                               (trackedVideos (ctl w) !! v))
            else None)
  ∧ element (doc (handleWindowFocus now w)) = element (doc w)
  ∧ isSpeedIndicatorVisible (handleWindowFocus now w) = false.
Proof.
  unfold handleWindowFocus. set (w1 := resetHotkeyState w).
  destruct (detectVideos now w1) as [videos w2] eqn:Hdetect.
  assert (Hw2 : w2 = snd (detectVideos now w1)) by by rewrite Hdetect.
  pose proof (hideSpeedIndicator_spec w2) as (Hvis & Ht & Hh & He).
  split; [|split; [|split]].
  - rewrite Hh, Hw2.
    change (ctl (snd (detectVideos now w1))) with (afterDetection now w1).
    by destruct (afterDetection_core now w1) as (_ & _ & -> & _).
  - intros v. rewrite Ht, Hw2.
    change (ctl (snd (detectVideos now w1))) with (afterDetection now w1).
    by rewrite afterDetection_tracked.
  - by rewrite He, Hw2.
  - done.
Qed.

(** ** Key names and the two matchers *)

Lemma ownProperty_elem_of table name v :
  ownProperty table name = Some v → v ∈ table.*2.
Proof.
  induction table as [|[k x] table IH]; cbn [ownProperty]; [done|].
  destruct (String.eqb k name).
  - intros [= ->]. apply list_elem_of_here.
  - intros H. apply list_elem_of_further. by apply IH.
Qed.

(** X7. [normalizeKey] is idempotent on key names: a name it returns is
    returned unchanged when normalized again, so that the key stored at
    activation compares equal to the normalized key of the release. *)
Theorem normalizeKey_idempotent (k n : string) :
  normalizeKey k = KeyName n → normalizeKey n = KeyName n.
Proof.
  unfold normalizeKey at 1.
  destruct (JS.nonEmpty k) eqn:Hk; cbn [negb]; [|by intros [= <-]].
  destruct (ownProperty keyMap k) as [a|] eqn:Ha.
  - intros [= <-]. apply ownProperty_elem_of in Ha.
    cbn in Ha. repeat (apply elem_of_cons in Ha as [->|Ha]; [reflexivity|]).
    by apply elem_of_nil in Ha.
  - case_bool_decide as Hp; [done|]. intros [= <-].
    unfold normalizeKey. by rewrite Hk, Ha, bool_decide_eq_false_2.
Qed.

(** The space character is normalized to "Space", which stays "Space". *)
Lemma normalizeKey_idempotent_witness :
  normalizeKey "Space" = KeyName "Space".
Proof. exact (normalizeKey_idempotent " " "Space" eq_refl). Defined.

(** X8. [isTestHotkey], the matcher of the hotkey test, accepts an event
    exactly when the normalized keys are equal and each of the four
    modifiers is held if and only if it is configured; it agrees with
    [isConfiguredHotkey] as the keydown handler calls it, for the same
    binding. *)
Theorem isTestHotkey_agrees (event : KeyboardEvent) (config : HotkeySettings) :
  (isTestHotkey event config = true
   ↔ normalizeKey (key event) = normalizeKey (hkKey config)
     ∧ ∀ m, m ∈ modifierNames →
            (m ∈ default [] (hkModifiers config)
             ↔ eventModifier event m = true))
  ∧ (∀ w s, settings (ctl w) = Some s → hotkey s = Some config →
            isConfiguredHotkey event (updateModifierState event w)
            = isTestHotkey event config).
Proof.
  assert (Hagree : ∀ w s, settings (ctl w) = Some s → hotkey s = Some config →
            isConfiguredHotkey event (updateModifierState event w)
            = isTestHotkey event config).
  { intros w s Hs Hc. unfold isTestHotkey, isConfiguredHotkey.
    cbn [updateModifierState ctl withCtl settings withHotkeyState].
    by rewrite Hs, Hc. }
  split; [|done].
  set (s := {| hotkey := Some config; speedMultiplier := JS.Undefined |}).
  set (w := {| ctl := withSettings (Some s) newController;
               doc := samplePage [] |}).
  rewrite <- (Hagree w s eq_refl eq_refl).
  by apply (isConfiguredHotkey_iff event w s config).
Qed.

(** Space with ctrl held against the binding of the bare space bar: both
    matchers give the same answer. *)
Lemma isTestHotkey_agrees_witness :
  isConfiguredHotkey ctrlSpacePress
    (updateModifierState ctrlSpacePress spaceBinding)
  = isTestHotkey ctrlSpacePress
      {| hkKey := "Space"; hkModifiers := Some []; hkEnabled := true |}.
Proof.
  exact (proj2 (isTestHotkey_agrees ctrlSpacePress
                  {| hkKey := "Space"; hkModifiers := Some [];
                     hkEnabled := true |})
           spaceBinding _ eq_refl eq_refl).
Defined.

(** The part of [validateHotkey] that follows the check against the
    browser shortcuts: it ends in a success, and a conflict it has recorded
    comes with a warning. *)
Lemma validateHotkey_tail_shape (found : list string)
    (problems : list string) (suitable : bool * string) (dup : bool) :
  let result :=
    if dup then warn {| success := false; warnings := []; errors := [];
                        conflicts := [] |}
                     "Duplicate modifiers detected and removed"
    else {| success := false; warnings := []; errors := []; conflicts := [] |}
  in
  let result :=
    if negb (isEmptyList found)
    then warn {| success := success result; warnings := warnings result;
                 errors := errors result; conflicts := found |}
              ("Potential conflicts with browser shortcuts: "
               +:+ JS.join ", " found)
    else result in
  let result :=
    if negb (isEmptyList problems)
    then warn result ("Potentially problematic combinations: "
                      +:+ JS.join ", " problems)
    else result in
  let result :=
    if negb (fst suitable) then warn result (snd suitable) else result in
  let final :=
    if isEmptyList (errors result)
    then {| success := true; warnings := warnings result;
            errors := errors result; conflicts := conflicts result |}
    else result in
  success final = true
  ∧ (conflicts final ≠ [] → warnings final ≠ []).
Proof.
  assert (Hsnoc : ∀ (l : list string) x, l ++ [x] ≠ []).
  { intros l x H. by apply app_eq_nil in H as [_ ?]. }
  destruct dup, found as [|f found], problems as [|p problems],
    suitable as [[|] message];
    cbn [negb isEmptyList fst snd warn success warnings errors conflicts];
    (split; [done|]); try done; intros _; try apply Hsnoc; done.
Qed.

(** X9. A validation that fails reports exactly one error and no
    conflict, and its only possible warning is the one about duplicate
    modifiers; a validation that reports a conflict is a success and
    carries a warning. *)
Theorem validateHotkey_failure_shape (cfg : option HotkeyConfig) :
  (success (validateHotkey cfg) = false →
   length (errors (validateHotkey cfg)) = 1%nat
   ∧ conflicts (validateHotkey cfg) = []
   ∧ (warnings (validateHotkey cfg) = []
      ∨ warnings (validateHotkey cfg)
        = ["Duplicate modifiers detected and removed"]))
  ∧ (conflicts (validateHotkey cfg) ≠ [] →
     success (validateHotkey cfg) = true
     ∧ warnings (validateHotkey cfg) ≠ []).
Proof.
  unfold validateHotkey. destruct cfg as [[k arg]|]; [|by split; [auto|]].
  cbn [cfgKey cfgModifiers].
  destruct k as [| | | |[|c rest]|]; try by (split; [auto|]).
  assert (Hdone : ∀ r : ValidationResult,
    success r = true → (conflicts r ≠ [] → warnings r ≠ []) →
    (success r = false →
     length (errors r) = 1%nat ∧ conflicts r = []
     ∧ (warnings r = []
        ∨ warnings r = ["Duplicate modifiers detected and removed"]))
    ∧ (conflicts r ≠ [] → success r = true ∧ warnings r ≠ [])).
  { intros r H1 H2. split; [congruence|]. intros Hc. split; [done|auto]. }
  destruct arg as [| |l].
  - cbn [List.filter isEmptyList negb].
    destruct (normalizeKey (String c rest)) as [n|inherited] eqn:Hn.
    + destruct (checkBrowserShortcutConflicts_keyName n (JS.unique []))
        as [found ->].
      apply Hdone; apply validateHotkey_tail_shape.
    + destruct (checkBrowserShortcutConflicts (Inherited inherited)
                  (JS.unique [])); by (split; [auto|]).
  - by split; [auto|].
  - destruct (isEmptyList
                (List.filter (λ m, negb (includesString modifierNames m)) l));
      cbn [negb]; [|by split; [auto|]].
    destruct (normalizeKey (String c rest)) as [n|inherited] eqn:Hn.
    + destruct (checkBrowserShortcutConflicts_keyName n (JS.unique l))
        as [found ->].
      apply Hdone; apply validateHotkey_tail_shape.
    + destruct (checkBrowserShortcutConflicts (Inherited inherited)
                  (JS.unique l));
        destruct (negb (length (JS.unique l) =? length l)%nat);
        cbn; (split; [auto|]); done.
Qed.

(** A key that is not a string: one error, no conflict. *)
Lemma validateHotkey_failure_shape_witness :
  length (errors (validateHotkey
                    (Some {| cfgKey := JS.Num (JS.ofZ 32);
                             cfgModifiers := ModifiersArray ["ctrl"] |})))
  = 1%nat.
Proof.
  exact (proj1 (proj1 (validateHotkey_failure_shape
                         (Some {| cfgKey := JS.Num (JS.ofZ 32);
                                  cfgModifiers := ModifiersArray ["ctrl"] |}))
                  eq_refl)).
Defined.

(** ** Selection, boost and restore read the videos only *)

Lemma sameVideos_refl w : sameVideos w w.
Proof. by repeat split. Qed.

Lemma sameVideos_trans w1 w2 w3 :
  sameVideos w1 w2 → sameVideos w2 w3 → sameVideos w1 w3.
Proof.
  intros (? & ? & ? & ? & ?) (? & ? & ? & ? & ?).
  repeat split; congruence.
Qed.

Lemma sameVideos_validVideos w w' :
  sameVideos w w' → validVideos (doc w') = validVideos (doc w).
Proof.
  intros (_ & _ & He & Hq & Hh).
  destruct w as [c p], w' as [c' p'], p, p'. cbn in He, Hq, Hh. by subst.
Qed.

Lemma sameVideos_afterDetection now w w' :
  sameVideos w w' →
  trackedVideos (afterDetection now w') = trackedVideos (afterDetection now w)
  ∧ lastActiveVideo (afterDetection now w')
    = lastActiveVideo (afterDetection now w).
Proof.
  intros Hs. pose proof (sameVideos_validVideos _ _ Hs) as Hv.
  destruct Hs as (Ht & Ha & He & Hq & Hh). split.
  - apply map_eq. intros v. rewrite !afterDetection_tracked, Hv, Ht.
    destruct w as [c p], w' as [c' p'], p, p'. cbn in He, Hq, Hh. by subst.
  - destruct (afterDetection_core now w) as (_ & -> & _).
    by destruct (afterDetection_core now w') as (_ & -> & _).
Qed.

Lemma chooseActive_ext c c' p p' (videos : list VideoId) :
  trackedVideos c' = trackedVideos c →
  lastActiveVideo c' = lastActiveVideo c →
  element p' = element p →
  chooseActive c' p' videos = chooseActive c p videos.
Proof.
  intros Ht Ha He. unfold chooseActive, stillCandidate, getLargestVideo.
  rewrite Ht, Ha.
  assert (Harea : foldl (largestStep p') (None, 0%Q) videos
                  = foldl (largestStep p) (None, 0%Q) videos).
  { generalize (@None VideoId, 0%Q).
    induction videos as [|v l IH]; intros acc; [done|]. cbn [foldl].
    rewrite IH. replace (largestStep p' acc v) with (largestStep p acc v);
      [done|]. unfold largestStep, area. by rewrite He. }
  assert (Hplay : List.filter (isPlaying p') videos
                  = List.filter (isPlaying p) videos).
  { apply List.filter_ext. intros v. unfold isPlaying. by rewrite He. }
  by rewrite Hplay, Harea.
Qed.

Lemma getActiveVideo_sameVideos now w w' :
  sameVideos w w' →
  fst (getActiveVideo now w') = fst (getActiveVideo now w).
Proof.
  intros Hs. rewrite !getActiveVideo_eq. cbv zeta.
  rewrite (sameVideos_validVideos _ _ Hs).
  destruct (validVideos (doc w)) as [|v [|v' l]]; [done..|]. cbn [fst].
  destruct (sameVideos_afterDetection now _ _ Hs) as [Ht Ha].
  apply chooseActive_ext; [done..|]. apply Hs.
Qed.

Lemma applySpeedBoost_fields m now w :
  settings (ctl (snd (applySpeedBoost m now w))) = settings (ctl w)
  ∧ hotkeyState (ctl (snd (applySpeedBoost m now w))) = hotkeyState (ctl w)
  ∧ indicatorNodes (doc (snd (applySpeedBoost m now w)))
    = indicatorNodes (doc w).
Proof.
  pose proof (getActiveVideo_fields now w) as (Hs & Hh & _).
  pose proof (getActiveVideo_doc now w) as Hd.
  pose proof (applySpeedBoost_cases m now w) as Hcases.
  destruct (fst (getActiveVideo now w)) as [v|];
    [|rewrite Hcases; cbn [snd]; by rewrite Hs, Hh, Hd].
  destruct Hcases as (st & Hst & ->). unfold boostOutcome.
  destruct (isSpeedBoosted st); [cbn [snd]; by rewrite Hs, Hh, Hd|].
  destruct (rejectedMultiplier _); [cbn [snd]; by rewrite Hs, Hh, Hd|].
  unfold setPlaybackRate. cbn [doc setTracked withCtl].
  destruct (acceptsRate _ _); cbn [snd]; by rewrite <- Hs, <- Hh, <- Hd.
Qed.

Lemma validMultiplier_accepted m :
  validMultiplier m → rejectedMultiplier (defaultMultiplier m) = false.
Proof.
  destruct m as [| | |[| | |q]| |]; try done. intros [Hpos Hle].
  cbn [defaultMultiplier rejectedMultiplier JS.leb JS.ltb JS.ofZ].
  apply orb_false_intro.
  - destruct (Qle_bool q (inject_Z 0)) eqn:H; [|done].
    apply Qle_bool_iff in H. exfalso. by apply (Qlt_not_le _ _ Hpos).
  - unfold JS.Qltb. apply negb_false_iff. by apply Qle_bool_iff.
Qed.

Lemma applySpeedBoost_succeeds m now w v :
  validMultiplier m →
  fst (getActiveVideo now w) = Some v →
  (∀ st, trackedVideos (ctl w) !! v = Some st → isSpeedBoosted st = false) →
  acceptsRate (element (doc w) v) m = true →
  fst (applySpeedBoost m now w) = true.
Proof.
  intros Hm Hsel Hnot Hacc.
  pose proof (applySpeedBoost_cases m now w) as Hcases.
  rewrite Hsel in Hcases. destruct Hcases as (st1 & Hst1 & ->).
  unfold boostOutcome.
  rewrite (selected_not_boosted now w v st1 Hnot Hst1).
  rewrite (validMultiplier_accepted m Hm).
  unfold setPlaybackRate. cbn [doc setTracked withCtl].
  by rewrite (getActiveVideo_doc now w), (validMultiplier_default m Hm), Hacc.
Qed.

Lemma applySpeedBoost_other_elements m now w v u :
  fst (getActiveVideo now w) = Some v →
  u ≠ v →
  element (doc (snd (applySpeedBoost m now w))) u = element (doc w) u.
Proof.
  intros Hsel Hne.
  pose proof (getActiveVideo_doc now w) as Hd.
  pose proof (applySpeedBoost_cases m now w) as Hcases.
  rewrite Hsel in Hcases. destruct Hcases as (st1 & Hst1 & ->).
  unfold boostOutcome.
  destruct (isSpeedBoosted st1); [cbn [snd]; by rewrite Hd|].
  destruct (rejectedMultiplier _); [cbn [snd]; by rewrite Hd|].
  unfold setPlaybackRate. cbn [doc setTracked withCtl].
  destruct (acceptsRate _ _); cbn [snd doc setTracked withCtl withDoc];
    [|by rewrite Hd].
  rewrite element_withElement, decide_False by done. by rewrite Hd.
Qed.

Lemma applySpeedBoost_false_doc m now w :
  fst (applySpeedBoost m now w) = false →
  doc (snd (applySpeedBoost m now w)) = doc w.
Proof.
  pose proof (getActiveVideo_doc now w) as Hd.
  pose proof (applySpeedBoost_cases m now w) as Hcases.
  destruct (fst (getActiveVideo now w)) as [v|]; [|by rewrite Hcases].
  destruct Hcases as (st1 & Hst1 & ->). unfold boostOutcome.
  destruct (isSpeedBoosted st1); [done|].
  destruct (rejectedMultiplier _); [done|].
  unfold setPlaybackRate. cbn [doc setTracked withCtl].
  by destruct (acceptsRate _ _).
Qed.

Lemma applySpeedBoost_true_boosted m now w v :
  fst (getActiveVideo now w) = Some v →
  fst (applySpeedBoost m now w) = true →
  ∃ st, trackedVideos (ctl (snd (applySpeedBoost m now w))) !! v = Some st
        ∧ isSpeedBoosted st = true.
Proof.
  intros Hsel.
  pose proof (applySpeedBoost_cases m now w) as Hcases.
  rewrite Hsel in Hcases. destruct Hcases as (st1 & Hst1 & ->).
  unfold boostOutcome.
  destruct (isSpeedBoosted st1) eqn:Hb; [intros _; by exists st1|].
  destruct (rejectedMultiplier _); [done|].
  destruct (setPlaybackRate _ _ _); cbn [fst snd]; [intros _|done].
  rewrite setTracked_lookup, decide_True by done. by eexists.
Qed.

(** ** The indicator *)

Lemma setupAutoHideTimer_fields ui now w :
  sameVideos w (setupAutoHideTimer ui now w)
  ∧ settings (ctl (setupAutoHideTimer ui now w)) = settings (ctl w)
  ∧ hotkeyState (ctl (setupAutoHideTimer ui now w)) = hotkeyState (ctl w)
  ∧ doc (setupAutoHideTimer ui now w) = doc w.
Proof.
  unfold setupAutoHideTimer.
  destruct (JS.leb _ _); by repeat split.
Qed.

Lemma showSpeedIndicator_fields ui speed now w :
  sameVideos w (snd (showSpeedIndicator ui speed now w))
  ∧ settings (ctl (snd (showSpeedIndicator ui speed now w))) = settings (ctl w)
  ∧ hotkeyState (ctl (snd (showSpeedIndicator ui speed now w)))
    = hotkeyState (ctl w).
Proof.
  unfold showSpeedIndicator.
  destruct (uiSection ui w) as [u|]; [|by repeat split].
  destruct (negb (showIndicator u)); [by repeat split|].
  destruct (speedTextThrows speed); [by repeat split|]. cbn [snd].
  match goal with
  | |- context [setupAutoHideTimer ui now ?w0] =>
      pose proof (setupAutoHideTimer_fields ui now w0) as (Hv & Hs & Hh & _)
  end.
  split; [|split].
  - eapply sameVideos_trans; [|exact Hv].
    unfold ensureIndicatorCSS.
    destruct (styleNodes _ =? 0)%nat; by repeat split.
  - rewrite Hs. unfold ensureIndicatorCSS.
    by destruct (styleNodes _ =? 0)%nat.
  - rewrite Hh. unfold ensureIndicatorCSS.
    by destruct (styleNodes _ =? 0)%nat.
Qed.

Lemma showSpeedIndicator_nodes ui speed now w :
  indicatorNodes (doc (snd (showSpeedIndicator ui speed now w)))
  = if fst (showSpeedIndicator ui speed now w)
    then tail (indicatorNodes (doc w)) ++ [IndicatorVisible]
    else match uiSection ui w with
         | Some u => if showIndicator u then tail (indicatorNodes (doc w))
                     else indicatorNodes (doc w)
         | None => indicatorNodes (doc w)
         end.
Proof.
  unfold showSpeedIndicator.
  destruct (uiSection ui w) as [u|]; [|done].
  destruct (showIndicator u); cbn [negb]; [|done].
  destruct (speedTextThrows speed); [done|]. cbn [fst snd].
  match goal with
  | |- context [setupAutoHideTimer ui now ?w0] =>
      pose proof (setupAutoHideTimer_fields ui now w0) as (_ & _ & _ & ->)
  end.
  cbn [doc withDoc indicatorNodes withIndicatorNodes].
  unfold ensureIndicatorCSS.
  by destruct (styleNodes _ =? 0)%nat.
Qed.

(** X10. The page never holds two indicator nodes: starting with at most
    one, [showSpeedIndicator], [updateSpeedIndicator] and
    [hideSpeedIndicator] leave at most one, and a successful
    [showSpeedIndicator] leaves exactly one node, which is not hiding. *)
Theorem indicator_stays_single (ui : option UiSettings) (speed : JS.Value)
    (now : N) (w : World) :
  (length (indicatorNodes (doc w)) <= 1)%nat →
  (length (indicatorNodes (doc (snd (showSpeedIndicator ui speed now w))))
   <= 1)%nat
  ∧ (length (indicatorNodes (doc (snd (updateSpeedIndicator ui speed now w))))
     <= 1)%nat
  ∧ (length (indicatorNodes (doc (snd (hideSpeedIndicator w)))) <= 1)%nat
  ∧ (fst (showSpeedIndicator ui speed now w) = true →
     indicatorNodes (doc (snd (showSpeedIndicator ui speed now w)))
     = [IndicatorVisible]).
Proof.
  intros Hone.
  assert (Hshow :
    (length (indicatorNodes (doc (snd (showSpeedIndicator ui speed now w))))
     <= 1)%nat).
  { rewrite showSpeedIndicator_nodes.
    destruct (indicatorNodes (doc w)) as [|n [|n' l]]; cbn in Hone; [| |lia];
      destruct (fst _); cbn; try lia;
      destruct (uiSection ui w) as [u|]; cbn; try lia;
      destruct (showIndicator u); cbn; lia. }
  split; [done|]. split; [|split].
  - unfold updateSpeedIndicator.
    destruct (indicatorNodes (doc w)) as [|n l] eqn:Hn; [done|].
    destruct (speedTextThrows speed); cbn [snd]; [by rewrite Hn|].
    destruct (setupAutoHideTimer_fields ui now w) as (_ & _ & _ & ->).
    by rewrite Hn.
  - unfold hideSpeedIndicator.
    destruct (indicatorNodes (doc w)) as [|n l] eqn:Hn; cbn [snd];
      [by rewrite Hn|]. done.
  - intros Hok. rewrite showSpeedIndicator_nodes, Hok.
    by destruct (indicatorNodes (doc w)) as [|n [|n' l]]; cbn in Hone; [| |lia].
Qed.

(** An indicator that is fading out is replaced by a fresh one. *)
Lemma indicator_stays_single_witness :
  indicatorNodes
    (doc (snd (showSpeedIndicator (Some indicatorOn) (JS.Num (JS.ofZ 2)) 3000
                 (snd (hideSpeedIndicator
                         (snd (showSpeedIndicator (Some indicatorOn)
                                 (JS.Num (JS.ofZ 2)) 2000
                                 spaceBoundOnVideo)))))))
  = [IndicatorVisible].
Proof.
  refine (proj2 (proj2 (proj2
            (indicator_stays_single (Some indicatorOn) (JS.Num (JS.ofZ 2))
               3000 _ _))) _).
  - vm_compute. lia.
  - vm_compute. reflexivity.
Defined.

(** ** The key handlers *)

Lemma includesString_elem_of (l : list string) s :
  includesString l s = true ↔ s ∈ l.
Proof.
  unfold includesString. rewrite existsb_exists. split.
  - intros (x & Hin & Heq). apply String.eqb_eq in Heq. subst.
    by apply list_elem_of_In.
  - intros Hin. exists s. split; [by apply list_elem_of_In|].
    apply String.eqb_refl.
Qed.

Lemma isTypingInInputField_editable t :
  editableTarget t → isTypingInInputField (Some t) ≠ Some false.
Proof.
  unfold isTypingInInputField. intros Hed.
  destruct (targetTagName t) as [tag|] eqn:Htag; [|done].
  destruct (includesString _ (JS.toLowerCase tag)) eqn:Hinc; [done|].
  destruct (String.eqb (targetContentEditable t) "true") eqn:Hce; [done|].
  destruct Hed as [(tag' & Ht & Hin)|[Hed|Hed]].
  - rewrite Htag in Ht. injection Ht as <-.
    apply includesString_elem_of in Hin. congruence.
  - apply String.eqb_eq in Hed. congruence.
  - intros [= Hex]. apply not_true_iff_false in Hex. apply Hex.
    apply existsb_exists. exists "true". split; [by apply list_elem_of_In|done].
Qed.

(** X11. [handleKeyDown] leaves the state as it is and does not call
    [preventDefault] when the settings or the binding are missing, when
    the hotkey is disabled, or when the target of the event is an input,
    textarea or select element or is editable, itself or through an
    ancestor. When the event does not match the binding, or matches it
    while the re-entry guard is set (the key repeats while held), the flags
    of the modifiers are the only thing that can change, and
    [preventDefault] is not called either. *)
Theorem handleKeyDown_inert (ui : option UiSettings) (event : KeyboardEvent)
    (target : option EventTarget) (now : N) (w : World) :
  ((settings (ctl w) = None
    ∨ (∃ s, settings (ctl w) = Some s
            ∧ (hotkey s = None
               ∨ ∃ config, hotkey s = Some config ∧ hkEnabled config = false))
    ∨ (∃ t, target = Some t ∧ editableTarget t)) →
   handleKeyDown ui event target now w = (false, w))
  ∧ (isConfiguredHotkey event (updateModifierState event w) = false
     ∨ preventMultipleActivations (hotkeyState (ctl w)) = true →
     handleKeyDown ui event target now w = (false, w)
     ∨ handleKeyDown ui event target now w
       = (false, updateModifierState event w)).
Proof.
  unfold handleKeyDown. split.
  - intros [Hs|[(s & Hs & Hh)|(t & -> & Ht)]].
    + by rewrite Hs.
    + rewrite Hs. destruct Hh as [->|(config & -> & ->)]; done.
    + destruct (settings (ctl w)) as [s|]; [|done].
      destruct (hotkey s) as [config|]; [|done].
      destruct (negb (hkEnabled config)); [done|].
      pose proof (isTypingInInputField_editable t Ht) as Htyping.
      by destruct (isTypingInInputField (Some t)) as [[|]|].
  - intros Hcase.
    destruct (settings (ctl w)) as [s|]; [|by left].
    destruct (hotkey s) as [config|]; [|by left].
    destruct (negb (hkEnabled config)); [by left|].
    destruct (isTypingInInputField target) as [[|]|]; [by left| |by left].
    destruct Hcase as [->|Hguard]; [by right|].
    destruct (isConfiguredHotkey event (updateModifierState event w));
      [|by right].
    cbn [updateModifierState ctl withCtl hotkeyState withHotkeyState
         preventMultipleActivations]. rewrite Hguard. by right.
Qed.

(** The space bar is pressed inside a text input: nothing happens. *)
Lemma handleKeyDown_inert_witness :
  handleKeyDown (Some indicatorOn) spacePress (Some searchBox) 2000
    spaceBoundOnVideo
  = (false, spaceBoundOnVideo).
Proof.
  refine (proj1 (handleKeyDown_inert (Some indicatorOn) spacePress
                   (Some searchBox) 2000 spaceBoundOnVideo) _).
  right. right. exists searchBox. split; [reflexivity|].
  left. exists "INPUT". split; [reflexivity|]. vm_compute. constructor.
Defined.

Lemma sameVideos_held event w : sameVideos w (held event w).
Proof. by repeat split. Qed.

Lemma handleKeyDown_freshPress ui event target now w s :
  freshPress event target w s →
  handleKeyDown ui event target now w
  = (true,
     if fst (applySpeedBoost (configuredMultiplier s) now (held event w))
     then snd (showSpeedIndicator ui (configuredMultiplier s) now
                 (snd (applySpeedBoost (configuredMultiplier s) now
                         (held event w))))
     else resetHotkeyState
            (snd (applySpeedBoost (configuredMultiplier s) now
                    (held event w)))).
Proof.
  intros (Hs & (config & Hc & Hen) & Htyping & Hmatch & Hup & Hguard).
  unfold handleKeyDown. rewrite Hs, Hc, Hen, Htyping, Hmatch. cbn [negb].
  cbn [updateModifierState ctl withCtl hotkeyState withHotkeyState
       preventMultipleActivations isPressed].
  rewrite Hguard, Hup. cbn [negb]. f_equal.
  unfold activateSpeedBoost.
  cbn [ctl withCtl settings withHotkeyState updateModifierState].
  rewrite Hs.
  match goal with
  | |- context [applySpeedBoost _ _ ?w0] => change w0 with (held event w)
  end.
  by destruct (applySpeedBoost (configuredMultiplier s) now (held event w)).
Qed.

Lemma applySpeedBoost_refused m now w :
  boostRefused m now w →
  fst (applySpeedBoost m now w) = false.
Proof.
  unfold boostRefused. intros Href.
  pose proof (applySpeedBoost_cases m now w) as Hcases.
  destruct (fst (getActiveVideo now w)) as [v|]; [|by rewrite Hcases].
  destruct Href as [Hnot Hwhy].
  destruct Hcases as (st1 & Hst1 & ->). unfold boostOutcome.
  rewrite (selected_not_boosted now w v st1 Hnot Hst1).
  destruct (rejectedMultiplier (defaultMultiplier m)) eqn:Hrej; [done|].
  destruct Hwhy as [?|Hacc]; [done|].
  unfold setPlaybackRate. cbn [doc setTracked withCtl].
  by rewrite (getActiveVideo_doc now w), Hacc.
Qed.

Lemma boostRefused_held m now event w :
  boostRefused m now w → boostRefused m now (held event w).
Proof.
  unfold boostRefused.
  by rewrite (getActiveVideo_sameVideos now w (held event w)
                (sameVideos_held event w)).
Qed.

(** X12. A fresh press of the hotkey that finds nothing to boost (no
    active video, or a configured multiplier that fails the test, or a
    setter that throws) still calls [preventDefault], but leaves the
    hotkey idle, the modifier flags cleared, and the page as it was. *)
Theorem handleKeyDown_refused (ui : option UiSettings) (event : KeyboardEvent)
    (target : option EventTarget) (now : N) (w : World) (s : Settings) :
  freshPress event target w s →
  boostRefused (configuredMultiplier s) now w →
  fst (handleKeyDown ui event target now w) = true
  ∧ hotkeyState (ctl (snd (handleKeyDown ui event target now w)))
    = idleHotkeyState
  ∧ doc (snd (handleKeyDown ui event target now w)) = doc w.
Proof.
  intros Hpress Href. rewrite (handleKeyDown_freshPress _ _ _ _ _ _ Hpress).
  pose proof (applySpeedBoost_refused _ _ _
                (boostRefused_held _ _ event _ Href)) as Hfail.
  rewrite Hfail. cbn [fst snd]. split; [done|]. split; [done|].
  cbn [resetHotkeyState doc withCtl].
  by rewrite applySpeedBoost_false_doc.
Qed.

(** The space bar is pressed on a page without video. *)
Lemma handleKeyDown_refused_witness :
  fst (handleKeyDown (Some indicatorOn) spacePress (Some pageBody) 2000
         spaceBinding) = true
  ∧ hotkeyState
      (ctl (snd (handleKeyDown (Some indicatorOn) spacePress (Some pageBody)
                   2000 spaceBinding)))
    = idleHotkeyState.
Proof.
  assert (Hpress : freshPress spacePress (Some pageBody) spaceBinding
                     spaceSettings).
  { split; [reflexivity|]. split; [by eexists|].
    repeat split; vm_compute; reflexivity. }
  assert (Hrefused : boostRefused (configuredMultiplier spaceSettings) 2000
                       spaceBinding)
    by (vm_compute; exact I).
  destruct (handleKeyDown_refused (Some indicatorOn) spacePress
              (Some pageBody) 2000 spaceBinding spaceSettings Hpress Hrefused)
    as (Hprevented & Hidle & _).
  split; [exact Hprevented|exact Hidle].
Defined.

(** The state in which a successful activation leaves the controller and
    the page. *)
Lemma activation_state ui event now w m v :
  validMultiplier m →
  fst (getActiveVideo now w) = Some v →
  (∀ st, trackedVideos (ctl w) !! v = Some st → isSpeedBoosted st = false) →
  acceptsRate (element (doc w) v) m = true →
  let w1 := snd (showSpeedIndicator ui m now
                   (snd (applySpeedBoost m now (held event w)))) in
  fst (applySpeedBoost m now (held event w)) = true
  ∧ hotkeyState (ctl w1) = heldThrough event
  ∧ playbackRate (element (doc w1) v) = m
  ∧ (∀ u, u ≠ v → element (doc w1) u = element (doc w) u)
  ∧ ∃ st, trackedVideos (ctl w1) !! v = Some st
          ∧ originalRate st = playbackRate (element (doc w) v)
          ∧ isSpeedBoosted st = true.
Proof.
  intros Hm Hsel Hnot Hacc. cbv zeta.
  assert (Hsel0 : fst (getActiveVideo now (held event w)) = Some v).
  { by rewrite (getActiveVideo_sameVideos now w _ (sameVideos_held event w)). }
  pose proof (applySpeedBoost_succeeds m now (held event w) v Hm Hsel0 Hnot Hacc)
    as Hok.
  split; [done|].
  destruct (applySpeedBoost_success_state m now (held event w) v Hsel0 Hnot Hok)
    as (Hrate & _ & st & Hst & Horig & Hb).
  destruct (applySpeedBoost_fields m now (held event w)) as (_ & Hhk & _).
  destruct (showSpeedIndicator_fields ui m now
              (snd (applySpeedBoost m now (held event w))))
    as ((Ht & _ & He & _) & _ & Hh).
  rewrite Hh, Hhk, He, Ht. split; [done|].
  split; [by rewrite Hrate, (validMultiplier_default m Hm)|].
  split; [intros u Hu;
          by apply (applySpeedBoost_other_elements m now (held event w) v)|].
  by exists st.
Qed.

(** X13. A fresh press of the hotkey with a valid configured multiplier,
    on an active video that is not boosted and whose setter takes the
    multiplier: [preventDefault] is called, the hotkey is held with the
    normalized key of the event, the video plays at the configured
    multiplier and is marked as boosted with its previous rate kept as
    original rate, and no other element of the page is written to. *)
Theorem handleKeyDown_boosts (ui : option UiSettings) (event : KeyboardEvent)
    (target : option EventTarget) (now : N) (w : World) (s : Settings)
    (v : VideoId) :
  freshPress event target w s →
  validMultiplier (configuredMultiplier s) →
  fst (getActiveVideo now w) = Some v →
  (∀ st, trackedVideos (ctl w) !! v = Some st → isSpeedBoosted st = false) →
  acceptsRate (element (doc w) v) (configuredMultiplier s) = true →
  fst (handleKeyDown ui event target now w) = true
  ∧ hotkeyState (ctl (snd (handleKeyDown ui event target now w)))
    = heldThrough event
  ∧ playbackRate (element (doc (snd (handleKeyDown ui event target now w))) v)
    = configuredMultiplier s
  ∧ (∀ u, u ≠ v →
          element (doc (snd (handleKeyDown ui event target now w))) u
          = element (doc w) u)
  ∧ ∃ st, trackedVideos (ctl (snd (handleKeyDown ui event target now w))) !! v
          = Some st
          ∧ originalRate st = playbackRate (element (doc w) v)
          ∧ isSpeedBoosted st = true.
Proof.
  intros Hpress Hm Hsel Hnot Hacc.
  rewrite (handleKeyDown_freshPress _ _ _ _ _ _ Hpress).
  destruct (activation_state ui event now w (configuredMultiplier s) v
              Hm Hsel Hnot Hacc) as (Hok & Hrest).
  rewrite Hok. cbn [fst snd]. by split.
Qed.

(** The space bar is pressed on the page body: video 1 goes from rate 1
    to rate 2. *)
Lemma handleKeyDown_boosts_witness :
  playbackRate
    (element (doc (snd (handleKeyDown (Some indicatorOn) spacePress
                          (Some pageBody) 2000 spaceBoundOnVideo))) 1%nat)
  = JS.Num (JS.ofZ 2).
Proof.
  refine (proj1 (proj2 (proj2
            (handleKeyDown_boosts (Some indicatorOn) spacePress
               (Some pageBody) 2000 spaceBoundOnVideo spaceSettings 1%nat
               _ _ _ _ _)))).
  - split; [reflexivity|]. split; [by eexists|].
    repeat split; vm_compute; reflexivity.
  - split; vm_compute; congruence.
  - vm_compute. reflexivity.
  - intros st Hst. vm_compute in Hst. by injection Hst as <-.
  - reflexivity.
Defined.

Lemma handleKeyUp_eq event now w s config :
  settings (ctl w) = Some s →
  hotkey s = Some config →
  handleKeyUp event now w
  = if isPressed (hotkeyState (ctl w))
       && bool_decide (currentKey (hotkeyState (ctl w))
                       = Some (normalizeKey (key event)))
    then (true, deactivateSpeedBoost now (updateModifierState event w))
    else (false, updateModifierState event w).
Proof.
  intros Hs Hc. unfold handleKeyUp, isConfiguredHotkeyRelease.
  rewrite Hs, Hc.
  cbn [updateModifierState ctl withCtl hotkeyState withHotkeyState isPressed
       currentKey].
  destruct (isPressed (hotkeyState (ctl w))); cbn [negb andb]; [|done].
  destruct (decide (currentKey (hotkeyState (ctl w))
                    = Some (normalizeKey (key event)))) as [Heq|Hne].
  - by rewrite !bool_decide_eq_true_2.
  - by rewrite !bool_decide_eq_false_2.
Qed.

(** X14. The release is recognised by the key alone. While the hotkey is
    held, a keyup whose normalized key is the one stored at activation
    calls [preventDefault] and leaves the hotkey idle, whatever modifiers
    the event carries and whether or not the hotkey is still enabled; any
    other keyup does no more than copy the modifier flags of the event. *)
Theorem handleKeyUp_release_by_key (event : KeyboardEvent) (now : N)
    (w : World) (s : Settings) (config : HotkeySettings) :
  settings (ctl w) = Some s →
  hotkey s = Some config →
  (isPressed (hotkeyState (ctl w)) = true →
   currentKey (hotkeyState (ctl w)) = Some (normalizeKey (key event)) →
   fst (handleKeyUp event now w) = true
   ∧ hotkeyState (ctl (snd (handleKeyUp event now w))) = idleHotkeyState)
  ∧ (isPressed (hotkeyState (ctl w)) = false
     ∨ currentKey (hotkeyState (ctl w)) ≠ Some (normalizeKey (key event)) →
     handleKeyUp event now w = (false, updateModifierState event w)).
Proof.
  intros Hs Hc. rewrite (handleKeyUp_eq event now w s config Hs Hc). split.
  - intros Hp Hk. rewrite Hp, bool_decide_eq_true_2 by done. cbn [andb fst snd].
    split; [done|]. by apply deactivateSpeedBoost_spec.
  - intros [->|Hk]; [done|].
    rewrite bool_decide_eq_false_2 by done. by rewrite andb_false_r.
Qed.

(** The space bar was pressed bare and is released with shift held. *)
Lemma handleKeyUp_release_by_key_witness :
  hotkeyState (ctl (snd (handleKeyUp shiftSpaceRelease 3000 spaceHeldOnVideo)))
  = idleHotkeyState.
Proof.
  refine (proj2 (proj1 (handleKeyUp_release_by_key shiftSpaceRelease 3000
                          spaceHeldOnVideo spaceSettings _ eq_refl eq_refl)
                   _ _)); reflexivity.
Defined.

(** X15. Press and release. Under the conditions of X13, with a clock
    that has not gone back behind the timestamp held for the video and a
    setter that takes back the rate the element had: the press boosts the
    video to the configured multiplier, and the release of the same key,
    with whatever modifiers, calls [preventDefault], leaves the hotkey
    idle, the video at exactly the rate it had before the press and not
    marked as boosted, and no visible indicator. *)
Theorem hotkey_press_release_round_trip (ui : option UiSettings)
    (down up : KeyboardEvent) (target : option EventTarget) (now1 now2 : N)
    (w : World) (s : Settings) (v : VideoId) :
  freshPress down target w s →
  validMultiplier (configuredMultiplier s) →
  fst (getActiveVideo now1 w) = Some v →
  (∀ st, trackedVideos (ctl w) !! v = Some st →
         isSpeedBoosted st = false ∧ (lastInteraction st <= now1)%N) →
  acceptsRate (element (doc w) v) (configuredMultiplier s) = true →
  acceptsRate (element (doc w) v) (playbackRate (element (doc w) v)) = true →
  normalizeKey (key up) = normalizeKey (key down) →
  let pressed := snd (handleKeyDown ui down target now1 w) in
  let released := snd (handleKeyUp up now2 pressed) in
  playbackRate (element (doc pressed) v) = configuredMultiplier s
  ∧ fst (handleKeyUp up now2 pressed) = true
  ∧ hotkeyState (ctl released) = idleHotkeyState
  ∧ playbackRate (element (doc released) v) = playbackRate (element (doc w) v)
  ∧ (∃ st, trackedVideos (ctl released) !! v = Some st
           ∧ isSpeedBoosted st = false)
  ∧ isSpeedIndicatorVisible released = false.
Proof.
  intros Hpress Hm Hsel Hpre Hacc Hback Hkey pressed released.
  assert (Hnot : ∀ st, trackedVideos (ctl w) !! v = Some st →
                       isSpeedBoosted st = false)
    by (intros st Hst; by apply Hpre).
  set (m := configuredMultiplier s) in *.
  destruct (activation_state ui down now1 w m v Hm Hsel Hnot Hacc)
    as (Hok & Hheld & Hrate & _ & _).
  set (w0 := held down w) in *.
  set (w1 := snd (applySpeedBoost m now1 w0)) in *.
  assert (Hpressed : pressed = snd (showSpeedIndicator ui m now1 w1)).
  { unfold pressed. rewrite (handleKeyDown_freshPress _ _ _ _ _ _ Hpress).
    fold m w0. by rewrite Hok. }
  rewrite <- Hpressed in Hheld, Hrate.
  split; [done|].
  assert (Hsel0 : fst (getActiveVideo now1 w0) = Some v).
  { by rewrite (getActiveVideo_sameVideos now1 w w0 (sameVideos_held down w)). }
  destruct (showSpeedIndicator_fields ui m now1 w1) as (Hview & Hset & _).
  rewrite <- Hpressed in Hview, Hset.
  destruct (applySpeedBoost_fields m now1 w0) as (Hset1 & _ & _).
  destruct Hpress as (Hs & (config & Hc & _) & _).
  assert (Hs' : settings (ctl pressed) = Some s).
  { rewrite Hset. unfold w1. rewrite Hset1. exact Hs. }
  subst released.
  rewrite (handleKeyUp_eq up now2 pressed s config Hs' Hc), Hheld.
  cbn [heldThrough isPressed currentKey]. rewrite Hkey.
  rewrite bool_decide_eq_true_2 by done. cbn [andb fst snd].
  split; [done|].
  set (wx := updateModifierState up pressed).
  assert (Hviewx : sameVideos w1 wx).
  { eapply sameVideos_trans; [exact Hview|]. by repeat split. }
  assert (Hpx : isPressed (hotkeyState (ctl wx)) = true).
  { unfold wx. cbn [updateModifierState ctl withCtl hotkeyState withHotkeyState
      isPressed]. by rewrite Hheld. }
  unfold deactivateSpeedBoost. rewrite Hpx. cbn [negb].
  assert (Hsel2 : fst (getActiveVideo now2 wx) = Some v).
  { rewrite (getActiveVideo_sameVideos now2 w1 wx Hviewx).
    apply (applySpeedBoost_then_select m now1 now2 w0 v Hsel0).
    intros st Hst. by apply Hpre. }
  pose proof (restoreOriginalSpeed_cases now2 wx) as Hcases.
  rewrite Hsel2 in Hcases. destruct Hcases as (st3 & Hst3 & Hrestore).
  pose proof (getActiveVideo_tracked_Some _ _ _ _ Hst3) as (_ & Horig3 & Hb3).
  destruct (applySpeedBoost_success_state m now1 w0 v Hsel0 Hnot Hok)
    as (_ & Hsetter & stA & HstA & HorigA & HboostA).
  fold w1 in Hsetter, HstA.
  destruct Hviewx as (Htx & _ & Hex & _).
  rewrite Htx, HstA in Horig3, Hb3. cbn in Horig3, Hb3.
  unfold restoreOutcome in Hrestore.
  rewrite Hb3, HboostA in Hrestore. cbn [negb] in Hrestore.
  unfold setPlaybackRate in Hrestore.
  rewrite getActiveVideo_doc, Hex, Hsetter, Horig3, HorigA in Hrestore.
  change (element (doc w0) v) with (element (doc w) v) in Hrestore.
  rewrite Hback in Hrestore. rewrite Hrestore. cbv beta iota zeta.
  split; [done|].
  match goal with
  | |- context [hideSpeedIndicator ?wr] =>
      destruct (hideSpeedIndicator_spec wr) as (Hvis & Ht & _ & He)
  end.
  split.
  { cbn [resetHotkeyState doc withCtl]. rewrite He.
    cbn [doc withDoc setTracked withCtl].
    by rewrite element_withElement, decide_True. }
  split; [|exact Hvis].
  cbn [resetHotkeyState ctl withCtl trackedVideos withHotkeyState].
  rewrite Ht, setTracked_lookup, decide_True by done. by eexists.
Qed.

(** The space bar is pressed and released: video 1 is back at rate 1. *)
Lemma hotkey_press_release_round_trip_witness :
  playbackRate
    (element
       (doc (snd (handleKeyUp shiftSpaceRelease 3000
                    (snd (handleKeyDown (Some indicatorOn) spacePress
                            (Some pageBody) 2000 spaceBoundOnVideo)))))
       1%nat)
  = JS.Num (JS.ofZ 1).
Proof.
  refine (proj1 (proj2 (proj2 (proj2
            (hotkey_press_release_round_trip (Some indicatorOn) spacePress
               shiftSpaceRelease (Some pageBody) 2000 3000 spaceBoundOnVideo
               spaceSettings 1%nat _ _ _ _ _ _ _))))).
  - split; [reflexivity|]. split; [by eexists|].
    repeat split; vm_compute; reflexivity.
  - split; vm_compute; congruence.
  - vm_compute. reflexivity.
  - intros st Hst. vm_compute in Hst. injection Hst as <-.
    split; [reflexivity|]. vm_compute. congruence.
  - reflexivity.
  - reflexivity.
  - reflexivity.
Defined.

(** ** Lifecycle events of a video *)

(** X16. The [ratechange] event that follows the boost's own assignment
    leaves the state as it is: the video selected by a successful
    [applySpeedBoost] is marked as boosted, and for a boosted video the
    handler changes nothing, so that the original rate held for the
    restore is not overwritten. For a tracked video that is not boosted
    the handler writes nothing to the page and leaves as original rate
    the present rate of the element, or the one held already when the
    two are strictly equal. *)
Theorem handleVideoRateChange_keeps_boost_snapshot (m : JS.Value) (now : N)
    (w : World) (v : VideoId) :
  (fst (getActiveVideo now w) = Some v →
   fst (applySpeedBoost m now w) = true →
   handleVideoRateChange v (snd (applySpeedBoost m now w))
   = snd (applySpeedBoost m now w))
  ∧ (∀ st, trackedVideos (ctl w) !! v = Some st →
           isSpeedBoosted st = false →
           doc (handleVideoRateChange v w) = doc w
           ∧ ∃ st', trackedVideos (ctl (handleVideoRateChange v w)) !! v
                    = Some st'
                    ∧ isSpeedBoosted st' = false
                    ∧ lastInteraction st' = lastInteraction st
                    ∧ (originalRate st' = playbackRate (element (doc w) v)
                       ∨ (originalRate st' = originalRate st
                          ∧ strictEquals (playbackRate (element (doc w) v))
                                         (originalRate st) = true))).
Proof.
  split.
  - intros Hsel Hok.
    destruct (applySpeedBoost_true_boosted m now w v Hsel Hok)
      as (st & Hst & Hb).
    unfold handleVideoRateChange. by rewrite Hst, Hb.
  - intros st Hst Hb. unfold handleVideoRateChange. rewrite Hst, Hb.
    cbn [negb andb].
    destruct (strictEquals _ _) eqn:Heq; cbn [negb].
    + split; [done|]. exists st. repeat (split; [done|]). by right.
    + split; [done|]. rewrite setTracked_lookup, decide_True by done.
      eexists. split; [done|]. cbn. repeat (split; [done|]). by left.
Qed.

(** Video 1 is boosted from rate 1 to rate 2; the [ratechange] event that
    follows changes nothing. *)
Lemma handleVideoRateChange_keeps_boost_snapshot_witness :
  handleVideoRateChange 1%nat
    (snd (applySpeedBoost (JS.Num (JS.ofZ 2)) 2000 singleTrackedVideo))
  = snd (applySpeedBoost (JS.Num (JS.ofZ 2)) 2000 singleTrackedVideo).
Proof.
  refine (proj1 (handleVideoRateChange_keeps_boost_snapshot
                   (JS.Num (JS.ofZ 2)) 2000 singleTrackedVideo 1%nat) _ _);
    vm_compute; reflexivity.
Defined.

Lemma restoreOriginalSpeed_unboosted_untouched now w u :
  (∀ st, trackedVideos (ctl w) !! u = Some st → isSpeedBoosted st = false) →
  element (doc (snd (restoreOriginalSpeed now w))) u = element (doc w) u.
Proof.
  intros Hnot.
  pose proof (getActiveVideo_doc now w) as Hd.
  pose proof (restoreOriginalSpeed_cases now w) as Hcases.
  destruct (fst (getActiveVideo now w)) as [a|];
    [|rewrite Hcases; cbn [snd]; by rewrite Hd].
  destruct Hcases as (st & Hst & ->). unfold restoreOutcome.
  destruct (isSpeedBoosted st) eqn:Hb; cbn [negb snd]; [|by rewrite Hd].
  unfold setPlaybackRate.
  destruct (acceptsRate _ _); cbn [snd doc setTracked withCtl withDoc];
    [|by rewrite Hd].
  rewrite element_withElement, Hd.
  destruct (decide (u = a)) as [->|]; [|done].
  exfalso. rewrite (selected_not_boosted now w a st Hnot Hst) in Hb. done.
Qed.

Lemma deactivateSpeedBoost_unboosted_untouched now w u :
  (∀ st, trackedVideos (ctl w) !! u = Some st → isSpeedBoosted st = false) →
  element (doc (deactivateSpeedBoost now w)) u = element (doc w) u.
Proof.
  intros Hnot. unfold deactivateSpeedBoost.
  destruct (negb (isPressed (hotkeyState (ctl w)))); [done|].
  pose proof (restoreOriginalSpeed_unboosted_untouched now w u Hnot) as He.
  destruct (restoreOriginalSpeed now w) as [success w1]. cbn [snd] in He.
  cbn [resetHotkeyState doc withCtl].
  destruct success; [|done].
  by destruct (hideSpeedIndicator_spec w1) as (_ & _ & _ & ->).
Qed.

Lemma deactivateSpeedBoost_stays_unboosted now w u st' :
  (∀ st, trackedVideos (ctl w) !! u = Some st → isSpeedBoosted st = false) →
  trackedVideos (ctl (deactivateSpeedBoost now w)) !! u = Some st' →
  isSpeedBoosted st' = false.
Proof.
  intros Hnot Hst'. unfold deactivateSpeedBoost in Hst'.
  destruct (negb (isPressed (hotkeyState (ctl w)))); [by apply Hnot|].
  pose proof (restoreOriginalSpeed_cases now w) as Hcases.
  assert (Hr : ∀ st1, trackedVideos (ctl (snd (restoreOriginalSpeed now w))) !! u
                      = Some st1 → isSpeedBoosted st1 = false).
  { intros st1.
    destruct (fst (getActiveVideo now w)) as [a|].
    - destruct Hcases as (st & Hst & ->). unfold restoreOutcome.
      destruct (negb (isSpeedBoosted st)); cbn [snd].
      + intros H1. by apply (selected_not_boosted now w u st1 Hnot).
      + destruct (setPlaybackRate _ _ _); cbn [snd].
        * rewrite setTracked_lookup. destruct (decide (u = a)) as [->|].
          -- by intros [= <-].
          -- cbn [ctl withDoc]. intros H1.
             by apply (selected_not_boosted now w u st1 Hnot).
        * intros H1. by apply (selected_not_boosted now w u st1 Hnot).
    - rewrite Hcases. cbn [snd]. intros H1.
      by apply (selected_not_boosted now w u st1 Hnot). }
  destruct (restoreOriginalSpeed now w) as [success w1]. cbn [snd] in Hr.
  cbn [resetHotkeyState ctl withCtl trackedVideos withHotkeyState] in Hst'.
  destruct success; [|by apply Hr].
  destruct (hideSpeedIndicator_spec w1) as (_ & Ht & _ & _).
  rewrite Ht in Hst'. by apply Hr.
Qed.

Lemma handleVideoEnded_accepted video now w st :
  trackedVideos (ctl w) !! video = Some st →
  isSpeedBoosted st = true →
  acceptsRate (element (doc w) video) (originalRate st) = true →
  handleVideoEnded video now w
  = let w2 :=
      if bool_decide (lastActiveVideo (ctl w) = Some video)
      then snd (hideSpeedIndicator (rateGivenBack video st w))
      else rateGivenBack video st w in
    if isPressed (hotkeyState (ctl w2))
       && bool_decide (lastActiveVideo (ctl w2) = Some video)
    then deactivateSpeedBoost now w2 else w2.
Proof.
  intros Hst Hb Hacc. unfold handleVideoEnded, setPlaybackRate.
  rewrite Hst, Hb, Hacc. fold (rateGivenBack video st w).
  change (lastActiveVideo (ctl (rateGivenBack video st w)))
    with (lastActiveVideo (ctl w)).
  by case_bool_decide.
Qed.

(** X17. When a tracked video that is marked as boosted ends and its
    setter takes the original rate, [handleVideoEnded] leaves it playing
    at its original rate and not marked as boosted; if the hotkey was held
    on it as the last active video, the hotkey is idle afterwards. When
    the setter throws, the handler does no more than log the error: the
    mark and the hotkey state stay. *)
Theorem ended_video_gets_rate_back (video : VideoId) (now : N) (w : World)
    (st : VideoState) :
  trackedVideos (ctl w) !! video = Some st →
  isSpeedBoosted st = true →
  (acceptsRate (element (doc w) video) (originalRate st) = true →
   playbackRate (element (doc (handleVideoEnded video now w)) video)
   = originalRate st
   ∧ (∀ st', trackedVideos (ctl (handleVideoEnded video now w)) !! video
             = Some st' → isSpeedBoosted st' = false)
   ∧ (isPressed (hotkeyState (ctl w)) = true →
      lastActiveVideo (ctl w) = Some video →
      hotkeyState (ctl (handleVideoEnded video now w)) = idleHotkeyState))
  ∧ (acceptsRate (element (doc w) video) (originalRate st) = false →
     handleVideoEnded video now w
     = logError "Error handling video ended event" w).
Proof.
  intros Hst Hb. split.
  2:{ intros Hacc. unfold handleVideoEnded, setPlaybackRate.
      by rewrite Hst, Hb, Hacc. }
  intros Hacc. rewrite (handleVideoEnded_accepted video now w st Hst Hb Hacc).
  set (w1 := rateGivenBack video st w).
  set (w2 := if bool_decide (lastActiveVideo (ctl w) = Some video)
             then snd (hideSpeedIndicator w1) else w1).
  cbv zeta.
  assert (Hw2 : trackedVideos (ctl w2) = trackedVideos (ctl w1)
                ∧ hotkeyState (ctl w2) = hotkeyState (ctl w)
                ∧ lastActiveVideo (ctl w2) = lastActiveVideo (ctl w)
                ∧ element (doc w2) = element (doc w1)).
  { unfold w2. case_bool_decide; [|done].
    destruct (hideSpeedIndicator_spec w1) as (_ & Ht & Hh & He).
    repeat split; try done.
    unfold hideSpeedIndicator. by destruct (indicatorNodes (doc w1)). }
  destruct Hw2 as (Ht2 & Hh2 & Ha2 & He2).
  assert (Hrate2 : playbackRate (element (doc w2) video) = originalRate st).
  { rewrite He2. unfold w1, rateGivenBack. cbn [doc withDoc setTracked withCtl].
    by rewrite element_withElement, decide_True. }
  assert (Hnot2 : ∀ st2, trackedVideos (ctl w2) !! video = Some st2 →
                         isSpeedBoosted st2 = false).
  { intros st2. rewrite Ht2. unfold w1, rateGivenBack.
    rewrite setTracked_lookup, decide_True by done. by intros [= <-]. }
  rewrite Hh2, Ha2.
  destruct (isPressed (hotkeyState (ctl w))) eqn:Hp; cbn [andb];
    [|by repeat split].
  case_bool_decide as Hlast; [|by repeat split].
  split; [|split].
  - by rewrite deactivateSpeedBoost_unboosted_untouched.
  - intros st'. by apply deactivateSpeedBoost_stays_unboosted.
  - intros _ _. apply deactivateSpeedBoost_spec. by rewrite Hh2.
Qed.

(** Video 1, boosted from 1 to 2 while the hotkey is held, ends: it is
    back at rate 1 and the hotkey is idle. *)
Lemma ended_video_gets_rate_back_witness :
  playbackRate (element (doc (handleVideoEnded 1%nat 3000 heldOnBoostedVideo))
                        1%nat)
  = JS.Num (JS.ofZ 1)
  ∧ hotkeyState (ctl (handleVideoEnded 1%nat 3000 heldOnBoostedVideo))
    = idleHotkeyState.
Proof.
  assert (Hst : trackedVideos (ctl heldOnBoostedVideo) !! 1%nat
                = Some {| originalRate := JS.Num (JS.ofZ 1);
                          isSpeedBoosted := true; platform := Generic;
                          lastInteraction := 1000 |})
    by (vm_compute; reflexivity).
  destruct (proj1 (ended_video_gets_rate_back 1%nat 3000 heldOnBoostedVideo
                     _ Hst eq_refl) eq_refl) as (Hrate & _ & Hidle).
  split; [exact Hrate|]. apply Hidle; reflexivity.
Defined.

Lemma logError_ctl message w :
  lastActiveVideo (ctl (logError message w)) = lastActiveVideo (ctl w)
  ∧ settings (ctl (logError message w)) = settings (ctl w).
Proof. unfold logError. by destruct (_ <? _)%nat. Qed.

(** X18. When a tracked video that is marked as boosted reports an error,
    [handleVideoError] leaves it playing at its original rate and not
    marked as boosted if its setter takes that rate; and, whether or not
    the setter throws, the hotkey is idle afterwards if it was held on
    that video as the last active one. Otherwise a throwing setter leaves
    two entries in the error log and nothing else. *)
Theorem errored_video_gets_rate_back (video : VideoId) (now : N) (w : World)
    (st : VideoState) :
  trackedVideos (ctl w) !! video = Some st →
  isSpeedBoosted st = true →
  (acceptsRate (element (doc w) video) (originalRate st) = true →
   playbackRate (element (doc (handleVideoError video now w)) video)
   = originalRate st
   ∧ (∀ st', trackedVideos (ctl (handleVideoError video now w)) !! video
             = Some st' → isSpeedBoosted st' = false))
  ∧ (isPressed (hotkeyState (ctl w)) = true →
     lastActiveVideo (ctl w) = Some video →
     hotkeyState (ctl (handleVideoError video now w)) = idleHotkeyState)
  ∧ (isPressed (hotkeyState (ctl w)) = false
     ∨ lastActiveVideo (ctl w) ≠ Some video →
     acceptsRate (element (doc w) video) (originalRate st) = false →
     handleVideoError video now w
     = logError "Error resetting speed after video error"
         (logError "Video error occurred" w)).
Proof.
  intros Hst Hb. unfold handleVideoError, setPlaybackRate.
  set (w0 := logError "Video error occurred" w).
  destruct (logError_fields "Video error occurred" w) as (Ht0 & Hh0 & Hd0).
  destruct (logError_ctl "Video error occurred" w) as (Ha0 & _).
  fold w0 in Ht0, Hh0, Hd0, Ha0.
  rewrite Ht0, Hst, Hb, Hd0.
  destruct (acceptsRate (element (doc w) video) (originalRate st)) eqn:Hacc.
  - set (w1 := setTracked video (markBoosted false st) _).
    assert (Hrate1 : playbackRate (element (doc w1) video) = originalRate st).
    { unfold w1. cbn [doc withDoc setTracked withCtl].
      by rewrite element_withElement, decide_True. }
    assert (Hnot1 : ∀ st1, trackedVideos (ctl w1) !! video = Some st1 →
                           isSpeedBoosted st1 = false).
    { intros st1. unfold w1.
      rewrite setTracked_lookup, decide_True by done. by intros [= <-]. }
    change (lastActiveVideo (ctl w1)) with (lastActiveVideo (ctl w0)).
    change (hotkeyState (ctl w1)) with (hotkeyState (ctl w0)).
    rewrite Ha0, Hh0.
    case_bool_decide as Hlast; cbn [andb].
    + destruct (isPressed (hotkeyState (ctl w))) eqn:Hp.
      * split; [|split].
        -- intros _. split.
           ++ by rewrite deactivateSpeedBoost_unboosted_untouched.
           ++ intros st'. by apply deactivateSpeedBoost_stays_unboosted.
        -- intros _ _. apply deactivateSpeedBoost_spec.
           change (hotkeyState (ctl w1)) with (hotkeyState (ctl w0)).
           by rewrite Hh0.
        -- done.
      * by repeat split.
    + split; [by intros _|]. split; [done|]. done.
  - set (w1 := logError "Error resetting speed after video error" w0).
    destruct (logError_fields "Error resetting speed after video error" w0)
      as (Ht1 & Hh1 & Hd1).
    destruct (logError_ctl "Error resetting speed after video error" w0)
      as (Ha1 & _).
    fold w1 in Ht1, Hh1, Hd1, Ha1.
    rewrite Ha1, Ha0, Hh1, Hh0.
    split; [done|].
    case_bool_decide as Hlast; cbn [andb].
    + destruct (isPressed (hotkeyState (ctl w))) eqn:Hp.
      * split.
        -- intros _ _. apply deactivateSpeedBoost_spec. by rewrite Hh1, Hh0.
        -- by intros [?|?].
      * by split.
    + by split.
Qed.

(** The video whose setter throws reports an error while the hotkey is
    held on it: the hotkey is idle afterwards. *)
Lemma errored_video_gets_rate_back_witness :
  hotkeyState (ctl (handleVideoError 1%nat 3000 heldOnStuckVideo))
  = idleHotkeyState.
Proof.
  assert (Hst : trackedVideos (ctl heldOnStuckVideo) !! 1%nat
                = Some {| originalRate := JS.Num (JS.ofZ 1);
                          isSpeedBoosted := true; platform := Generic;
                          lastInteraction := 1000 |})
    by (vm_compute; reflexivity).
  exact (proj1 (proj2 (errored_video_gets_rate_back 1%nat 3000
                         heldOnStuckVideo _ Hst eq_refl))
           eq_refl eq_refl).
Defined.

Lemma getActiveVideo_latest_playing now w video :
  (2 <= length (playingVideos (doc w)))%nat →
  video ∈ playingVideos (doc w) →
  (∀ u, u ∈ playingVideos (doc w) → u ≠ video →
        (selectionTime now w u < selectionTime now w video)%N) →
  fst (getActiveVideo now w) = Some video.
Proof.
  unfold playingVideos. intros Htwo Hin Hlater.
  assert (Hlen : (length (List.filter (isPlaying (doc w)) (validVideos (doc w)))
                  <= length (validVideos (doc w)))%nat)
    by apply List.filter_length_le.
  assert (Hvalid : ∃ v1 v2 l, validVideos (doc w) = v1 :: v2 :: l).
  { assert (2 <= length (validVideos (doc w)))%nat as Hv2 by lia.
    revert Hv2. destruct (validVideos (doc w)) as [|v1 [|v2 l]]; cbn;
      [lia|lia|]. intros _. by eexists _, _, _. }
  destruct Hvalid as (v1 & v2 & l & Hvalid).
  rewrite getActiveVideo_eq. cbv zeta.
  rewrite Hvalid. cbn [fst]. rewrite <- Hvalid.
  destruct (chooseActive_spec (afterDetection now w) (doc w)
              (validVideos (doc w)))
    as (v' & -> & Hv' & _ & Hrecent & _).
  { by rewrite Hvalid. }
  { intros u Hu. by apply afterDetection_all_tracked. }
  f_equal. destruct (decide (v' = video)) as [|Hne]; [done|exfalso].
  specialize (Hrecent Htwo).
  pose proof (FirstMax_elem_of _ _ _ _ _ Hrecent) as Hv'in.
  destruct Hrecent as (i & _ & Hmax & _).
  specialize (Hmax video Hin). specialize (Hlater v' Hv'in Hne).
  rewrite !interactionTime_afterDetection in Hmax;
    [lia|done|by eapply filter_isPlaying_elem_of].
Qed.

Lemma touchTracked_selectionTime video now now' w st u :
  trackedVideos (ctl w) !! video = Some st →
  selectionTime now' (touchTracked video now w) u
  = if decide (u = video) then now else selectionTime now' w u.
Proof.
  intros Hst. unfold touchTracked, selectionTime. rewrite Hst.
  rewrite setTracked_lookup. destruct (decide (u = video)); done.
Qed.

(** X19. The video last interacted with is the one the hotkey acts on.
    After a [seeking], [seeked] or [play] event (the last with the hotkey
    not held) on a tracked video that is among two or more playing
    candidates, at a time later than the timestamp of every other playing
    candidate, the next selection returns that video. *)
Theorem interaction_decides_among_playing (ui : option UiSettings)
    (video : VideoId) (now now' : N) (w : World) (st : VideoState) :
  trackedVideos (ctl w) !! video = Some st →
  (2 <= length (playingVideos (doc w)))%nat →
  video ∈ playingVideos (doc w) →
  (∀ u, u ∈ playingVideos (doc w) → u ≠ video →
        (selectionTime now' w u < now)%N) →
  fst (getActiveVideo now' (handleVideoSeeking video now w)) = Some video
  ∧ fst (getActiveVideo now' (handleVideoSeeked video now w)) = Some video
  ∧ (isPressed (hotkeyState (ctl w)) = false →
     fst (getActiveVideo now' (handleVideoPlay ui video now w)) = Some video).
Proof.
  intros Hst Htwo Hin Hlater.
  assert (Htouch : fst (getActiveVideo now' (touchTracked video now w))
                   = Some video).
  { assert (Hdoc : doc (touchTracked video now w) = doc w)
      by (unfold touchTracked; by rewrite Hst).
    apply getActiveVideo_latest_playing; rewrite Hdoc; [done..|].
    intros u Hu Hne.
    rewrite !(touchTracked_selectionTime video now now' w st) by done.
    rewrite decide_False, decide_True by done. by apply Hlater. }
  split; [done|]. split; [done|].
  intros Hp. unfold handleVideoPlay.
  assert (Hh : hotkeyState (ctl (touchTracked video now w))
               = hotkeyState (ctl w))
    by (unfold touchTracked; by rewrite Hst).
  by rewrite Hh, Hp.
Qed.

(** Videos 1 and 2 play and video 2 was touched last; after a seek in
    video 1 the selection returns video 1. *)
Lemma interaction_decides_among_playing_witness :
  fst (getActiveVideo 1900 twoPlaying) = Some 2%nat
  ∧ fst (getActiveVideo 2500 (handleVideoSeeked 1%nat 2000 twoPlaying))
    = Some 1%nat.
Proof.
  split; [vm_compute; reflexivity|].
  assert (Hplaying : playingVideos (doc twoPlaying) = [1%nat; 2%nat])
    by (vm_compute; reflexivity).
  refine (proj1 (proj2 (interaction_decides_among_playing None 1%nat 2000 2500
                          twoPlaying
                          {| originalRate := JS.Num (JS.ofZ 1);
                             isSpeedBoosted := false; platform := Generic;
                             lastInteraction := 1000 |} _ _ _ _))).
  - vm_compute. reflexivity.
  - rewrite Hplaying. cbn [length]. lia.
  - rewrite Hplaying. apply list_elem_of_here.
  - intros u Hu Hne. rewrite Hplaying in Hu.
    apply elem_of_cons in Hu as [->|Hu]; [done|].
    apply list_elem_of_singleton in Hu as ->. vm_compute. reflexivity.
Defined.

(** X20. A new source while boosted. For a tracked video that is marked
    as boosted, [handleVideoLoadStart] drops the mark and sets the
    original rate to 1 without writing to the page; a restore that then
    selects the video succeeds without writing either, so that the
    element keeps the rate it has. *)
Theorem loadstart_drops_boost_without_write (video : VideoId) (now : N)
    (w : World) (st : VideoState) :
  trackedVideos (ctl w) !! video = Some st →
  isSpeedBoosted st = true →
  doc (handleVideoLoadStart video w) = doc w
  ∧ trackedVideos (ctl (handleVideoLoadStart video w)) !! video
    = Some (withOriginalRate (JS.Num (JS.ofZ 1)) (markBoosted false st))
  ∧ (fst (getActiveVideo now (handleVideoLoadStart video w)) = Some video →
     fst (restoreOriginalSpeed now (handleVideoLoadStart video w)) = true
     ∧ doc (snd (restoreOriginalSpeed now (handleVideoLoadStart video w)))
       = doc w).
Proof.
  intros Hst Hb. unfold handleVideoLoadStart. rewrite Hst, Hb.
  set (st1 := withOriginalRate (JS.Num (JS.ofZ 1)) (markBoosted false st)).
  set (w1 := setTracked video st1 w).
  assert (Hst1 : trackedVideos (ctl w1) !! video = Some st1)
    by (unfold w1; by rewrite setTracked_lookup, decide_True).
  split; [done|]. split; [done|].
  intros Hsel.
  pose proof (restoreOriginalSpeed_cases now w1) as Hcases.
  rewrite Hsel in Hcases. destruct Hcases as (st2 & Hst2 & ->).
  pose proof (getActiveVideo_tracked_Some _ _ _ _ Hst2) as (_ & _ & Hb2).
  rewrite Hst1 in Hb2. cbn in Hb2. unfold restoreOutcome. rewrite Hb2.
  cbn [negb fst snd]. split; [done|]. by rewrite getActiveVideo_doc.
Qed.

(** Video 1 is boosted to rate 2 when it starts to load a new source: the
    later restore succeeds and the rate is still 2. *)
Lemma loadstart_drops_boost_without_write_witness :
  fst (restoreOriginalSpeed 3000 (handleVideoLoadStart 1%nat boostedVideo1))
  = true
  ∧ playbackRate
      (element (doc (snd (restoreOriginalSpeed 3000
                            (handleVideoLoadStart 1%nat boostedVideo1))))
               1%nat)
    = JS.Num (JS.ofZ 2).
Proof.
  assert (Hst : trackedVideos (ctl boostedVideo1) !! 1%nat
                = Some {| originalRate := JS.Num (JS.ofZ 1);
                          isSpeedBoosted := true; platform := Generic;
                          lastInteraction := 1000 |})
    by (vm_compute; reflexivity).
  assert (Hsel : fst (getActiveVideo 3000
                        (handleVideoLoadStart 1%nat boostedVideo1))
                 = Some 1%nat)
    by (vm_compute; reflexivity).
  destruct (proj2 (proj2 (loadstart_drops_boost_without_write 1%nat 3000
                            boostedVideo1 _ Hst eq_refl)) Hsel)
    as (Hok & Hdoc).
  split; [exact Hok|]. rewrite Hdoc. reflexivity.
Defined.

(** X21. A [loadeddata] event during a boost makes the boosted rate the
    original one. For a tracked video that is marked as boosted and plays
    at a rate that is truthy, [handleVideoLoadedData] stores that rate as
    the original rate and keeps the mark; a restore that then selects the
    video writes that same rate, so that the video stays at the boosted
    rate, no longer marked. [handleVideoCanPlay], in contrast, leaves a
    tracked video as it is. *)
Theorem loadeddata_during_boost_keeps_boosted_rate (video : VideoId)
    (now now' : N) (w : World) (st : VideoState) :
  trackedVideos (ctl w) !! video = Some st →
  isSpeedBoosted st = true →
  truthy (playbackRate (element (doc w) video)) = true →
  acceptsRate (element (doc w) video) (playbackRate (element (doc w) video))
  = true →
  fst (getActiveVideo now' (handleVideoLoadedData video now w)) = Some video →
  handleVideoCanPlay video now w = w
  ∧ fst (restoreOriginalSpeed now' (handleVideoLoadedData video now w)) = true
  ∧ playbackRate
      (element (doc (snd (restoreOriginalSpeed now'
                            (handleVideoLoadedData video now w)))) video)
    = playbackRate (element (doc w) video)
  ∧ ∃ st', trackedVideos
             (ctl (snd (restoreOriginalSpeed now'
                          (handleVideoLoadedData video now w)))) !! video
           = Some st'
           ∧ isSpeedBoosted st' = false
           ∧ originalRate st' = playbackRate (element (doc w) video).
Proof.
  intros Hst Hb Htruthy Hacc Hselected. split.
  { unfold handleVideoCanPlay. by rewrite Hst. }
  revert Hselected.
  unfold handleVideoLoadedData, rateOrDefault. rewrite Hst, Htruthy.
  set (r := playbackRate (element (doc w) video)) in *.
  set (w1 := setTracked video (touch now (withOriginalRate r st)) w).
  intros Hsel.
  assert (Hst1 : trackedVideos (ctl w1) !! video
                 = Some (touch now (withOriginalRate r st)))
    by (unfold w1; by rewrite setTracked_lookup, decide_True).
  pose proof (restoreOriginalSpeed_cases now' w1) as Hcases.
  rewrite Hsel in Hcases. destruct Hcases as (st2 & Hst2 & ->).
  pose proof (getActiveVideo_tracked_Some _ _ _ _ Hst2) as (_ & Ho2 & Hb2).
  rewrite Hst1 in Ho2, Hb2. cbn in Ho2, Hb2. unfold restoreOutcome.
  rewrite Hb2, Hb. cbn [negb]. unfold setPlaybackRate.
  rewrite getActiveVideo_doc, Ho2.
  change (element (doc w1) video) with (element (doc w) video).
  fold r. rewrite Hacc. cbn [fst snd doc withDoc setTracked withCtl].
  split; [done|]. rewrite element_withElement, decide_True by done.
  split; [done|]. rewrite setTracked_lookup, decide_True by done.
  eexists. split; [done|]. by split.
Qed.

(** Video 1, boosted from 1 to 2, reports [loadeddata]; the restore
    leaves it at rate 2. *)
Lemma loadeddata_during_boost_keeps_boosted_rate_witness :
  playbackRate
    (element (doc (snd (restoreOriginalSpeed 3000
                          (handleVideoLoadedData 1%nat 2500 boostedVideo1))))
             1%nat)
  = JS.Num (JS.ofZ 2).
Proof.
  assert (Hst : trackedVideos (ctl boostedVideo1) !! 1%nat
                = Some {| originalRate := JS.Num (JS.ofZ 1);
                          isSpeedBoosted := true; platform := Generic;
                          lastInteraction := 1000 |})
    by (vm_compute; reflexivity).
  assert (Hsel : fst (getActiveVideo 3000
                        (handleVideoLoadedData 1%nat 2500 boostedVideo1))
                 = Some 1%nat)
    by (vm_compute; reflexivity).
  exact (proj1 (proj2 (proj2
           (loadeddata_during_boost_keeps_boosted_rate 1%nat 2500 3000
              boostedVideo1 _ Hst eq_refl eq_refl eq_refl Hsel)))).
Defined.

Lemma hideSpeedIndicator_sameVideos w :
  sameVideos w (snd (hideSpeedIndicator w))
  ∧ settings (ctl (snd (hideSpeedIndicator w))) = settings (ctl w)
  ∧ indicatorNodes (doc (snd (hideSpeedIndicator w)))
    = match indicatorNodes (doc w) with
      | [] => []
      | _ :: rest => IndicatorHiding :: rest
      end.
Proof.
  unfold hideSpeedIndicator.
  destruct (indicatorNodes (doc w)) as [|n rest] eqn:Hn; cbn [snd].
  - by rewrite Hn.
  - by repeat split.
Qed.

Lemma touchTracked_sameVideos video now w w' :
  sameVideos w w' →
  sameVideos (touchTracked video now w) (touchTracked video now w')
  ∧ settings (ctl (touchTracked video now w')) = settings (ctl w')
  ∧ hotkeyState (ctl (touchTracked video now w')) = hotkeyState (ctl w')
  ∧ doc (touchTracked video now w') = doc w'.
Proof.
  intros (Ht & Ha & He & Hq & Hh). unfold touchTracked. rewrite Ht.
  destruct (trackedVideos (ctl w) !! video) as [st|]; [|by repeat split].
  split; [|done]. unfold sameVideos.
  cbn [setTracked withCtl ctl doc trackedVideos lastActiveVideo withTracked].
  by rewrite Ht.
Qed.

(** X22. Pause and resume while the hotkey is held on the last active
    video. [handleVideoPaused] leaves no visible indicator and touches
    neither the tracking, nor the elements of the page, nor the hotkey
    state: the boost stays. When the video plays again and is the one
    selected, [handleVideoPlay] shows the indicator again (the indicator
    being switched on in the settings and the rate a number), as the one
    indicator node of the page. *)
Theorem pause_hides_play_shows (ui : option UiSettings) (u : UiSettings)
    (video : VideoId) (now : N) (w : World) :
  isPressed (hotkeyState (ctl w)) = true →
  lastActiveVideo (ctl w) = Some video →
  (length (indicatorNodes (doc w)) <= 1)%nat →
  isSpeedIndicatorVisible (handleVideoPaused video w) = false
  ∧ sameVideos w (handleVideoPaused video w)
  ∧ hotkeyState (ctl (handleVideoPaused video w)) = hotkeyState (ctl w)
  ∧ (uiSection ui w = Some u →
     showIndicator u = true →
     JS.isNumber (playbackRate (element (doc w) video)) = true →
     fst (getActiveVideo now (touchTracked video now w)) = Some video →
     indicatorNodes
       (doc (handleVideoPlay ui video now (handleVideoPaused video w)))
     = [IndicatorVisible]).
Proof.
  intros Hp Hlast Hone. unfold handleVideoPaused.
  rewrite Hlast, Hp, bool_decide_eq_true_2 by done. cbn [andb].
  destruct (hideSpeedIndicator_spec w) as (Hvis & _ & Hh & _).
  destruct (hideSpeedIndicator_sameVideos w) as (Hview & Hs & Hnodes).
  set (paused := snd (hideSpeedIndicator w)) in *.
  split; [done|]. split; [done|]. split; [done|].
  intros Hui Hshow Hnumber Hsel. unfold handleVideoPlay.
  destruct (touchTracked_sameVideos video now w paused Hview)
    as (Hview1 & Hs1 & Hh1 & Hd1).
  set (w1 := touchTracked video now paused) in *.
  rewrite Hh1, Hh, Hp.
  assert (Hsel1 : fst (getActiveVideo now w1) = Some video)
    by by rewrite (getActiveVideo_sameVideos now _ w1 Hview1).
  pose proof (getActiveVideo_doc now w1) as Hd2.
  destruct (getActiveVideo_fields now w1) as (Hs2 & _).
  destruct (getActiveVideo now w1) as [a w2]. cbn [fst snd] in *. subst a.
  rewrite bool_decide_eq_true_2 by done.
  rewrite showSpeedIndicator_nodes.
  assert (Hui2 : uiSection ui w2 = Some u).
  { unfold uiSection in *. by rewrite Hs2, Hs1, Hs. }
  assert (Helem : element (doc w2) video = element (doc w) video).
  { rewrite Hd2, Hd1. by destruct Hview as (_ & _ & -> & _). }
  assert (Hok : fst (showSpeedIndicator ui
                       (playbackRate (element (doc w2) video)) now w2) = true).
  { unfold showSpeedIndicator. rewrite Hui2, Hshow. cbn [negb].
    unfold speedTextThrows. by rewrite Helem, Hnumber, andb_false_r. }
  rewrite Hok, Hd2, Hd1, Hnodes.
  by destruct (indicatorNodes (doc w)) as [|n [|n' l]]; cbn in Hone; [| |lia].
Qed.

(** The boosted video 1 is paused and resumed while the space bar is
    held. *)
Lemma pause_hides_play_shows_witness :
  indicatorNodes
    (doc (handleVideoPlay (Some indicatorOn) 1%nat 3000
            (handleVideoPaused 1%nat spaceHeldOnVideo)))
  = [IndicatorVisible].
Proof.
  assert (Hone : (length (indicatorNodes (doc spaceHeldOnVideo)) <= 1)%nat)
    by (cbn; lia).
  assert (Hsel : fst (getActiveVideo 3000
                        (touchTracked 1%nat 3000 spaceHeldOnVideo))
                 = Some 1%nat)
    by (vm_compute; reflexivity).
  exact (proj2 (proj2 (proj2
           (pause_hides_play_shows (Some indicatorOn) indicatorOn 1%nat 3000
              spaceHeldOnVideo eq_refl eq_refl Hone)))
           eq_refl eq_refl eq_refl Hsel).
Defined.

(** ** Removal of videos from the document *)

Lemma forgetLoop_spec (l : list VideoId) :
  ∀ c,
    (∀ v, trackedVideos (foldl forgetVideo c l) !! v
          = if bool_decide (v ∈ l) then None else trackedVideos c !! v)
    ∧ (∀ v, v ∈ videoEventListeners (foldl forgetVideo c l)
            ↔ v ∈ videoEventListeners c ∧ v ∉ l)
    ∧ lastActiveVideo (foldl forgetVideo c l)
      = match lastActiveVideo c with
        | Some a => if bool_decide (a ∈ l) then None else Some a
        | None => None
        end
    ∧ hotkeyState (foldl forgetVideo c l) = hotkeyState c
    ∧ settings (foldl forgetVideo c l) = settings c.
Proof.
  induction l as [|x l IH]; intros c.
  - cbn [foldl]. split; [done|]. split.
    { intros v. split; [|tauto]. intros Hv. split; [done|].
      apply not_elem_of_nil. }
    split; [by destruct (lastActiveVideo c)|done].
  - cbn [foldl]. destruct (IH (forgetVideo c x)) as (Ht & Hl & Ha & Hh & Hs).
    assert (Hstep :
      trackedVideos (forgetVideo c x) = delete x (trackedVideos c)
      ∧ videoEventListeners (forgetVideo c x) = videoEventListeners c ∖ {[x]}
      ∧ lastActiveVideo (forgetVideo c x)
        = (if bool_decide (lastActiveVideo c = Some x) then None
           else lastActiveVideo c)
      ∧ hotkeyState (forgetVideo c x) = hotkeyState c
      ∧ settings (forgetVideo c x) = settings c).
    { unfold forgetVideo.
      cbn [lastActiveVideo withTracked].
      destruct (removeVideoEventListeners_core x c)
        as (Hs1 & Ha1 & Hh1 & _).
      rewrite Ha1.
      case_bool_decide;
        cbn [trackedVideos videoEventListeners lastActiveVideo hotkeyState
             settings withTracked withLastActive];
        rewrite removeVideoEventListeners_tracked,
          removeVideoEventListeners_listeners;
        (split; [done|]); (split; [done|]); (split; [done|]); by split. }
    destruct Hstep as (Ht1 & Hl1 & Ha1 & Hh1 & Hs1).
    split; [|split; [|split; [|split]]].
    + intros v. rewrite Ht, Ht1.
      destruct (decide (v = x)) as [->|Hne].
      * rewrite (bool_decide_eq_true_2 (x ∈ x :: l))
          by apply list_elem_of_here.
        rewrite lookup_delete_eq. by destruct (bool_decide (x ∈ l)).
      * rewrite lookup_delete_ne by done.
        destruct (decide (v ∈ l)) as [Hin|Hnin].
        -- rewrite !bool_decide_eq_true_2; [done| |done].
           by apply list_elem_of_further.
        -- rewrite !bool_decide_eq_false_2; [done| |done].
           intros Hin. apply elem_of_cons in Hin as [?|?]; done.
    + intros v. rewrite Hl, Hl1, elem_of_difference, elem_of_singleton,
        not_elem_of_cons. tauto.
    + rewrite Ha, Ha1. destruct (lastActiveVideo c) as [a|]; [|done].
      destruct (decide (a = x)) as [->|Hne].
      * rewrite (bool_decide_eq_true_2 (Some x = Some x)) by done.
        by rewrite (bool_decide_eq_true_2 (x ∈ x :: l))
          by apply list_elem_of_here.
      * rewrite (bool_decide_eq_false_2 (Some a = Some x)) by congruence.
        destruct (decide (a ∈ l)) as [Hin|Hnin].
        -- rewrite !bool_decide_eq_true_2; [done| |done].
           by apply list_elem_of_further.
        -- rewrite !bool_decide_eq_false_2; [done| |done].
           intros Hin. apply elem_of_cons in Hin as [?|?]; done.
    + by rewrite Hh, Hh1.
    + by rewrite Hs, Hs1.
Qed.

Lemma videosToRemove_elem_of node (m : gmap VideoId VideoState) v :
  v ∈ List.filter (λ video, bool_decide (nodeSelf node = Some video)
                            || nodeContains node video)
                  (map_to_list m).*1
  ↔ is_Some (m !! v) ∧ insideNode node v = true.
Proof.
  rewrite list_elem_of_In, List.filter_In, <- list_elem_of_In.
  by rewrite elem_of_map_to_list_fst.
Qed.

Lemma cleanupRemovedVideos_ctl node w :
  (∀ v, trackedVideos (ctl (cleanupRemovedVideos node w)) !! v
        = if insideNode node v then None else trackedVideos (ctl w) !! v)
  ∧ lastActiveVideo (ctl (cleanupRemovedVideos node w))
    = match lastActiveVideo (ctl w) with
      | Some a =>
          if bool_decide (is_Some (trackedVideos (ctl w) !! a))
             && insideNode node a
          then None else Some a
      | None => None
      end
  ∧ hotkeyState (ctl (cleanupRemovedVideos node w)) = hotkeyState (ctl w).
Proof.
  unfold cleanupRemovedVideos. cbn [ctl doc withCtl].
  match goal with
  | |- context [foldl forgetVideo (ctl w) ?l] =>
      destruct (forgetLoop_spec l (ctl w)) as (Ht & _ & Ha & Hh & _)
  end.
  split; [|split; [|done]].
  - intros v. rewrite Ht.
    destruct (insideNode node v) eqn:Hin.
    + destruct (trackedVideos (ctl w) !! v) as [st|] eqn:Hst.
      * rewrite bool_decide_eq_true_2; [done|].
        apply videosToRemove_elem_of. split; [by eexists|done].
      * by case_bool_decide.
    + rewrite bool_decide_eq_false_2; [done|].
      intros Hv. apply videosToRemove_elem_of in Hv as [_ ?]. congruence.
  - rewrite Ha. destruct (lastActiveVideo (ctl w)) as [a|]; [|done].
    destruct (decide (is_Some (trackedVideos (ctl w) !! a)
                      ∧ insideNode node a = true)) as [[Htr Hin]|Hno].
    + rewrite bool_decide_eq_true_2
        by (apply videosToRemove_elem_of; by split).
      by rewrite (bool_decide_eq_true_2 _ Htr), Hin.
    + rewrite bool_decide_eq_false_2
        by (intros Hv; by apply videosToRemove_elem_of in Hv).
      destruct (decide (is_Some (trackedVideos (ctl w) !! a))) as [Htr|Htr].
      * rewrite (bool_decide_eq_true_2 _ Htr). cbn [andb].
        destruct (insideNode node a); [|done]. exfalso. by apply Hno.
      * by rewrite (bool_decide_eq_false_2 _ Htr).
Qed.

(** X23. [cleanupRemovedVideos] stops tracking exactly the tracked videos
    that the removed node is or contains, keeps the state of every other
    video, takes the lifecycle listeners off exactly the videos it stops
    tracking, forgets the last active video exactly when it is one of
    them, and leaves the hotkey state and the page alone. *)
Theorem cleanupRemovedVideos_forgets_inside (node : DomNode) (w : World) :
  (∀ v, trackedVideos (ctl (cleanupRemovedVideos node w)) !! v
        = if insideNode node v then None else trackedVideos (ctl w) !! v)
  ∧ (∀ v, v ∈ videoEventListeners (ctl (cleanupRemovedVideos node w))
          ↔ v ∈ videoEventListeners (ctl w)
            ∧ ¬ (is_Some (trackedVideos (ctl w) !! v)
                 ∧ insideNode node v = true))
  ∧ lastActiveVideo (ctl (cleanupRemovedVideos node w))
    = match lastActiveVideo (ctl w) with
      | Some a =>
          if bool_decide (is_Some (trackedVideos (ctl w) !! a))
             && insideNode node a
          then None else Some a
      | None => None
      end
  ∧ hotkeyState (ctl (cleanupRemovedVideos node w)) = hotkeyState (ctl w)
  ∧ doc (cleanupRemovedVideos node w) = doc w.
Proof.
  destruct (cleanupRemovedVideos_ctl node w) as (Ht & Ha & Hh).
  split; [done|]. split; [|by repeat split].
  unfold cleanupRemovedVideos. cbn [ctl doc withCtl].
  match goal with
  | |- context [foldl forgetVideo (ctl w) ?l] =>
      destruct (forgetLoop_spec l (ctl w)) as (_ & Hl & _)
  end.
  intros v. rewrite Hl. by rewrite videosToRemove_elem_of.
Qed.

(** A fold reaches [Q] once an element that forces it has been met, if
    [Q] is kept from then on and [P] is kept throughout. *)
Lemma foldl_reaches {A B} (P Q : A → Prop) (hit : B → Prop) (f : A → B → A)
    (l : list B) :
  (∀ a b, P a → P (f a b)) →
  (∀ a b, P a → Q a → Q (f a b)) →
  (∀ a b, P a → hit b → Q (f a b)) →
  ∀ a, P a → (∃ b, b ∈ l ∧ hit b) → Q (foldl f a l).
Proof.
  intros HP HQ Hhit. induction l as [|b l IH]; intros a Ha (b' & Hin & Hb').
  - by apply elem_of_nil in Hin.
  - cbn [foldl]. apply elem_of_cons in Hin as [->|Hin].
    + clear IH. assert (P (f a b) ∧ Q (f a b)) as Hstart by auto.
      revert Hstart. generalize (f a b). clear a Ha.
      induction l as [|b0 l IH]; intros a [Ha Hq]; [done|].
      cbn [foldl]. apply IH. auto.
    + apply IH; [by apply HP|by exists b'].
Qed.

Lemma removedNodeStep_pending w v acc node :
  removalPending w v acc → removalPending w v (removedNodeStep acc node).
Proof.
  destruct acc as [w1 removed]. unfold removalPending, removalSeen.
  cbn [fst snd]. intros (Hh & Hcase). unfold removedNodeStep.
  destruct (nodeContainsTrackedVideos node w1); [|done]. cbn [fst snd].
  destruct (cleanupRemovedVideos_ctl node w1) as (Ht & Ha & Hh1).
  split; [congruence|].
  destruct Hcase as [[Hlast Htr]|[_ Hlast]].
  - rewrite Ha, Hlast, Ht, (bool_decide_eq_true_2 _ Htr). cbn [andb].
    destruct (insideNode node v); [by right|by left].
  - right. by rewrite Ha, Hlast.
Qed.

Lemma removedNodeStep_seen w v acc node :
  removalPending w v acc → removalSeen acc →
  removalSeen (removedNodeStep acc node).
Proof.
  destruct acc as [w1 removed]. unfold removalPending, removalSeen.
  cbn [fst snd]. intros _ [-> Hlast]. unfold removedNodeStep.
  destruct (nodeContainsTrackedVideos node w1); [|done]. cbn [fst snd].
  destruct (cleanupRemovedVideos_ctl node w1) as (_ & Ha & _).
  by rewrite Ha, Hlast.
Qed.

Lemma removedNodeStep_hit w v acc node :
  removalPending w v acc → takesAway v node →
  removalSeen (removedNodeStep acc node).
Proof.
  intros Hpending [Helem Hcontains].
  destruct Hpending as (Hh & [[Hlast Htr]|Hseen]);
    [|by apply (removedNodeStep_seen w v); [split; [done|by right]|]].
  destruct acc as [w1 removed]. unfold removalSeen.
  cbn [fst snd] in *. unfold removedNodeStep.
  assert (Hfound : nodeContainsTrackedVideos node w1 = true).
  { unfold nodeContainsTrackedVideos. rewrite Helem. cbn [negb].
    destruct (_ && _); [done|].
    apply existsb_exists. exists v. split; [|done].
    apply list_elem_of_In. by apply elem_of_map_to_list_fst. }
  rewrite Hfound. cbn [fst snd]. split; [done|].
  destruct (cleanupRemovedVideos_ctl node w1) as (_ & Ha & _).
  rewrite Ha, Hlast, (bool_decide_eq_true_2 _ Htr). unfold insideNode.
  by rewrite Hcontains, orb_true_r.
Qed.

(** X24. When a node that contains the last active video is removed from
    the page while the hotkey is held, [handleDOMMutations] leaves the
    hotkey idle. *)
Theorem removal_of_boosted_video_releases (mutations : list MutationRecord)
    (now : N) (w : World) (v : VideoId) :
  isPressed (hotkeyState (ctl w)) = true →
  lastActiveVideo (ctl w) = Some v →
  is_Some (trackedVideos (ctl w) !! v) →
  (∃ mutation node, mutation ∈ mutations
                    ∧ mutationType mutation = "childList"
                    ∧ node ∈ removedNodes mutation
                    ∧ takesAway v node) →
  hotkeyState (ctl (handleDOMMutations mutations now w)) = idleHotkeyState.
Proof.
  intros Hp Hlast Htr (mutation & node & Hmut & Htype & Hnode & Htakes).
  assert (Hstart : removalPending w v (w, false)).
  { split; [done|]. by left. }
  assert (HP : ∀ acc m, removalPending w v acc →
                        removalPending w v (mutationStep acc m)).
  { intros acc m Hacc. unfold mutationStep.
    destruct (String.eqb _ _); [|done].
    apply foldl_preserves; [|done].
    intros; by apply removedNodeStep_pending. }
  assert (HQ : ∀ acc m, removalPending w v acc → removalSeen acc →
                        removalSeen (mutationStep acc m)).
  { intros acc m Hacc Hseen. unfold mutationStep.
    destruct (String.eqb _ _); [|done].
    revert acc Hacc Hseen. induction (removedNodes m) as [|n l IH]; [done|].
    intros acc Hacc Hseen. cbn [foldl].
    apply IH; [by apply removedNodeStep_pending
              |by apply (removedNodeStep_seen w v)]. }
  pose proof (foldl_reaches (removalPending w v) removalSeen
                (λ m, mutationType m = "childList"
                      ∧ ∃ n, n ∈ removedNodes m ∧ takesAway v n)
                mutationStep mutations HP HQ) as Hreach.
  assert (Hseen : removalSeen (foldl mutationStep (w, false) mutations)).
  { apply Hreach; [|done|by exists mutation; eauto].
    intros acc m Hacc (Hty & n & Hn & Ht). unfold mutationStep.
    assert (String.eqb (mutationType m) "childList" = true) as ->
      by by apply String.eqb_eq.
    apply (foldl_reaches (removalPending w v) removalSeen
             (takesAway v) removedNodeStep);
      [apply removedNodeStep_pending|apply removedNodeStep_seen
      |apply removedNodeStep_hit|done|by exists n]. }
  assert (Hpending : removalPending w v
                       (foldl mutationStep (w, false) mutations)).
  { by apply foldl_preserves. }
  unfold handleDOMMutations.
  destruct (foldl mutationStep (w, false) mutations) as [w1 removed].
  destruct Hseen as [Hrem Hnone]. destruct Hpending as [Hh _].
  cbn [fst snd] in *. subst removed.
  destruct (cleanupStaleElements_fields w1) as (Hh2 & _).
  pose proof (cleanupStaleElements_ctl w1) as Hctl.
  pose proof (pruneLoop_spec (doc w1) (map_to_list (trackedVideos (ctl w1)))
                (ctl w1) 0%nat) as (_ & _ & Hlast2).
  rewrite <- Hctl, Hnone in Hlast2.
  destruct (cleanupStaleElements w1) as [n w2]. cbn [snd] in *.
  rewrite Hh2, Hh, Hp, Hlast2. cbn [andb].
  apply deactivateSpeedBoost_spec. by rewrite Hh2, Hh.
Qed.

(** The player around the boosted video 1 is removed while the hotkey is
    held. *)
Lemma removal_of_boosted_video_releases_witness :
  hotkeyState (ctl (handleDOMMutations [playerRemoved] 3000 heldOnBoostedVideo))
  = idleHotkeyState.
Proof.
  refine (removal_of_boosted_video_releases [playerRemoved] 3000
            heldOnBoostedVideo 1%nat _ _ _ _).
  - reflexivity.
  - reflexivity.
  - eexists. vm_compute. reflexivity.
  - exists playerRemoved, playerNode.
    split; [apply list_elem_of_here|]. split; [reflexivity|].
    split; [apply list_elem_of_here|]. split; reflexivity.
Defined.

(** ** The boost as other parts of the extension see it *)

(** X25. [getCurrentSpeed] reads the rate of the video that the boost
    acts on: before the boost the rate of the active video; after a
    successful [applySpeedBoost] with a valid multiplier that multiplier;
    after a failed one the unchanged rate. The clock is assumed not to
    have gone back behind the timestamp held for the video. *)
Theorem getCurrentSpeed_reads_boost (m : JS.Value) (now1 now2 : N) (w : World)
    (v : VideoId) :
  validMultiplier m →
  fst (getActiveVideo now1 w) = Some v →
  (∀ st, trackedVideos (ctl w) !! v = Some st →
         isSpeedBoosted st = false ∧ (lastInteraction st <= now1)%N) →
  fst (getCurrentSpeed now1 w) = Some (playbackRate (element (doc w) v))
  ∧ (fst (applySpeedBoost m now1 w) = true →
     fst (getCurrentSpeed now2 (snd (applySpeedBoost m now1 w))) = Some m)
  ∧ (fst (applySpeedBoost m now1 w) = false →
     fst (getCurrentSpeed now2 (snd (applySpeedBoost m now1 w)))
     = Some (playbackRate (element (doc w) v))).
Proof.
  intros Hm Hsel Hpre.
  assert (Hget : ∀ now w0,
            fst (getCurrentSpeed now w0)
            = (λ u, playbackRate (element (doc w0) u))
                <$> fst (getActiveVideo now w0)).
  { intros now w0. unfold getCurrentSpeed.
    pose proof (getActiveVideo_doc now w0) as Hd.
    destruct (getActiveVideo now w0) as [[a|] w1]; cbn [fst snd] in *;
      by rewrite ?Hd. }
  rewrite !Hget, Hsel.
  rewrite (applySpeedBoost_then_select m now1 now2 w v Hsel
             (λ st Hst, proj2 (Hpre st Hst))).
  cbn [fmap option_fmap option_map]. split; [done|]. split.
  - intros Hok.
    destruct (applySpeedBoost_success_state m now1 w v Hsel
                (λ st Hst, proj1 (Hpre st Hst)) Hok) as (-> & _).
    by rewrite (validMultiplier_default m Hm).
  - intros Hfail. by rewrite (applySpeedBoost_false_doc m now1 w Hfail).
Qed.

(** Video 1 at rate 1 is boosted to 2: the current speed reads 2. *)
Lemma getCurrentSpeed_reads_boost_witness :
  fst (getCurrentSpeed 3000
         (snd (applySpeedBoost (JS.Num (JS.ofZ 2)) 2000 singleTrackedVideo)))
  = Some (JS.Num (JS.ofZ 2)).
Proof.
  refine (proj1 (proj2 (getCurrentSpeed_reads_boost (JS.Num (JS.ofZ 2))
                          2000 3000 singleTrackedVideo 1%nat _ _ _)) _).
  - split; vm_compute; congruence.
  - vm_compute. reflexivity.
  - intros st Hst. vm_compute in Hst. injection Hst as <-.
    split; [reflexivity|]. vm_compute. congruence.
  - vm_compute. reflexivity.
Defined.

(** X26. On a navigation inside the page, [handleNavigation] gives every
    tracked video that is marked as boosted and whose setter takes its
    original rate that rate back and drops the mark; every other video is
    left as it is, the hotkey state is not touched, and no indicator is
    visible. *)
Theorem handleNavigation_restores (w : World) :
  hotkeyState (ctl (handleNavigation w)) = hotkeyState (ctl w)
  ∧ isSpeedIndicatorVisible (handleNavigation w) = false
  ∧ (∀ v st, trackedVideos (ctl w) !! v = Some st →
             isSpeedBoosted st = true →
             acceptsRate (element (doc w) v) (originalRate st) = true →
             playbackRate (element (doc (handleNavigation w)) v)
             = originalRate st
             ∧ trackedVideos (ctl (handleNavigation w)) !! v
               = Some (markBoosted false st))
  ∧ (∀ v st, trackedVideos (ctl w) !! v = Some st →
             isSpeedBoosted st = false
             ∨ acceptsRate (element (doc w) v) (originalRate st) = false →
             element (doc (handleNavigation w)) v = element (doc w) v
             ∧ trackedVideos (ctl (handleNavigation w)) !! v = Some st)
  ∧ (∀ v, trackedVideos (ctl w) !! v = None →
          element (doc (handleNavigation w)) v = element (doc w) v
          ∧ trackedVideos (ctl (handleNavigation w)) !! v = None).
Proof.
  unfold handleNavigation.
  pose proof (resetAllSpeeds_spec w) as (Hh & _ & Ht & He).
  destruct (resetAllSpeeds w) as [n w1]. cbn [snd] in *.
  destruct (hideSpeedIndicator_spec w1) as (Hvis & Ht2 & Hh2 & He2).
  rewrite Hh2, Ht2, He2.
  split; [done|]. split; [done|]. split; [|split].
  - intros v st Hst Hb Hacc. rewrite He, Ht, Hst. cbn.
    by rewrite Hb, Hacc.
  - intros v st Hst Hwhy. rewrite He, Ht, Hst. cbn.
    destruct Hwhy as [Hb|Hacc]; [by rewrite Hb|].
    by rewrite Hacc, andb_false_r.
  - intros v Hst. by rewrite He, Ht, Hst.
Qed.

(** The hotkey is held on video 1, boosted from 1 to 2, when the page
    navigates: the video is back at rate 1 and the hotkey is still held. *)
Lemma handleNavigation_restores_witness :
  playbackRate (element (doc (handleNavigation heldOnBoostedVideo)) 1%nat)
  = JS.Num (JS.ofZ 1)
  ∧ hotkeyState (ctl (handleNavigation heldOnBoostedVideo)) = heldHotkey.
Proof.
  assert (Hst : trackedVideos (ctl heldOnBoostedVideo) !! 1%nat
                = Some {| originalRate := JS.Num (JS.ofZ 1);
                          isSpeedBoosted := true; platform := Generic;
                          lastInteraction := 1000 |})
    by (vm_compute; reflexivity).
  destruct (handleNavigation_restores heldOnBoostedVideo)
    as (Hheld & _ & Hback & _).
  split; [|exact Hheld].
  exact (proj1 (Hback 1%nat _ Hst eq_refl eq_refl)).
Defined.
